(** * Eleventy.js: the watch / build coordinator of a static-site generator

    A shallow embedding of the [Eleventy] class of [src/Eleventy.js]:
    the configuration-reset gate ([shouldTriggerConfigReset],
    [_shouldResetConfig]), the carry-over cache ([_cache], [init]), one
    build pass ([executeBuild], [logFinished]), the programmatic
    incremental switch ([setIncrementalFile]) and the watch loop
    ([watchRun], [_watch]).

    Instance fields become the record [Eleventy]; every method is a
    function in the monad [M] (state passing with JavaScript exceptions
    as [Rejected] results).  The calls that leave the class and that
    the properties speak about are recorded, in order, in the field
    [calls]. *)

From Stdlib Require Import String List Bool ZArith Lia Ascii.
From stdpp Require Import gmap strings list pretty.
Import ListNotations.
Open Scope string_scope.
Open Scope list_scope.

(** ** JavaScript values and errors *)

Abbreviation path := string.

(** The values an instance field can hold; [JRef] is a reference to an
    object, copied as a reference. *)
Inductive jsval :=
| JUndefined
| JNull
| JBool (b : bool)
| JNum (n : Z)
| JStr (s : string)
| JRef (l : nat).

(** JavaScript truthiness, as used by [if (x)], [!!x] and [x || y]. *)
Definition truthy (v : jsval) : bool :=
  match v with
  | JUndefined | JNull => false
  | JBool b => b
  | JNum n => negb (n =? 0)%Z
  | JStr s => negb (String.eqb s "")
  | JRef _ => true
  end.

(** A thrown value: its message and whether it is an instance of
    [EleventyBaseError]. *)
Record jserror := { message : string; isEleventyBaseError : bool }.

Definition Error (msg : string) : jserror :=
  {| message := msg; isEleventyBaseError := false |}.

(** Reading a method or property of [undefined]. *)
Definition TypeError (msg : string) : jserror :=
  {| message := msg; isEleventyBaseError := false |}.

(** How an awaited call settles. *)
Inductive outcome (A : Type) :=
| Resolved (a : A)
| Rejected (e : jserror).
Arguments Resolved {A} a.
Arguments Rejected {A} e.

(** [String.prototype.endsWith]. *)
Definition endsWith (s suffix : string) : bool :=
  (String.length suffix <=? String.length s)%nat &&
  String.eqb
    (substring (String.length s - String.length suffix) (String.length suffix) s)
    suffix.

(** A word between double quotes, for messages. *)
Definition quoted (s : string) : string :=
  String (ascii_of_nat 34) (s +:+ String (ascii_of_nat 34) EmptyString).

(** The insertion-ordered [Set] built by [new Set(array)]: first
    occurrences, in order. *)
Definition Set_has (s : list string) (x : string) : bool :=
  existsb (String.eqb x) s.

Definition Set_add (s : list string) (x : string) : list string :=
  if Set_has s x then s else (s ++ [x])%list.

Definition new_Set (l : list string) : list string :=
  fold_left Set_add l [].

(** ** The watch manager *)

(** Modelled from the spec: the class [EleventyWatch] (EleventyWatch.js
    is not among the sources).  Section 4.3 gives its state, a pending
    [queue], the [buildRunning] flag and the active queue snapshot;
    [incremental] is the property [setIncrementalBuild] assigns. *)
Record EleventyWatch := {
  incremental : bool;
  buildRunning : bool;
  active : list path;
  queue : list path;
}.

(** Modelled from the spec: [new EleventyWatch()], nothing queued and no
    build running. *)
Definition new_EleventyWatch : EleventyWatch :=
  {| incremental := false; buildRunning := false; active := []; queue := [] |}.

(** Modelled from the spec: [isBuildRunning()] reads the flag. *)
Definition isBuildRunning (w : EleventyWatch) : bool := buildRunning w.

(** Modelled from the spec: [setBuildRunning()], section 4.3 step 2:
    mark [buildRunning], snapshot the queue as the active queue of this
    cycle and clear it from the queue. *)
Definition setBuildRunning (w : EleventyWatch) : EleventyWatch :=
  {| incremental := incremental w; buildRunning := true;
     active := queue w; queue := [] |}.

(** Modelled from the spec: [setBuildFinished()], section 4.3 step 4:
    clear [buildRunning]. *)
Definition setBuildFinished (w : EleventyWatch) : EleventyWatch :=
  {| incremental := incremental w; buildRunning := false;
     active := active w; queue := queue w |}.

(** Modelled from the spec: [addToPendingQueue(path)], section 4.3
    step 1: insert into the queue, without duplicates. *)
Definition addToPendingQueue (p : path) (w : EleventyWatch) : EleventyWatch :=
  {| incremental := incremental w; buildRunning := buildRunning w;
     active := active w; queue := Set_add (queue w) p |}.

(** Modelled from the spec: [getActiveQueue()], the snapshot owned by
    the build in flight. *)
Definition getActiveQueue (w : EleventyWatch) : list path := active w.

(** Modelled from the spec: [getPendingQueueSize()]. *)
Definition getPendingQueueSize (w : EleventyWatch) : nat := length (queue w).

(** Modelled from the spec: [hasAllQueueFiles(predicate)], section 4.6:
    every path of the active queue satisfies the predicate. *)
Definition hasAllQueueFiles (f : path -> bool) (w : EleventyWatch) : bool :=
  forallb f (active w).

Definition set_incremental (b : bool) (w : EleventyWatch) : EleventyWatch :=
  {| incremental := b; buildRunning := buildRunning w;
     active := active w; queue := queue w |}.

(** ** The write pipeline object *)

(** What the [caches] getter of an instance offers: no such property, a
    falsy value, or the names of the fields to carry over. *)
Inductive caches_decl :=
| NoCaches
| CachesFalsy
| CachesOf (names : list string).

(** A [TemplateWriter] instance as [Eleventy] sees it: its properties,
    its [caches] getter and the three counters read by [logFinished]. *)
Record TemplateWriter := {
  fields : gmap string jsval;
  caches : caches_decl;
  writeCount : nat;
  skippedCount : nat;
  copyCount : nat;
}.

Definition set_fields (f : gmap string jsval) (w : TemplateWriter) : TemplateWriter :=
  {| fields := f; caches := caches w; writeCount := writeCount w;
     skippedCount := skippedCount w; copyCount := copyCount w |}.

Definition set_counts (c : nat * nat * nat) (w : TemplateWriter) : TemplateWriter :=
  {| fields := fields w; caches := caches w; writeCount := fst (fst c);
     skippedCount := snd (fst c); copyCount := snd c |}.

(** [inst[name]]: a missing property reads as [undefined]. *)
Definition get_field (w : TemplateWriter) (name : string) : jsval :=
  default JUndefined (fields w !! name).

(** ** Build results, reload payloads and the call trace *)

(** What [executeBuild] returns.  For the file-system target the write
    pipeline resolves to the array [[copy, t1, t2, ...]]: the passthrough
    copy results followed by one array per template, whose entries are
    result objects (named by their heap address) or falsy holes.  For
    the JSON targets [getJSON] resolves to an array with one entry per
    template. *)
Inductive retval :=
| RetFs (copy : jsval) (rest : list (list (option nat)))
| RetJson (entries : list (option nat))
| RetStream
| RetError (e : jserror).

(** The argument of [eleventyServe.reload]: the changed files, the
    subtype, and the template result objects, each with the [url] it
    carries when the payload is handed over. *)
Record ReloadPayload := {
  files : list path;
  subtype : option string;
  templates : list (nat * string);
}.

(** Calls that leave the class, in the order they are made. *)
Inductive event :=
| Emit (name : string) (paths : list path)
| EmitBuild (name outputMode : string) (isIncr : bool) (results : option (list nat))
| ResourceModified (p : path) (usedBy : list path) (viaConfigReset : bool)
    (relevantLayouts : list path)
| ErrorHandlerError (e : jserror) (msg : string)
| ErrorHandlerFatal (e : jserror) (msg : string)
| BenchFinish
| BenchReset
| LoggerMessage (text type color : string) (force : bool)
| LoggerLog (text : string)
| LoggerCloseStream (to : string)
| WriterCall (method : string) (arg : jsval)
| Collaborator (method : string) (paths : list path)
| ServeSendError (e : jserror)
| ServeReload (p : ReloadPayload)
| WatchManagerSetBuildRunning
| WatchManagerSetBuildFinished
| Call_cache (key : string)
| ProcessExit.

(** What the collaborators do while one pass is awaited: which awaited
    call rejects (by name), what the write pipeline resolves to, the
    counters it leaves on the writer and the result objects it
    allocates (address and [url]). *)
Record Run := {
  rejects : string -> option jserror;
  fsResult : outcome (jsval * list (list (option nat)));
  jsonResult : string -> outcome (list (option nat));
  countsAfter : nat * nat * nat;
  objects : gmap nat string;
}.

(** An activation of [_watch] that has claimed the build flag and is
    suspended at an [await]: its local [queue] and its argument. *)
Record Cycle := {
  cycleQueue : list path;
  cycleIsResetConfig : bool;
}.

(** ** The instance *)

(** The fields of an [Eleventy] instance that the modelled methods read
    or write, the heap of template result objects (their [url]
    property), the pending debounce timer [watchDelay] (holding the
    [isResetConfig] its callback closes over), the suspended [_watch]
    activations, and whether [process.exit] was reached. *)
Record Eleventy := {
  source : string;
  needsInit : bool;
  _initing : option (outcome unit);
  _hasConfigInitialized : bool;
  isIncremental : bool;
  isRunInitialBuild : bool;
  programmaticApiIncrementalFile : jsval;
  watchManager : option EleventyWatch;
  writer : option TemplateWriter;
  _privateCaches : option (gmap string (gmap string jsval));
  heap : gmap nat string;
  watchDelay : option bool;
  suspended : list Cycle;
  exited : bool;
  calls : list event;
}.

Definition set_needsInit (v : bool) (st : Eleventy) : Eleventy :=
  {| source := source st; needsInit := v; _initing := _initing st;
     _hasConfigInitialized := _hasConfigInitialized st;
     isIncremental := isIncremental st; isRunInitialBuild := isRunInitialBuild st;
     programmaticApiIncrementalFile := programmaticApiIncrementalFile st;
     watchManager := watchManager st; writer := writer st;
     _privateCaches := _privateCaches st; heap := heap st;
     watchDelay := watchDelay st; suspended := suspended st;
     exited := exited st; calls := calls st |}.

Definition set__initing (v : option (outcome unit)) (st : Eleventy) : Eleventy :=
  {| source := source st; needsInit := needsInit st; _initing := v;
     _hasConfigInitialized := _hasConfigInitialized st;
     isIncremental := isIncremental st; isRunInitialBuild := isRunInitialBuild st;
     programmaticApiIncrementalFile := programmaticApiIncrementalFile st;
     watchManager := watchManager st; writer := writer st;
     _privateCaches := _privateCaches st; heap := heap st;
     watchDelay := watchDelay st; suspended := suspended st;
     exited := exited st; calls := calls st |}.

Definition set__hasConfigInitialized (v : bool) (st : Eleventy) : Eleventy :=
  {| source := source st; needsInit := needsInit st; _initing := _initing st;
     _hasConfigInitialized := v;
     isIncremental := isIncremental st; isRunInitialBuild := isRunInitialBuild st;
     programmaticApiIncrementalFile := programmaticApiIncrementalFile st;
     watchManager := watchManager st; writer := writer st;
     _privateCaches := _privateCaches st; heap := heap st;
     watchDelay := watchDelay st; suspended := suspended st;
     exited := exited st; calls := calls st |}.

Definition set_isIncremental (v : bool) (st : Eleventy) : Eleventy :=
  {| source := source st; needsInit := needsInit st; _initing := _initing st;
     _hasConfigInitialized := _hasConfigInitialized st;
     isIncremental := v; isRunInitialBuild := isRunInitialBuild st;
     programmaticApiIncrementalFile := programmaticApiIncrementalFile st;
     watchManager := watchManager st; writer := writer st;
     _privateCaches := _privateCaches st; heap := heap st;
     watchDelay := watchDelay st; suspended := suspended st;
     exited := exited st; calls := calls st |}.

Definition set_isRunInitialBuild (v : bool) (st : Eleventy) : Eleventy :=
  {| source := source st; needsInit := needsInit st; _initing := _initing st;
     _hasConfigInitialized := _hasConfigInitialized st;
     isIncremental := isIncremental st; isRunInitialBuild := v;
     programmaticApiIncrementalFile := programmaticApiIncrementalFile st;
     watchManager := watchManager st; writer := writer st;
     _privateCaches := _privateCaches st; heap := heap st;
     watchDelay := watchDelay st; suspended := suspended st;
     exited := exited st; calls := calls st |}.

Definition set_programmaticApiIncrementalFile (v : jsval) (st : Eleventy) : Eleventy :=
  {| source := source st; needsInit := needsInit st; _initing := _initing st;
     _hasConfigInitialized := _hasConfigInitialized st;
     isIncremental := isIncremental st; isRunInitialBuild := isRunInitialBuild st;
     programmaticApiIncrementalFile := v;
     watchManager := watchManager st; writer := writer st;
     _privateCaches := _privateCaches st; heap := heap st;
     watchDelay := watchDelay st; suspended := suspended st;
     exited := exited st; calls := calls st |}.

Definition set_watchManager (v : option EleventyWatch) (st : Eleventy) : Eleventy :=
  {| source := source st; needsInit := needsInit st; _initing := _initing st;
     _hasConfigInitialized := _hasConfigInitialized st;
     isIncremental := isIncremental st; isRunInitialBuild := isRunInitialBuild st;
     programmaticApiIncrementalFile := programmaticApiIncrementalFile st;
     watchManager := v; writer := writer st;
     _privateCaches := _privateCaches st; heap := heap st;
     watchDelay := watchDelay st; suspended := suspended st;
     exited := exited st; calls := calls st |}.

Definition set_writer (v : option TemplateWriter) (st : Eleventy) : Eleventy :=
  {| source := source st; needsInit := needsInit st; _initing := _initing st;
     _hasConfigInitialized := _hasConfigInitialized st;
     isIncremental := isIncremental st; isRunInitialBuild := isRunInitialBuild st;
     programmaticApiIncrementalFile := programmaticApiIncrementalFile st;
     watchManager := watchManager st; writer := v;
     _privateCaches := _privateCaches st; heap := heap st;
     watchDelay := watchDelay st; suspended := suspended st;
     exited := exited st; calls := calls st |}.

Definition set__privateCaches (v : option (gmap string (gmap string jsval)))
    (st : Eleventy) : Eleventy :=
  {| source := source st; needsInit := needsInit st; _initing := _initing st;
     _hasConfigInitialized := _hasConfigInitialized st;
     isIncremental := isIncremental st; isRunInitialBuild := isRunInitialBuild st;
     programmaticApiIncrementalFile := programmaticApiIncrementalFile st;
     watchManager := watchManager st; writer := writer st;
     _privateCaches := v; heap := heap st;
     watchDelay := watchDelay st; suspended := suspended st;
     exited := exited st; calls := calls st |}.

Definition set_heap (v : gmap nat string) (st : Eleventy) : Eleventy :=
  {| source := source st; needsInit := needsInit st; _initing := _initing st;
     _hasConfigInitialized := _hasConfigInitialized st;
     isIncremental := isIncremental st; isRunInitialBuild := isRunInitialBuild st;
     programmaticApiIncrementalFile := programmaticApiIncrementalFile st;
     watchManager := watchManager st; writer := writer st;
     _privateCaches := _privateCaches st; heap := v;
     watchDelay := watchDelay st; suspended := suspended st;
     exited := exited st; calls := calls st |}.

Definition set_watchDelay (v : option bool) (st : Eleventy) : Eleventy :=
  {| source := source st; needsInit := needsInit st; _initing := _initing st;
     _hasConfigInitialized := _hasConfigInitialized st;
     isIncremental := isIncremental st; isRunInitialBuild := isRunInitialBuild st;
     programmaticApiIncrementalFile := programmaticApiIncrementalFile st;
     watchManager := watchManager st; writer := writer st;
     _privateCaches := _privateCaches st; heap := heap st;
     watchDelay := v; suspended := suspended st;
     exited := exited st; calls := calls st |}.

Definition set_suspended (v : list Cycle) (st : Eleventy) : Eleventy :=
  {| source := source st; needsInit := needsInit st; _initing := _initing st;
     _hasConfigInitialized := _hasConfigInitialized st;
     isIncremental := isIncremental st; isRunInitialBuild := isRunInitialBuild st;
     programmaticApiIncrementalFile := programmaticApiIncrementalFile st;
     watchManager := watchManager st; writer := writer st;
     _privateCaches := _privateCaches st; heap := heap st;
     watchDelay := watchDelay st; suspended := v;
     exited := exited st; calls := calls st |}.

Definition set_exited (v : bool) (st : Eleventy) : Eleventy :=
  {| source := source st; needsInit := needsInit st; _initing := _initing st;
     _hasConfigInitialized := _hasConfigInitialized st;
     isIncremental := isIncremental st; isRunInitialBuild := isRunInitialBuild st;
     programmaticApiIncrementalFile := programmaticApiIncrementalFile st;
     watchManager := watchManager st; writer := writer st;
     _privateCaches := _privateCaches st; heap := heap st;
     watchDelay := watchDelay st; suspended := suspended st;
     exited := v; calls := calls st |}.

Definition set_calls (v : list event) (st : Eleventy) : Eleventy :=
  {| source := source st; needsInit := needsInit st; _initing := _initing st;
     _hasConfigInitialized := _hasConfigInitialized st;
     isIncremental := isIncremental st; isRunInitialBuild := isRunInitialBuild st;
     programmaticApiIncrementalFile := programmaticApiIncrementalFile st;
     watchManager := watchManager st; writer := writer st;
     _privateCaches := _privateCaches st; heap := heap st;
     watchDelay := watchDelay st; suspended := suspended st;
     exited := exited st; calls := v |}.

(** ** The monad of methods *)

(** A method body: it reads and updates the instance and either returns
    or throws; the instance keeps the updates made before a throw. *)
Definition M (A : Type) : Type := Eleventy -> outcome A * Eleventy.

Definition ret {A} (a : A) : M A := fun st => (Resolved a, st).

Definition throw {A} (e : jserror) : M A := fun st => (Rejected e, st).

Definition bind {A B} (m : M A) (k : A -> M B) : M B :=
  fun st =>
    match m st with
    | (Resolved a, st') => k a st'
    | (Rejected e, st') => (Rejected e, st')
    end.

Notation "'let*' x ':=' m 'in' k" := (bind m (fun x => k))
  (at level 10, x name, m at level 100, k at level 200).
Notation "m '>>' k" := (bind m (fun _ => k))
  (at level 100, k at level 200, right associativity).

Definition get {A} (f : Eleventy -> A) : M A := fun st => (Resolved (f st), st).

Definition modify (f : Eleventy -> Eleventy) : M unit := fun st => (Resolved tt, f st).

(** Record one outgoing call. *)
Definition call (e : event) : M unit :=
  modify (fun st => set_calls (calls st ++ [e])%list st).

(** An awaited collaborator call: it rejects when the run says so, and
    is recorded otherwise. *)
Definition await (run : Run) (name : string) (e : event) : M unit :=
  match rejects run name with
  | Some err => throw err
  | None => call e
  end.

(** [try { body } catch (e) { handler }]; the flag tells whether the
    handler ran. *)
Definition try_catch {A} (body : M A) (handler : jserror -> M A) : M (outcome A * bool) :=
  fun st =>
    match body st with
    | (Resolved a, st') => (Resolved (Resolved a, false), st')
    | (Rejected e, st') =>
        let (r, st'') := handler e st' in (Resolved (r, true), st'')
    end.

(** [... finally { fin }]: the finalizer always runs; what it throws
    replaces the pending result. *)
Definition finally {A} (pending : outcome A) (fin : M unit) : M A :=
  fun st =>
    match fin st with
    | (Resolved _, st') => (pending, st')
    | (Rejected e, st') => (Rejected e, st')
    end.

(** ** Collaborators *)

(** The classes and helpers [Eleventy] calls whose code is outside
    [src/Eleventy.js].  Their pure answers are parameters of the
    development; their effects appear in [calls]. *)
Class Collaborators := {
  (** [eleventyConfig.getLocalProjectConfigFiles()] *)
  getLocalProjectConfigFiles : list path;
  (** [this.config.pathPrefix] *)
  configPathPrefix : string;
  (** [watchTargets.getDependenciesOf(path)] *)
  getDependenciesOf : path -> list path;
  (** [watchTargets.getDependantsOf(path)] *)
  getDependantsOf : path -> list path;
  (** [watchTargets.getNewTargetsSinceLastReset()] *)
  getNewTargetsSinceLastReset : list path;
  (** [eleventyConfig.usesGraph.getLayoutsUsedBy(path)] *)
  getLayoutsUsedBy : path -> list path;
  (** [TemplatePath.addLeadingDotSlash], [TemplatePath.normalize] and
      [TemplatePath.startsWithSubPath] of @11ty/eleventy-utils *)
  addLeadingDotSlash : path -> path;
  normalizePath : path -> path;
  startsWithSubPath : path -> path -> bool;
  (** [PathNormalizer.normalizeSeperator] *)
  normalizeSeperator : path -> path;
  (** [PathPrefixer.normalizePathPrefix] and [PathPrefixer.joinUrlParts] *)
  normalizePathPrefix : string -> string;
  joinUrlParts : string -> string -> string;
  (** [eleventyFiles.getIncludesDir()] *)
  getIncludesDir : path;
  (** [checkPassthroughCopyBehavior(this.config, this.runMode)] of
      Util/PassthroughCopyBehaviorCheck.js and
      [eleventyFiles.getGlobWatcherFilesForPassthroughCopy()] *)
  checkPassthroughCopyBehavior : bool;
  getGlobWatcherFilesForPassthroughCopy : list path;
  (** [watchTargets.watchJavaScriptDependencies], which
      [initializeConfig] copies from the configuration *)
  watchJavaScriptDependencies : bool;
  (** [eleventyFiles.getWatchPathCache()], [templateData.getWatchPathCache()]
      and [eleventyFiles.getWatcherTemplateJavaScriptDataFiles()] *)
  getWatchPathCache : list path;
  getGlobalDataWatchPathCache : list path;
  getWatcherTemplateJavaScriptDataFiles : list path;
  (** the instance [new TemplateWriter(...)] constructs *)
  new_TemplateWriter : TemplateWriter;
  (** [watchManager.getIncrementalFile()] *)
  getIncrementalFile : EleventyWatch -> jsval;
  (** [this.logger] and [this.extensionMap], as object references *)
  loggerObject : jsval;
  extensionMapObject : jsval;
  (** [simplePlural(count, singular, plural)] of Util/Pluralize.js *)
  simplePlural : jsval -> string -> string -> string;
  (** [pkg.version] *)
  version : string;
  (** the elapsed seconds [((now - start) / 1000).toFixed(2)] and the
      per-file milliseconds [((time * 1000) / writeCount).toFixed(1)],
      both floating-point renderings *)
  elapsedSeconds : string;
  msEach : nat -> string;
}.

Section Methods.
Context `{E : Collaborators}.

(** ** The configuration-reset gate *)

(** [shouldTriggerConfigReset(changedFiles)], lines 792-812. *)
Definition shouldTriggerConfigReset (changedFiles : list path) : bool :=
  let configFilePaths := new_Set getLocalProjectConfigFiles in
  if existsb (fun filePath => Set_has configFilePaths filePath) changedFiles
  then true
  else
    existsb
      (fun configFilePath =>
         let configFileDependencies := new_Set (getDependenciesOf configFilePath) in
         existsb (fun filePath => Set_has configFileDependencies filePath) changedFiles)
      configFilePaths.

(** [_shouldResetConfig(activeQueue = [])], lines 815-825. *)
Definition _shouldResetConfig (activeQueue : list path) : bool :=
  if (length activeQueue =? 0)%nat then false
  else
    shouldTriggerConfigReset
      (map (fun p => normalizeSeperator (addLeadingDotSlash p)) activeQueue).

(** ** Incremental switches *)

(** [this.watchManager], which is [undefined] before
    [initializeConfig]. *)
Definition the_watchManager : M EleventyWatch :=
  fun st =>
    match watchManager st with
    | Some w => (Resolved w, st)
    | None =>
        (Rejected (TypeError "Cannot read properties of undefined (watchManager)"), st)
    end.

(** [setIncrementalBuild(isIncremental)], lines 287-290. *)
Definition setIncrementalBuild (isIncremental : jsval) : M unit :=
  modify (set_isIncremental (truthy isIncremental)) >>
  let* w := the_watchManager in
  modify (set_watchManager (Some (set_incremental (truthy isIncremental) w))).

(** [setIgnoreInitial(ignoreInitialBuild)], lines 299-301. *)
Definition setIgnoreInitial (ignoreInitialBuild : jsval) : M unit :=
  modify (set_isRunInitialBuild (negb (truthy ignoreInitialBuild))).

(** [setIncrementalFile(incrementalFile)], lines 656-664. *)
Definition setIncrementalFile (incrementalFile : jsval) : M unit :=
  if truthy incrementalFile then
    setIgnoreInitial (JBool true) >>
    setIncrementalBuild (JBool true) >>
    modify (set_programmaticApiIncrementalFile incrementalFile)
  else ret tt.

(** ** The summary line *)

(** [this.writer], for a method call or a property access on it. *)
Definition the_writer : M TemplateWriter :=
  fun st =>
    match writer st with
    | Some w => (Resolved w, st)
    | None => (Rejected (TypeError "Cannot read properties of undefined (writer)"), st)
    end.

(** [logFinished()], lines 338-377. *)
Definition logFinished : M string :=
  fun st =>
    match writer st with
    | None =>
        (Rejected (Error
           "Did you call Eleventy.init to create the TemplateWriter instance? Hint: you probably didn’t."),
         st)
    | Some w =>
        let writeCount := writeCount w in
        let skippedCount := skippedCount w in
        let copyCount := copyCount w in
        let slashRet :=
          ((if (copyCount =? 0)%nat then []
            else ["Copied " +:+ pretty copyCount +:+ " " +:+
                  simplePlural (JNum (Z.of_nat copyCount)) "file" "files"]) ++
           ["Wrote " +:+ pretty writeCount +:+ " " +:+
            simplePlural (JNum (Z.of_nat writeCount)) "file" "files" +:+
            (if (skippedCount =? 0)%nat then ""
             else " (skipped " +:+ pretty skippedCount +:+ ")")])%list in
        let ret0 :=
          if (length slashRet =? 0)%nat then [] else [String.concat " / " slashRet] in
        let time := elapsedSeconds in
        let ret1 := (ret0 ++ ["in " +:+ time +:+ " " +:+
                              simplePlural (JStr time) "second" "seconds"])%list in
        let ret2 :=
          (ret1 ++ [if (10 <=? writeCount)%nat
                    then "(" +:+ msEach writeCount +:+ "ms each, v" +:+ version +:+ ")"
                    else "(v" +:+ version +:+ ")"])%list in
        (Resolved (String.concat " " ret2), st)
    end.

(** ** The carry-over cache *)

(** The restore loop [for (let cacheKey in c) inst[cacheKey] = c[cacheKey]]. *)
Definition restore_fields (c : gmap string jsval) (inst : TemplateWriter) : TemplateWriter :=
  set_fields (map_fold (fun cacheKey v f => <[cacheKey := v]> f) (fields inst) c) inst.

(** [inst.caches || []]. *)
Definition declared_caches (inst : TemplateWriter) : list string :=
  match caches inst with
  | CachesOf names => names
  | _ => []
  end.

(** The capture loop
    [for (let cacheKey of inst.caches || []) c[cacheKey] = inst[cacheKey]]. *)
Definition capture_fields (inst : TemplateWriter) : gmap string jsval :=
  fold_left (fun c cacheKey => <[cacheKey := get_field inst cacheKey]> c)
            (declared_caches inst) ∅.

(** [_cache(key, inst)], lines 379-402.  The instance is updated in
    place; the updated instance is returned to the caller, who holds
    the same object.  Each invocation is recorded in [calls]. *)
Definition _cache (key : string) (inst : TemplateWriter) : M TemplateWriter :=
  call (Call_cache key) >>
  let* pc := get _privateCaches in
  (match pc with
   | Some _ => ret tt
   | None => modify (set__privateCaches (Some ∅))
   end) >>
  match caches inst with
  | NoCaches => throw (Error "To use _cache you need a `caches` getter object")
  | _ =>
      let* pc := get (fun st => default ∅ (_privateCaches st)) in
      match pc !! key with
      | Some c => ret (restore_fields c inst)
      | None =>
          modify (set__privateCaches (Some (<[key := capture_fields inst]> pc))) >>
          ret inst
      end
  end.

(** ** Initialisation *)

(** [initializeConfig()], lines 129-220: of its assignments, the fresh
    watch manager and the flag [_hasConfigInitialized] are the ones the
    modelled methods depend on. *)
Definition initializeConfig (run : Run) : M unit :=
  await run "eleventyConfig.init" (Collaborator "eleventyConfig.init" []) >>
  modify (set_watchManager (Some new_EleventyWatch)) >>
  modify (set__hasConfigInitialized true).

(** The assignment [this.writer.name = value]. *)
Definition writer_assign (name : string) (v : jsval) : M unit :=
  let* w := the_writer in
  modify (set_writer (Some (set_fields (<[name := v]> (fields w)) w))).

(** A method call [this.writer.method(arg)] of a setter of the writer:
    the call is recorded.  What the setter does to the writer is not
    modelled (TemplateWriter.js is not among the sources). *)
Definition writer_call (method : string) (arg : jsval) : M unit :=
  the_writer >> call (WriterCall method arg).

(** [init(options)], lines 411-467, with [options.viaConfigReset] as
    its argument (false when omitted): the configuration, the events
    and the collaborators, the new writer and the cache step. *)
Definition init_objects (viaConfigReset : bool) (run : Run) : M unit :=
  (let* ready := get _hasConfigInitialized in
   if ready then ret tt else initializeConfig run) >>
  await run "eleventy.config" (Emit "eleventy.config" []) >>
  await run "eleventy.env" (Emit "eleventy.env" []) >>
  await run "eleventy.extensionmap" (Emit "eleventy.extensionmap" []) >>
  call (Collaborator "eleventyServe.setOutputDir" []) >>
  call (Collaborator "eleventyFiles.init" []) >>
  (if checkPassthroughCopyBehavior then
     call (Collaborator "eleventyServe.watchPassthroughCopy"
             getGlobWatcherFilesForPassthroughCopy)
   else ret tt) >>
  (* Note these directories are all project root relative *)
  call (Emit "eleventy.directories" []) >>
  modify (set_writer (Some new_TemplateWriter)) >>
  (if negb viaConfigReset then
     (* set or restore cache *)
     let* inst := _cache "TemplateWriter" new_TemplateWriter in
     modify (set_writer (Some inst))
   else ret tt).

(** [init], lines 469-492: the writer is given its logger, its
    extension map and its settings, and the instance is marked as
    initialised.  The arguments [eleventyFiles], [verboseMode] and
    [isDryRun] are not among the modelled fields and are recorded as
    [undefined]. *)
Definition init_writer : M unit :=
  writer_assign "logger" loggerObject >>
  writer_assign "extensionMap" extensionMapObject >>
  writer_call "setEleventyFiles" JUndefined >>
  (let* b := get isRunInitialBuild in writer_call "setRunInitialBuild" (JBool b)) >>
  (let* b := get isIncremental in writer_call "setIncrementalBuild" (JBool b)) >>
  writer_call "setVerboseOutput" JUndefined >>
  writer_call "setDryRun" JUndefined >>
  modify (set_needsInit false).

(** [init(options)], lines 411-493. *)
Definition init (viaConfigReset : bool) (run : Run) : M unit :=
  init_objects viaConfigReset run >> init_writer.

(** ** One build pass *)

(** [array.flat()] on an array of arrays. *)
Definition flat {A} (xs : list (list A)) : list A := concat xs.

(** [array.filter((entry) => !!entry)]. *)
Fixpoint filter_truthy (xs : list (option nat)) : list nat :=
  match xs with
  | [] => []
  | Some entry :: xs' => entry :: filter_truthy xs'
  | None :: xs' => filter_truthy xs'
  end.

(** The write pipeline runs: [this.writer.write()] or
    [this.writer.getJSON(mode)], awaited.  It leaves its counters on
    the writer and its result objects on the heap. *)
Definition pipeline {A} (method : string) (arg : jsval) (result : outcome A)
    (run : Run) : M A :=
  let* w := the_writer in
  call (WriterCall method arg) >>
  modify (set_writer (Some (set_counts (countsAfter run) w))) >>
  modify (fun st => set_heap (objects run ∪ heap st) st) >>
  match result with
  | Resolved a => ret a
  | Rejected e => throw e
  end.

(** The [try] block of [executeBuild], lines 1231-1284.  The
    destructuring [[, ...templateResults] = ret] of line 1266 skips the
    first element of the array of every target. *)
Definition executeBuild_try (to : string) (run : Run) : M retval :=
  let* incr := get isIncremental in
  await run "beforeBuild" (EmitBuild "beforeBuild" to incr None) >>
  await run "eleventy.before" (EmitBuild "eleventy.before" to incr None) >>
  let* r :=
    (if String.eqb to "fs" then
       let* r := pipeline "write" JUndefined (fsResult run) run in
       let '(copy, templateResults) := r in
       (* New in 3.0: flatten return object for return. *)
       let ret1 := filter_truthy (flat templateResults) in
       ret (RetFs copy (map Some ret1 :: tl templateResults), ret1)
     else if String.eqb to "json" then
       let* r := pipeline "getJSON" (JStr "json") (jsonResult run "json") run in
       (* Passing the processed output to the eleventy.after event is new in 2.0 *)
       let templateResults := tl r in
       ret (RetJson r, filter_truthy templateResults)
     else if String.eqb to "ndjson" then
       let* r := pipeline "getJSON" (JStr "ndjson") (jsonResult run "ndjson") run in
       let templateResults := tl r in
       (* return a stream *)
       call (LoggerCloseStream to) >>
       ret (RetStream, filter_truthy templateResults)
     else
       throw (Error ("Invalid argument for `Eleventy->executeBuild(" +:+ to +:+
                     ")`, expected " +:+ quoted "json" +:+ ", " +:+
                     quoted "ndjson" +:+ ", or " +:+ quoted "fs" +:+ "."))) in
  let '(result, results) := r in
  await run "afterBuild" (EmitBuild "afterBuild" to incr (Some results)) >>
  await run "eleventy.after" (EmitBuild "eleventy.after" to incr (Some results)) >>
  ret result.

(** The [catch] block, lines 1285-1297. *)
Definition executeBuild_catch (e : jserror) : M retval :=
  let* src := get source in
  (* Issue #2405 *)
  if String.eqb src "script" then
    call (ErrorHandlerError e "Problem writing Eleventy templates") >>
    throw e
  else
    call (ErrorHandlerFatal e "Problem writing Eleventy templates") >>
    ret (RetError e).

(** The [finally] block, lines 1298-1308. *)
Definition executeBuild_finally (to : string) (hasError : bool) : M unit :=
  call BenchFinish >>
  if String.eqb to "fs" then
    let* text := logFinished in
    call (LoggerMessage text "info" (if hasError then "red" else "green") true)
  else ret tt.

(** The statements of [executeBuild] before its [try], lines 1207-1229:
    the shared initialisation, the check that a writer exists and the
    programmatic incremental file. *)
Definition executeBuild_ready (run : Run) : M unit :=
  (let* needs := get needsInit in
   if needs then
     (let* p := get _initing in
      let* settled :=
        match p with
        | Some settled => ret settled
        | None =>
            fun st =>
              let (settled, st') := init false run st in
              (Resolved settled, set__initing (Some settled) st')
        end in
      match settled with
      | Resolved _ => ret tt
      | Rejected e => throw e
      end) >>
     modify (set_needsInit false)
   else ret tt) >>
  (let* w := get writer in
   match w with
   | Some _ => ret tt
   | None =>
       call (ErrorHandlerFatal
               (Error "Eleventy didn’t run init() properly and wasn’t able to create a TemplateWriter.")
               "Problem writing Eleventy templates")
   end) >>
  (let* f := get programmaticApiIncrementalFile in
   if truthy f then writer_call "setIncrementalFile" f else ret tt).

(** [executeBuild(to = "fs")], lines 1206-1311. *)
Definition executeBuild (to : string) (run : Run) : M retval :=
  executeBuild_ready run >>
  let* caught := try_catch (executeBuild_try to run) executeBuild_catch in
  let '(pending, hasError) := caught in
  finally pending (executeBuild_finally to hasError).

(** [write()], lines 1173-1175. *)
Definition write (run : Run) : M retval := executeBuild "fs" run.

(** [toJSON()], lines 1184-1186. *)
Definition toJSON (run : Run) : M retval := executeBuild "json" run.

(** [toNDJSON()], lines 1195-1197. *)
Definition toNDJSON (run : Run) : M retval := executeBuild "ndjson" run.

(** ** The watch loop *)

(** [resetConfig()], lines 750-763: the awaited
    [eleventyConfig.reset()].  The environment variables of lines
    751-752 are not among the modelled fields; the verbosity of lines
    759-762 is [Verbose.resetConfig]. *)
Definition resetConfig (run : Run) : M unit :=
  await run "eleventyConfig.reset" (Collaborator "eleventyConfig.reset" []).

(** [restart()], lines 323-330. *)
Definition restart : M unit :=
  call BenchReset >>
  call (Collaborator "eleventyFiles.restart" []) >>
  call (Collaborator "extensionMap.reset" []).

(** [_initWatchDependencies()], lines 989-1019.  The four awaited
    calls of [addDependencies] are told apart by what they add. *)
Definition _initWatchDependencies (run : Run) : M unit :=
  if negb watchJavaScriptDependencies then ret tt
  else
    (* Lazy resolve isEsm only for --watch *)
    call (Collaborator "watchTargets.setProjectUsingEsm" []) >>
    (* Template files .11ty.js *)
    await run "eleventyFiles.getWatchPathCache"
      (Collaborator "eleventyFiles.getWatchPathCache" []) >>
    await run "watchTargets.addDependencies(templateFiles)"
      (Collaborator "watchTargets.addDependencies" getWatchPathCache) >>
    (* Config file dependencies *)
    await run "watchTargets.addDependencies(configFiles)"
      (Collaborator "watchTargets.addDependencies" getLocalProjectConfigFiles) >>
    (* Deps from Global Data (that aren’t in the global data directory, everything is watched there) *)
    await run "watchTargets.addDependencies(globalDataDeps)"
      (Collaborator "watchTargets.addDependencies" getGlobalDataWatchPathCache) >>
    await run "eleventyFiles.getWatcherTemplateJavaScriptDataFiles"
      (Collaborator "eleventyFiles.getWatcherTemplateJavaScriptDataFiles" []) >>
    await run "watchTargets.addDependencies(templateJavaScriptDataFiles)"
      (Collaborator "watchTargets.addDependencies" getWatcherTemplateJavaScriptDataFiles).

(** [_addFileToWatchQueue(changedFilePath, isResetConfig)], lines
    772-790, with [this.watchTargets] set, as it is in watch mode.  The
    body has no [await]: it runs to its end within the caller's turn. *)
Definition _addFileToWatchQueue (changedFilePath : path) (isResetConfig : bool) : M unit :=
  (* Currently this is only for 11ty.js deps but should be extended with usesGraph *)
  let usedByDependants := getDependantsOf (addLeadingDotSlash changedFilePath) in
  let relevantLayouts := getLayoutsUsedBy changedFilePath in
  (* Note: this is a sync event! *)
  call (ResourceModified changedFilePath usedByDependants isResetConfig relevantLayouts) >>
  let* w := the_watchManager in
  modify (set_watchManager (Some (addToPendingQueue changedFilePath w))).

(** [entry.url], read from the heap. *)
Definition url_of (h : gmap nat string) (entry : nat) : string :=
  default "" (h !! entry).

(** The callback of [.map] in the reload payload, lines 901-904: it
    assigns the [url] of the entry object itself. *)
Definition prefix_url (normalizedPathPrefix : string) (entry : nat) : M nat :=
  modify (fun st =>
            set_heap (<[entry := joinUrlParts normalizedPathPrefix (url_of (heap st) entry)]>
                        (heap st)) st) >>
  ret entry.

(** [array.map(callback)] for a callback with effects, front to back. *)
Fixpoint array_map {A B} (f : A -> M B) (xs : list A) : M (list B) :=
  match xs with
  | [] => ret []
  | x :: xs' =>
      let* y := f x in
      let* ys := array_map f xs' in
      ret (y :: ys)
  end.

(** [_watch(isResetConfig = false)], lines 833-840: from the call to
    the first [await].  An activation that claims the build flag is
    appended to [suspended]. *)
Definition _watch_enter (isResetConfig : bool) : M unit :=
  let* w := the_watchManager in
  if isBuildRunning w then ret tt
  else
    modify (set_watchManager (Some (setBuildRunning w))) >>
    call WatchManagerSetBuildRunning >>
    let* w := the_watchManager in
    let queue := getActiveQueue w in
    modify (fun st =>
              set_suspended
                (suspended st ++
                 [{| cycleQueue := queue; cycleIsResetConfig := isResetConfig |}])%list st).

(** [_watch], lines 842-907: the activation [c] resumed after its first
    [await], through the build and the hand-over to the reload layer. *)
Definition _watch_build (c : Cycle) (run : Run) : M unit :=
  let queue := cycleQueue c in
  let isResetConfig := cycleIsResetConfig c in
  await run "beforeWatch" (Emit "beforeWatch" queue) >>
  await run "eleventy.beforeWatch" (Emit "eleventy.beforeWatch" queue) >>
  (* Clear `import` cache for all files that triggered the rebuild (sync event) *)
  call (Collaborator "watchTargets.clearImportCacheFor" queue) >>
  (* reset and reload global configuration *)
  (if isResetConfig then resetConfig run else ret tt) >>
  restart >>
  init isResetConfig run >>
  (let* w := the_watchManager in
   let incrementalFile := getIncrementalFile w in
   if truthy incrementalFile
   then writer_call "setIncrementalFile" incrementalFile
   else ret tt) >>
  let* writeResults := write run in
  let* templateResults :=
    match writeResults with
    | RetError _ => ret []  (* left undefined, and not read below *)
    | RetFs _ rest => ret rest
    | _ => throw (TypeError "writeResults is not the array of a file-system build")
    end in
  writer_call "resetIncrementalFile" JUndefined >>
  call (Collaborator "watchTargets.reset" []) >>
  _initWatchDependencies run >>
  (* Add new deps to chokidar *)
  call (Collaborator "watcher.add" getNewTargetsSinceLastReset) >>
  (* Is a CSS input file and is not in the includes folder *)
  let* w := the_watchManager in
  let onlyCssChanges :=
    hasAllQueueFiles
      (fun p => endsWith p ".css" && negb (startsWithSubPath p getIncludesDir)) w in
  (match writeResults with
   | RetError e => call (ServeSendError e)
   | _ =>
       let normalizedPathPrefix := normalizePathPrefix configPathPrefix in
       let* w := the_watchManager in
       let changed := getActiveQueue w in
       let* entries :=
         array_map (prefix_url normalizedPathPrefix)
                   (filter_truthy (flat templateResults)) in
       let* h := get heap in
       await run "eleventyServe.reload"
         (ServeReload
            {| files := changed;
               subtype := if onlyCssChanges then Some "css" else None;
               templates := map (fun entry => (entry, url_of h entry)) entries |})
   end).

(** [_watch], lines 909-921: the flag is cleared and, when paths were
    queued meanwhile, [_watch()] is called again at once. *)
Definition _watch_finish : M unit :=
  let* w := the_watchManager in
  modify (set_watchManager (Some (setBuildFinished w))) >>
  call WatchManagerSetBuildFinished >>
  let* w := the_watchManager in
  let queueSize := getPendingQueueSize w in
  if (0 <? queueSize)%nat then
    call (LoggerLog
            ("You saved while Eleventy was running, let’s run again. (" +:+
             pretty queueSize +:+ " change" +:+
             (if (queueSize =? 1)%nat then "" else "s") +:+ ")")) >>
    _watch_enter false
  else
    call (LoggerLog "Watching…").

(** A suspended activation of [_watch] runs to its return, or to the
    first [await] of the activation it calls. *)
Definition _watch_resume (c : Cycle) (run : Run) : M unit :=
  _watch_build c run >> _watch_finish.

(** [stopWatch()], lines 1147-1153. *)
Definition stopWatch : M unit :=
  call (Collaborator "eleventyServe.close" []) >>
  call (Collaborator "watcher.close" []) >>
  call ProcessExit >>
  modify (set_exited true).

(** The [catch] block of [watchRun], lines 1117-1125. *)
Definition watchRun_catch (e : jserror) : M unit :=
  if isEleventyBaseError e then
    call (ErrorHandlerError e "Eleventy watch error") >>
    let* w := the_watchManager in
    modify (set_watchManager (Some (setBuildFinished w))) >>
    call WatchManagerSetBuildFinished
  else
    call (ErrorHandlerFatal e "Eleventy fatal watch error") >>
    stopWatch.

(** [watchRun(path)], lines 1104-1116, up to its [await]: the path is
    queued and the debounce timer is cancelled and set again, its
    callback closing over this notification's [isResetConfig].  The
    call of [_addFileToWatchQueue] is not awaited, so a rejection of it
    does not reach the [catch] block. *)
Definition watchRun (p : path) (st : Eleventy) : Eleventy :=
  let p := normalizePath p in
  let isResetConfig := _shouldResetConfig [p] in
  let st1 := snd (_addFileToWatchQueue p isResetConfig st) in
  set_watchDelay (Some isResetConfig) st1.

(** The timer callback, lines 1113-1115, and the rest of the [watchRun]
    that set the timer: [_watch(isResetConfig)] is called and a
    rejection is handled by the [catch] block. *)
Definition watchRun_timer (isResetConfig : bool) (st : Eleventy) : Eleventy :=
  match _watch_enter isResetConfig st with
  | (Resolved _, st') => st'
  | (Rejected e, st') => snd (watchRun_catch e st')
  end.

(** The suspended activation number [i] runs on; when it throws, the
    [watchRun] awaiting it handles the error. *)
Definition watchRun_settle (i : nat) (run : Run) (st : Eleventy) : Eleventy :=
  match suspended st !! i with
  | None => st
  | Some c =>
      match _watch_resume c run (set_suspended (delete i (suspended st)) st) with
      | (Resolved _, st') => st'
      | (Rejected e, st') => snd (watchRun_catch e st')
      end
  end.

(** What can happen next in watch mode: the watcher reports a changed
    or added path, the debounce timer fires, or the awaited work of a
    suspended activation completes. *)
Inductive label :=
| Notify (p : path)
| TimerFires
| Settles (i : nat) (run : Run).

Definition step (l : label) (st : Eleventy) : Eleventy :=
  if exited st then st
  else
    match l with
    | Notify p => watchRun p st
    | TimerFires =>
        match watchDelay st with
        | None => st
        | Some isResetConfig => watchRun_timer isResetConfig (set_watchDelay None st)
        end
    | Settles i run => watchRun_settle i run st
    end.

Definition steps (ls : list label) (st : Eleventy) : Eleventy :=
  fold_left (fun st l => step l st) ls st.

End Methods.

(** ** A sample project

    Concrete collaborators, for running the methods on examples: a
    project on a platform whose path separator is the backslash, with
    one configuration file that imports a helper, one JavaScript
    template that imports another, and the path prefix [/blog/]. *)

Fixpoint replace_char (a b : ascii) (s : string) : string :=
  match s with
  | EmptyString => EmptyString
  | String c s' => String (if Ascii.eqb c a then b else c) (replace_char a b s')
  end.

Definition sample_addLeadingDotSlash (p : path) : path :=
  if String.eqb p "." || String.eqb p ".." then p +:+ "/"
  else if String.prefix "/" p || String.prefix "./" p || String.prefix "../" p then p
  else "./" +:+ p.

Definition sample_normalizeSeperator (p : path) : path :=
  replace_char "\" "/" p.

Definition sample_joinUrlParts (a b : string) : string :=
  (if endsWith a "/" then a else a +:+ "/") +:+
  (if String.prefix "/" b then substring 1 (String.length b - 1) b else b).

Definition sample_getDependenciesOf (p : path) : list path :=
  if String.eqb p "./eleventy.config.js" then ["./_config/filters.js"]
  else if String.eqb p "./feed.11ty.js" then ["./lib/feed-helpers.js"]
  else [].

Definition sample_getDependantsOf (p : path) : list path :=
  if String.eqb p "./_config/filters.js" then ["./eleventy.config.js"]
  else if String.eqb p "./lib/feed-helpers.js" then ["./feed.11ty.js"]
  else [].

Definition sample_writer : TemplateWriter :=
  {| fields := {[ "_templatePathCache" := JUndefined ]};
     caches := CachesOf ["_templatePathCache"];
     writeCount := 0; skippedCount := 0; copyCount := 0 |}.

Definition sample_simplePlural (count : jsval) (singular plural : string) : string :=
  match count with
  | JNum 1 => singular
  | _ => plural
  end.

Definition sample : Collaborators :=
  {| getLocalProjectConfigFiles := ["./eleventy.config.js"];
     configPathPrefix := "/blog/";
     getDependenciesOf := sample_getDependenciesOf;
     getDependantsOf := sample_getDependantsOf;
     getNewTargetsSinceLastReset := [];
     getLayoutsUsedBy := fun _ => [];
     addLeadingDotSlash := sample_addLeadingDotSlash;
     normalizePath := sample_normalizeSeperator;
     startsWithSubPath := fun p dir => String.prefix dir p;
     normalizeSeperator := sample_normalizeSeperator;
     normalizePathPrefix := fun p => if String.eqb p "" then "/" else sample_joinUrlParts "/" p;
     joinUrlParts := sample_joinUrlParts;
     getIncludesDir := "./_includes";
     checkPassthroughCopyBehavior := false;
     getGlobWatcherFilesForPassthroughCopy := [];
     watchJavaScriptDependencies := true;
     getWatchPathCache := ["./feed.11ty.js"];
     getGlobalDataWatchPathCache := [];
     getWatcherTemplateJavaScriptDataFiles := ["./**/*.11tydata.js"];
     new_TemplateWriter := sample_writer;
     getIncrementalFile := fun w =>
       if incremental w then
         match active w with
         | p :: _ => JStr p
         | [] => JBool false
         end
       else JBool false;
     loggerObject := JRef 1000;
     extensionMapObject := JRef 1001;
     simplePlural := sample_simplePlural;
     version := "3.0.0";
     elapsedSeconds := "0.12";
     msEach := fun _ => "1.0" |}.

(** A writer that is constructed with a path cache, and whose [caches]
    also names a property it does not have. *)
Definition sample_warm_writer : TemplateWriter :=
  {| fields := {[ "_templatePathCache" := JRef 7 ]};
     caches := CachesOf ["_templatePathCache"; "_layoutCache"];
     writeCount := 0; skippedCount := 0; copyCount := 0 |}.

(** The sample project with that writer. *)
Definition sample_warm : Collaborators :=
  {| getLocalProjectConfigFiles := getLocalProjectConfigFiles (Collaborators := sample);
     configPathPrefix := configPathPrefix (Collaborators := sample);
     getDependenciesOf := getDependenciesOf (Collaborators := sample);
     getDependantsOf := getDependantsOf (Collaborators := sample);
     getNewTargetsSinceLastReset := getNewTargetsSinceLastReset (Collaborators := sample);
     getLayoutsUsedBy := getLayoutsUsedBy (Collaborators := sample);
     addLeadingDotSlash := addLeadingDotSlash (Collaborators := sample);
     normalizePath := normalizePath (Collaborators := sample);
     startsWithSubPath := startsWithSubPath (Collaborators := sample);
     normalizeSeperator := normalizeSeperator (Collaborators := sample);
     normalizePathPrefix := normalizePathPrefix (Collaborators := sample);
     joinUrlParts := joinUrlParts (Collaborators := sample);
     getIncludesDir := getIncludesDir (Collaborators := sample);
     checkPassthroughCopyBehavior := true;
     getGlobWatcherFilesForPassthroughCopy := ["./img/**"];
     watchJavaScriptDependencies := false;
     getWatchPathCache := [];
     getGlobalDataWatchPathCache := [];
     getWatcherTemplateJavaScriptDataFiles := [];
     new_TemplateWriter := sample_warm_writer;
     getIncrementalFile := getIncrementalFile (Collaborators := sample);
     loggerObject := loggerObject (Collaborators := sample);
     extensionMapObject := extensionMapObject (Collaborators := sample);
     simplePlural := simplePlural (Collaborators := sample);
     version := version (Collaborators := sample);
     elapsedSeconds := elapsedSeconds (Collaborators := sample);
     msEach := msEach (Collaborators := sample) |}.

(** The instance as [watch()] leaves it once the initial build is done
    and the watcher is installed: initialised, nothing queued, no build
    running. *)
Definition sample_watching (src : string) : Eleventy :=
  {| source := src; needsInit := false; _initing := Some (Resolved tt);
     _hasConfigInitialized := true;
     isIncremental := false; isRunInitialBuild := true;
     programmaticApiIncrementalFile := JUndefined;
     watchManager := Some new_EleventyWatch;
     writer := Some sample_writer;
     _privateCaches := Some {[ "TemplateWriter" := {[ "_templatePathCache" := JRef 7 ]} ]};
     heap := ∅; watchDelay := None; suspended := []; exited := false;
     calls := [] |}.

(** A freshly constructed instance, lines 51-127, before any
    initialisation. *)
Definition sample_constructed : Eleventy :=
  {| source := "script"; needsInit := true; _initing := None;
     _hasConfigInitialized := false;
     isIncremental := false; isRunInitialBuild := true;
     programmaticApiIncrementalFile := JUndefined;
     watchManager := None; writer := None; _privateCaches := None;
     heap := ∅; watchDelay := None; suspended := []; exited := false;
     calls := [] |}.

(** A pass in which every awaited call resolves and the pipeline writes
    the given template results. *)
Definition sample_run (results : list (list (option nat))) (urls : gmap nat string) : Run :=
  {| rejects := fun _ => None;
     fsResult := Resolved (JNull, results);
     jsonResult := fun _ => Resolved (concat results);
     countsAfter := (length (concat results), 0, 1);
     objects := urls |}.

(** A pass in which the write pipeline throws. *)
Definition sample_failing_run (e : jserror) : Run :=
  {| rejects := fun _ => None;
     fsResult := Rejected e;
     jsonResult := fun _ => Rejected e;
     countsAfter := (0, 0, 0);
     objects := ∅ |}.

Definition sample_error : jserror :=
  {| message := "Having trouble rendering liquid template ./index.liquid";
     isEleventyBaseError := true |}.

(** ** Vocabulary of the statements *)

Section Vocabulary.
Context `{E : Collaborators}.

(** What the gate looks for: a configuration file, or a recorded
    dependency of one. *)
Definition config_related (p : path) : Prop :=
  In p getLocalProjectConfigFiles \/
  exists c, In c getLocalProjectConfigFiles /\ In p (getDependenciesOf c).

(** The number of invocations of [_cache] in a trace. *)
Definition cache_calls (l : list event) : nat :=
  length (List.filter (fun e => match e with Call_cache _ => true | _ => false end) l).

(** The calls of one collaborator method in a trace. *)
Definition collaborator_calls (name : string) (l : list event) : list event :=
  List.filter
    (fun e => match e with Collaborator n _ => String.eqb n name | _ => false end) l.

(** The payloads handed to [eleventyServe.reload] in a trace. *)
Definition reloads (l : list event) : list event :=
  List.filter (fun e => match e with ServeReload _ => true | _ => false end) l.

(** The two events of the [finally] block of [executeBuild]. *)
Definition is_finalization (e : event) : bool :=
  match e with
  | BenchFinish | LoggerMessage _ _ _ _ => true
  | _ => false
  end.

(** The calls that claim and release the build flag. *)
Definition is_build_mark (e : event) : bool :=
  match e with
  | WatchManagerSetBuildRunning | WatchManagerSetBuildFinished => true
  | _ => false
  end.

(** The write pipeline, asked for the target [to], throws [e]. *)
Definition pipeline_throws (to : string) (run : Run) (e : jserror) : Prop :=
  (to = "fs" /\ fsResult run = Rejected e) \/
  (to = "json" /\ jsonResult run "json" = Rejected e) \/
  (to = "ndjson" /\ jsonResult run "ndjson" = Rejected e).

(** [quiet keep st st']: from [st] to [st'] the watch loop's own state
    (timer, suspended activations, exit) and the invocation source are
    untouched, the trace was only extended and no event selected by
    [keep] was recorded, an existing writer or watch manager still
    exists, and once the configuration is initialised the watch manager
    is the same. *)
Record quiet (keep : event -> bool) (st st' : Eleventy) : Prop := {
  quiet_source : source st' = source st;
  quiet_suspended : suspended st' = suspended st;
  quiet_exited : exited st' = exited st;
  quiet_watchDelay : watchDelay st' = watchDelay st;
  quiet_extends : exists l, calls st' = calls st ++ l;
  quiet_calls : List.filter keep (calls st') = List.filter keep (calls st);
  quiet_writer : is_Some (writer st) -> is_Some (writer st');
  quiet_watchManager : is_Some (watchManager st) -> is_Some (watchManager st');
  quiet_config :
    _hasConfigInitialized st = true ->
    _hasConfigInitialized st' = true /\ watchManager st' = watchManager st;
}.

(** Reading the build-flag marks of a trace from left to right, with
    [d] builds in flight so far: a claim needs none in flight, a release
    needs one.  The answer is the number in flight at the end, or
    [None] when a build was claimed while another was in flight or
    released while none was. *)
Fixpoint builds_in_flight (d : nat) (marks : list event) : option nat :=
  match marks with
  | [] => Some d
  | WatchManagerSetBuildRunning :: marks' =>
      if (d =? 0)%nat then builds_in_flight 1 marks' else None
  | WatchManagerSetBuildFinished :: marks' =>
      if (d =? 1)%nat then builds_in_flight 0 marks' else None
  | _ :: marks' => builds_in_flight d marks'
  end.

Definition in_flight (l : list event) : option nat :=
  builds_in_flight 0 (List.filter is_build_mark l).

(** Watch mode at rest: no activation suspended, the trace balanced and
    the build flag down. *)
Definition idle (st : Eleventy) : Prop :=
  suspended st = [] /\
  in_flight (calls st) = Some 0 /\
  forall w, watchManager st = Some w -> buildRunning w = false.

(** The invariant of the watch loop: at most one activation is
    suspended inside a build, the trace never shows two builds
    overlapping, and while the process runs the build flag is up
    exactly when an activation is suspended. *)
Definition watch_inv (st : Eleventy) : Prop :=
  length (suspended st) <= 1 /\
  exists d,
    in_flight (calls st) = Some d /\
    (exited st = false ->
     d = length (suspended st) /\
     match watchManager st with
     | Some w => buildRunning w = negb (length (suspended st) =? 0)%nat
     | None => suspended st = []
     end).

(** The heap after the [.map] callback of the reload payload ran over
    [entries], front to back: each visit joins the path prefix to the
    [url] the entry has at that moment. *)
Definition prefixed_heap (p : string) (entries : list nat) (h : gmap nat string) :
    gmap nat string :=
  fold_left (fun h entry => <[entry := joinUrlParts p (url_of h entry)]> h) entries h.

(** What [_watch] hands to the reload layer at the end of a build that
    started with the heap [h]: the error of a failed build, or the
    payload of a successful one. *)
Definition handed_over (run : Run) (w : EleventyWatch) (h : gmap nat string) : event :=
  match fsResult run with
  | Resolved (copy, templateResults) =>
      let entries :=
        filter_truthy
          (flat (map Some (filter_truthy (flat templateResults)) :: tl templateResults)) in
      let h' := prefixed_heap (normalizePathPrefix configPathPrefix) entries
                  (objects run ∪ h) in
      ServeReload
        {| files := getActiveQueue w;
           subtype :=
             if hasAllQueueFiles
                  (fun p => endsWith p ".css" && negb (startsWithSubPath p getIncludesDir))
                  w
             then Some "css" else None;
           templates := map (fun entry => (entry, url_of h' entry)) entries |}
  | Rejected e => ServeSendError e
  end.

(** What the later statements of [_watch] rely on once [init] has run. *)
Definition initialised (w : EleventyWatch) (src : string) (s : Eleventy) : Prop :=
  needsInit s = false /\
  is_Some (writer s) /\
  watchManager s = Some w /\
  _hasConfigInitialized s = true /\
  source s = src.

(** A selection of events that takes nothing but finalization events
    and build-flag marks. *)
Definition only_marks (keep : event -> bool) : Prop :=
  forall e, keep e = true -> is_finalization e = true \/ is_build_mark e = true.

(** A method body that is quiet from every instance, whatever its
    result. *)
Definition quietly {A} (keep : event -> bool) (m : M A) : Prop :=
  forall st, quiet keep st (snd (m st)).

(** [wp m Q st]: running [m] from [st] ends in a result and an
    instance that satisfy [Q]. *)
Definition wp {A} (m : M A) (Q : outcome A -> Eleventy -> Prop) (st : Eleventy) : Prop :=
  Q (fst (m st)) (snd (m st)).

End Vocabulary.

(** ** Watcher options *)

Module Chokidar.

(** The values of the options object handed to [chokidar.watch]: the
    list of ignored globs, the object literal of [awaitWriteFinish],
    and any other value. *)
Inductive value :=
| Globs (globs : list string)
| AwaitWriteFinish (stabilityThreshold pollInterval : Z)
| Plain (v : jsval).

(** [Object.assign(target, source)]: every own property of [source] is
    assigned on [target]. *)
Definition Object_assign (target source : gmap string value) : gmap string value :=
  map_fold (fun name v acc => <[name := v]> acc) target source.

(** The object literal of lines 1043-1050. *)
Definition defaults (ignores : list string) : gmap string value :=
  <["awaitWriteFinish" := AwaitWriteFinish 150 25]>
    (<["ignoreInitial" := Plain (JBool true)]>
       (<["ignored" := Globs ignores]> ∅)).

(** [getChokidarConfig()], lines 1032-1053.  [ignores] is what
    [eleventyFiles.getGlobWatcherIgnores()] answers and [configOptions]
    is the object [this.config.chokidarConfig] ([None] when it is
    [undefined]); the function returns the options, and the object of
    the configuration as the [delete] leaves it. *)
Definition getChokidarConfig (ignores : list string)
    (configOptions : option (gmap string value)) :
    outcome (gmap string value) * option (gmap string value) :=
  match configOptions with
  | None => (Rejected (TypeError "Cannot convert undefined or null to object"), None)
  | Some options =>
      (* can’t override these yet *)
      let options := delete "ignored" options in
      (Resolved (Object_assign (defaults ignores) options), Some options)
  end.

End Chokidar.

(** ** Verbose mode *)

Module Verbose.

(** The part of an instance its verbosity lives in: the option
    [quietMode] of the constructor, the environment variable [DEBUG],
    the fields [_hasConfigInitialized], [_preInitVerbose],
    [_isVerboseMode] and [verboseModeSetViaCommandLineParam]
    ([None] for [undefined]); the lazily created logger and error
    handler, each with its [isVerbose] property; the last value given to
    [bench.setVerboseOutput] and to [writer.setVerboseOutput], whether a
    writer exists, and [eleventyConfig.verbose]. *)
Record t := {
  options_quietMode : jsval;
  env_DEBUG : option string;
  _hasConfigInitialized : bool;
  _preInitVerbose : option bool;
  _isVerboseMode : option bool;
  verboseModeSetViaCommandLineParam : option bool;
  _logger : option (option bool);
  _errorHandler : option (option bool);
  bench_verbose : option bool;
  has_writer : bool;
  writer_verbose : option bool;
  eleventyConfig_verbose : option bool;
}.

Definition set__hasConfigInitialized (v : bool) (s : t) : t :=
  {| options_quietMode := options_quietMode s; env_DEBUG := env_DEBUG s;
     _hasConfigInitialized := v; _preInitVerbose := _preInitVerbose s;
     _isVerboseMode := _isVerboseMode s;
     verboseModeSetViaCommandLineParam := verboseModeSetViaCommandLineParam s;
     _logger := _logger s; _errorHandler := _errorHandler s;
     bench_verbose := bench_verbose s; has_writer := has_writer s;
     writer_verbose := writer_verbose s;
     eleventyConfig_verbose := eleventyConfig_verbose s |}.

Definition set__preInitVerbose (v : option bool) (s : t) : t :=
  {| options_quietMode := options_quietMode s; env_DEBUG := env_DEBUG s;
     _hasConfigInitialized := _hasConfigInitialized s; _preInitVerbose := v;
     _isVerboseMode := _isVerboseMode s;
     verboseModeSetViaCommandLineParam := verboseModeSetViaCommandLineParam s;
     _logger := _logger s; _errorHandler := _errorHandler s;
     bench_verbose := bench_verbose s; has_writer := has_writer s;
     writer_verbose := writer_verbose s;
     eleventyConfig_verbose := eleventyConfig_verbose s |}.

Definition set__isVerboseMode (v : option bool) (s : t) : t :=
  {| options_quietMode := options_quietMode s; env_DEBUG := env_DEBUG s;
     _hasConfigInitialized := _hasConfigInitialized s;
     _preInitVerbose := _preInitVerbose s; _isVerboseMode := v;
     verboseModeSetViaCommandLineParam := verboseModeSetViaCommandLineParam s;
     _logger := _logger s; _errorHandler := _errorHandler s;
     bench_verbose := bench_verbose s; has_writer := has_writer s;
     writer_verbose := writer_verbose s;
     eleventyConfig_verbose := eleventyConfig_verbose s |}.

Definition set_verboseModeSetViaCommandLineParam (v : option bool) (s : t) : t :=
  {| options_quietMode := options_quietMode s; env_DEBUG := env_DEBUG s;
     _hasConfigInitialized := _hasConfigInitialized s;
     _preInitVerbose := _preInitVerbose s; _isVerboseMode := _isVerboseMode s;
     verboseModeSetViaCommandLineParam := v;
     _logger := _logger s; _errorHandler := _errorHandler s;
     bench_verbose := bench_verbose s; has_writer := has_writer s;
     writer_verbose := writer_verbose s;
     eleventyConfig_verbose := eleventyConfig_verbose s |}.

Definition set__logger (v : option (option bool)) (s : t) : t :=
  {| options_quietMode := options_quietMode s; env_DEBUG := env_DEBUG s;
     _hasConfigInitialized := _hasConfigInitialized s;
     _preInitVerbose := _preInitVerbose s; _isVerboseMode := _isVerboseMode s;
     verboseModeSetViaCommandLineParam := verboseModeSetViaCommandLineParam s;
     _logger := v; _errorHandler := _errorHandler s;
     bench_verbose := bench_verbose s; has_writer := has_writer s;
     writer_verbose := writer_verbose s;
     eleventyConfig_verbose := eleventyConfig_verbose s |}.

Definition set__errorHandler (v : option (option bool)) (s : t) : t :=
  {| options_quietMode := options_quietMode s; env_DEBUG := env_DEBUG s;
     _hasConfigInitialized := _hasConfigInitialized s;
     _preInitVerbose := _preInitVerbose s; _isVerboseMode := _isVerboseMode s;
     verboseModeSetViaCommandLineParam := verboseModeSetViaCommandLineParam s;
     _logger := _logger s; _errorHandler := v;
     bench_verbose := bench_verbose s; has_writer := has_writer s;
     writer_verbose := writer_verbose s;
     eleventyConfig_verbose := eleventyConfig_verbose s |}.

Definition set_bench_verbose (v : option bool) (s : t) : t :=
  {| options_quietMode := options_quietMode s; env_DEBUG := env_DEBUG s;
     _hasConfigInitialized := _hasConfigInitialized s;
     _preInitVerbose := _preInitVerbose s; _isVerboseMode := _isVerboseMode s;
     verboseModeSetViaCommandLineParam := verboseModeSetViaCommandLineParam s;
     _logger := _logger s; _errorHandler := _errorHandler s;
     bench_verbose := v; has_writer := has_writer s;
     writer_verbose := writer_verbose s;
     eleventyConfig_verbose := eleventyConfig_verbose s |}.

Definition set_writer_verbose (v : option bool) (s : t) : t :=
  {| options_quietMode := options_quietMode s; env_DEBUG := env_DEBUG s;
     _hasConfigInitialized := _hasConfigInitialized s;
     _preInitVerbose := _preInitVerbose s; _isVerboseMode := _isVerboseMode s;
     verboseModeSetViaCommandLineParam := verboseModeSetViaCommandLineParam s;
     _logger := _logger s; _errorHandler := _errorHandler s;
     bench_verbose := bench_verbose s; has_writer := has_writer s;
     writer_verbose := v;
     eleventyConfig_verbose := eleventyConfig_verbose s |}.

Definition set_eleventyConfig_verbose (v : option bool) (s : t) : t :=
  {| options_quietMode := options_quietMode s; env_DEBUG := env_DEBUG s;
     _hasConfigInitialized := _hasConfigInitialized s;
     _preInitVerbose := _preInitVerbose s; _isVerboseMode := _isVerboseMode s;
     verboseModeSetViaCommandLineParam := verboseModeSetViaCommandLineParam s;
     _logger := _logger s; _errorHandler := _errorHandler s;
     bench_verbose := bench_verbose s; has_writer := has_writer s;
     writer_verbose := writer_verbose s;
     eleventyConfig_verbose := v |}.

(** [process.env.DEBUG] as a condition: set and not empty. *)
Definition debugging (s : t) : bool :=
  match env_DEBUG s with
  | Some d => negb (String.eqb d "")
  | None => false
  end.

(** The getter [verboseMode], lines 547-549. *)
Definition verboseMode (s : t) : option bool := _isVerboseMode s.

(** The getter [logger], lines 552-559: the instance after the access;
    the logger is then [_logger]. *)
Definition logger (s : t) : t :=
  match _logger s with
  | Some _ => s
  | None => set__logger (Some (verboseMode s)) s
  end.

(** The getter [errorHandler], lines 572-580. *)
Definition errorHandler (s : t) : t :=
  match _errorHandler s with
  | Some _ => s
  | None => logger (set__errorHandler (Some (verboseMode s)) s)
  end.

(** [setIsVerbose(isVerbose)], lines 588-618.  The getters [logger] and
    [errorHandler] never answer a falsy value, so the two conditions on
    them hold. *)
Definition setIsVerbose (isVerbose : jsval) (s : t) : t :=
  let isVerbose := truthy isVerbose in
  if negb (_hasConfigInitialized s) then set__preInitVerbose (Some isVerbose) s
  else
    (* Debug mode should always run quiet (all output goes to debug logger) *)
    let isVerbose := if debugging s then false else isVerbose in
    let s := set__logger (Some (Some isVerbose)) (logger s) in
    let s := set_bench_verbose (Some isVerbose) s in
    let s := set__isVerboseMode (Some isVerbose) s in
    let s := if has_writer s then set_writer_verbose (Some isVerbose) s else s in
    let s := set__errorHandler (Some (Some isVerbose)) (errorHandler s) in
    (* Set verbose mode in config file *)
    set_eleventyConfig_verbose (Some isVerbose) s.

(** The setter [verboseMode], lines 542-544. *)
Definition set_verboseMode (value : jsval) (s : t) : t := setIsVerbose value s.

(** [initializeConfig()], lines 129-220, as far as it reads and writes
    these fields: the access to [this.logger] of line 137, the
    statements of lines 178-191 and those of lines 215-219;
    [config_quietMode] is [this.config.quietMode]. *)
Definition initializeConfig (config_quietMode : jsval) (s : t) : t :=
  let s := logger s in
  let s := set_verboseModeSetViaCommandLineParam (Some false) s in
  let s :=
    match options_quietMode s with
    | JBool quietMode =>
        (* Set via --quiet *)
        set_verboseModeSetViaCommandLineParam (Some true)
          (setIsVerbose (JBool (negb quietMode)) s)
    | _ =>
        (* Fall back to configuration *)
        setIsVerbose (JBool (negb (truthy config_quietMode))) s
    end in
  let s := set__hasConfigInitialized true s in
  match _preInitVerbose s with
  | Some isVerbose => setIsVerbose (JBool isVerbose) s
  | None => s
  end.

(** [resetConfig()], lines 750-763, as far as it reads and writes these
    fields: the statements of lines 759-762, with the [quietMode] of
    the configuration as reloaded. *)
Definition resetConfig (config_quietMode : jsval) (s : t) : t :=
  (* only use config quietMode if --quiet not set on CLI *)
  match verboseModeSetViaCommandLineParam s with
  | Some true => s
  | _ => setIsVerbose (JBool (negb (truthy config_quietMode))) s
  end.

(** What a program does to the verbosity of an instance once the
    configuration is initialised. *)
Inductive op :=
| SetIsVerbose (isVerbose : jsval)
| SetVerboseMode (value : jsval)
| ResetConfig (config_quietMode : jsval).

Definition apply (o : op) (s : t) : t :=
  match o with
  | SetIsVerbose v => setIsVerbose v s
  | SetVerboseMode v => set_verboseMode v s
  | ResetConfig q => resetConfig q s
  end.

(** The verbosity every part of the instance agrees on. *)
Definition all_set_to (b : bool) (s : t) : Prop :=
  _isVerboseMode s = Some b /\
  _logger s = Some (Some b) /\
  _errorHandler s = Some (Some b) /\
  bench_verbose s = Some b /\
  eleventyConfig_verbose s = Some b /\
  (has_writer s = true -> writer_verbose s = Some b).

(** The fields as the constructor leaves them, lines 51-127: the
    configuration is not initialised and nothing else is assigned;
    the option and the environment are given. *)
Definition constructed (quietMode : jsval) (DEBUG : option string) : t :=
  {| options_quietMode := quietMode; env_DEBUG := DEBUG;
     _hasConfigInitialized := false; _preInitVerbose := None;
     _isVerboseMode := None; verboseModeSetViaCommandLineParam := None;
     _logger := None; _errorHandler := None; bench_verbose := None;
     has_writer := false; writer_verbose := None;
     eleventyConfig_verbose := None |}.

(** The instance [initializeConfig] makes of a constructed one while
    [DEBUG] is set and neither the option nor the configuration asks
    for quiet. *)
Definition sample_debugging : t :=
  {| options_quietMode := JUndefined; env_DEBUG := Some "Eleventy*";
     _hasConfigInitialized := true; _preInitVerbose := Some true;
     _isVerboseMode := Some false; verboseModeSetViaCommandLineParam := Some false;
     _logger := Some (Some false); _errorHandler := Some (Some false);
     bench_verbose := Some false; has_writer := false; writer_verbose := None;
     eleventyConfig_verbose := Some false |}.

(** The instance [initializeConfig] makes of one constructed with the
    option [quietMode: true]. *)
Definition sample_quiet : t :=
  {| options_quietMode := JBool true; env_DEBUG := None;
     _hasConfigInitialized := true; _preInitVerbose := Some false;
     _isVerboseMode := Some false; verboseModeSetViaCommandLineParam := Some true;
     _logger := Some (Some false); _errorHandler := Some (Some false);
     bench_verbose := Some false; has_writer := false; writer_verbose := None;
     eleventyConfig_verbose := Some false |}.

End Verbose.

(** ** Starting watch mode *)

(** What [watch()] and [initWatch()] ask of their collaborators. *)
Class WatchSetup := {
  (** [eleventyFiles.getGlobWatcherFiles()] *)
  getGlobWatcherFiles : list path;
  (** [eleventyFiles.getIgnoreFiles()] *)
  getIgnoreFiles : list path;
  (** [eleventyFiles.getGlobWatcherTemplateDataFiles()], awaited *)
  getGlobWatcherTemplateDataFiles : list path;
  (** [watchTargets.getTargets()] *)
  getTargets : list path;
  (** [eleventyFiles.getGlobWatcherIgnores()] *)
  getGlobWatcherIgnores : list path;
  (** [this.config.chokidarConfig] *)
  chokidarConfig : option (gmap string Chokidar.value);
}.

Section Watch_methods.
Context `{E : Collaborators} `{W : WatchSetup}.

(** [this.bench], which [initializeConfig] assigns (line 172) and which
    is [undefined] before. *)
Definition the_bench : M unit :=
  fun st =>
    if _hasConfigInitialized st then (Resolved tt, st)
    else (Rejected (TypeError "Cannot read properties of undefined (bench)"), st).

(** The getter [watcherBench], lines 929-931, followed by a call of a
    method of the benchmark group. *)
Definition watcherBench_call (method : string) (args : list string) : M unit :=
  the_bench >> call (Collaborator ("watcherBench." +:+ method) args).

(** [initWatch()], lines 939-959. *)
Definition initWatch (run : Run) : M unit :=
  modify (set_watchManager (Some new_EleventyWatch)) >>
  (let* incr := get isIncremental in
   let* w := the_watchManager in
   modify (set_watchManager (Some (set_incremental incr w)))) >>
  call (Collaborator "watchTargets.add" ["./package.json"]) >>
  call (Collaborator "watchTargets.add" getGlobWatcherFiles) >>
  call (Collaborator "watchTargets.add" getIgnoreFiles) >>
  (* Watch the local project config file *)
  call (Collaborator "watchTargets.add" getLocalProjectConfigFiles) >>
  (* Template and Directory Data Files *)
  await run "eleventyFiles.getGlobWatcherTemplateDataFiles"
    (Collaborator "watchTargets.add" getGlobWatcherTemplateDataFiles) >>
  watcherBench_call "before"
    ["Watching JavaScript Dependencies (disable with `eleventyConfig.setWatchJavaScriptDependencies(false)`)"] >>
  _initWatchDependencies run >>
  call (Collaborator "watcherBench.after"
          ["Watching JavaScript Dependencies (disable with `eleventyConfig.setWatchJavaScriptDependencies(false)`)"]).

(** [getWatchedFiles()], lines 1028-1030. *)
Definition getWatchedFiles : M (list path) := ret getTargets.

(** [this.getChokidarConfig()] as [watch()] uses it: the options, or
    the error it throws. *)
Definition the_chokidarConfig : M (gmap string Chokidar.value) :=
  call (Collaborator "eleventyFiles.getGlobWatcherIgnores" []) >>
  match fst (Chokidar.getChokidarConfig getGlobWatcherIgnores chokidarConfig) with
  | Resolved options => ret options
  | Rejected e => throw e
  end.

(** [watch()], lines 1061-1145.  The local variable [watchDelay] starts
    out [undefined]; the handlers registered at the end are [watchRun]
    and [stopWatch]. *)
Definition watch (run : Run) : M unit :=
  watcherBench_call "setMinimumThresholdMs" ["500"] >>
  watcherBench_call "reset" [] >>
  await run "import(chokidar)" (Collaborator "import" ["chokidar"]) >>
  (* Note that watching indirectly depends on this for fetching dependencies from JS files *)
  let* result := write run in
  match result with
  | RetError e =>
      (* initial build failed—quit watch early *)
      throw e
  | _ =>
      watcherBench_call "before" ["Start up --watch"] >>
      initWatch run >>
      let* rawFiles := getWatchedFiles in
      let* options := the_chokidarConfig in
      call (Collaborator "chokidar.watch" rawFiles) >>
      call (Collaborator "watcherBench.after" ["Start up --watch"]) >>
      watcherBench_call "finish" ["Watch"] >>
      call (Collaborator "logger.forceLog" ["Watching…"]) >>
      modify (set_watchDelay None) >>
      call (Collaborator "watcher.on" ["change"]) >>
      call (Collaborator "watcher.on" ["add"]) >>
      call (Collaborator "watcher.on" ["unlink"]) >>
      call (Collaborator "process.on" ["SIGINT"])
  end.

End Watch_methods.

(** ** More vocabulary *)

(** [steady st st']: what no build and no watch step changes or undoes
    between [st] and [st']: the invocation source and the incremental
    switches stay, an initialised configuration and a finished [init]
    stay so, a settled [_initing] and a stored snapshot stay what they
    are, and the trace is only extended. *)
Record steady (st st' : Eleventy) : Prop := {
  steady_source : source st' = source st;
  steady_isIncremental : isIncremental st' = isIncremental st;
  steady_isRunInitialBuild : isRunInitialBuild st' = isRunInitialBuild st;
  steady_incrementalFile :
    programmaticApiIncrementalFile st' = programmaticApiIncrementalFile st;
  steady_config : _hasConfigInitialized st = true -> _hasConfigInitialized st' = true;
  steady_needsInit : needsInit st = false -> needsInit st' = false;
  steady_initing : forall p, _initing st = Some p -> _initing st' = Some p;
  steady_snapshot :
    forall key c,
      default ∅ (_privateCaches st) !! key = Some c ->
      default ∅ (_privateCaches st') !! key = Some c;
  steady_calls : calls st `prefix_of` calls st';
}.

(** A method body that is steady from every instance, whatever its
    result. *)
Definition steadily {A} (m : M A) : Prop := forall st, steady st (snd (m st)).

(** The settings of [st] as [st'] still has them. *)
Definition same_settings (st st' : Eleventy) : Prop :=
  source st' = source st /\
  isIncremental st' = isIncremental st /\
  isRunInitialBuild st' = isRunInitialBuild st /\
  programmaticApiIncrementalFile st' = programmaticApiIncrementalFile st /\
  (_hasConfigInitialized st = true -> _hasConfigInitialized st' = true) /\
  (needsInit st = false -> needsInit st' = false).

Section Traces_vocabulary.
Context `{E : Collaborators}.

(** The calls [init] makes, in order, when every awaited listener
    resolves: [ready] says whether the configuration was initialised
    before, [rib] and [inc] are [isRunInitialBuild] and
    [isIncremental]. *)
Definition init_calls (ready viaConfigReset rib inc : bool) : list event :=
  (if ready then [] else [Collaborator "eleventyConfig.init" []]) ++
  [Emit "eleventy.config" []; Emit "eleventy.env" []; Emit "eleventy.extensionmap" [];
   Collaborator "eleventyServe.setOutputDir" []; Collaborator "eleventyFiles.init" []] ++
  (if checkPassthroughCopyBehavior
   then [Collaborator "eleventyServe.watchPassthroughCopy"
           getGlobWatcherFilesForPassthroughCopy]
   else []) ++
  [Emit "eleventy.directories" []] ++
  (if viaConfigReset then [] else [Call_cache "TemplateWriter"]) ++
  [WriterCall "setEleventyFiles" JUndefined; WriterCall "setRunInitialBuild" (JBool rib);
   WriterCall "setIncrementalBuild" (JBool inc); WriterCall "setVerboseOutput" JUndefined;
   WriterCall "setDryRun" JUndefined].

(** The call [executeBuild] makes before its [try] when a programmatic
    incremental file is set. *)
Definition ready_calls (incrementalFile : jsval) : list event :=
  if truthy incrementalFile then [WriterCall "setIncrementalFile" incrementalFile] else [].

(** The calls of the [try], [catch] and [finally] blocks of a
    file-system build in which no listener rejects, with the summary
    [text]. *)
Definition fs_build_calls (src : string) (run : Run) (incr : bool) (text : string) :
    list event :=
  [EmitBuild "beforeBuild" "fs" incr None; EmitBuild "eleventy.before" "fs" incr None;
   WriterCall "write" JUndefined] ++
  match fsResult run with
  | Resolved (_, templateResults) =>
      let results := filter_truthy (flat templateResults) in
      [EmitBuild "afterBuild" "fs" incr (Some results);
       EmitBuild "eleventy.after" "fs" incr (Some results);
       BenchFinish; LoggerMessage text "info" "green" true]
  | Rejected e =>
      [if String.eqb src "script"
       then ErrorHandlerError e "Problem writing Eleventy templates"
       else ErrorHandlerFatal e "Problem writing Eleventy templates";
       BenchFinish; LoggerMessage text "info" "red" true]
  end.

(** What a file-system build returns or throws when no listener
    rejects. *)
Definition fs_build_result (src : string) (run : Run) : outcome retval :=
  match fsResult run with
  | Resolved (copy, templateResults) =>
      Resolved (RetFs copy (map Some (filter_truthy (flat templateResults))
                              :: tl templateResults))
  | Rejected e => if String.eqb src "script" then Rejected e else Resolved (RetError e)
  end.

(** The calls of [_initWatchDependencies] when nothing it awaits
    rejects. *)
Definition watch_dependency_calls : list event :=
  if watchJavaScriptDependencies then
    [Collaborator "watchTargets.setProjectUsingEsm" [];
     Collaborator "eleventyFiles.getWatchPathCache" [];
     Collaborator "watchTargets.addDependencies" getWatchPathCache;
     Collaborator "watchTargets.addDependencies" getLocalProjectConfigFiles;
     Collaborator "watchTargets.addDependencies" getGlobalDataWatchPathCache;
     Collaborator "eleventyFiles.getWatcherTemplateJavaScriptDataFiles" [];
     Collaborator "watchTargets.addDependencies" getWatcherTemplateJavaScriptDataFiles]
  else [].

End Traces_vocabulary.

(** The sample project's watcher: nothing beyond the project files is
    watched and the configuration sets no watcher options. *)
Definition sample_watch_setup : WatchSetup :=
  {| getGlobWatcherFiles := ["./**/*.md"; "./**/*.css"];
     getIgnoreFiles := ["./.gitignore"];
     getGlobWatcherTemplateDataFiles := ["./**/*.11tydata.js"];
     getTargets := ["./package.json"; "./**/*.md"; "./**/*.css"; "./eleventy.config.js"];
     getGlobWatcherIgnores := ["./_site/**"; "./node_modules/**"];
     chokidarConfig := Some ∅ |}.

(** A pass in which the awaited call [name] rejects with [e] and the
    write pipeline, if reached, writes the given results. *)
Definition sample_rejecting_run (name : string) (e : jserror)
    (results : list (list (option nat))) (urls : gmap nat string) : Run :=
  {| rejects := fun n => if String.eqb n name then Some e else None;
     fsResult := Resolved (JNull, results);
     jsonResult := fun _ => Resolved (concat results);
     countsAfter := (length (concat results), 0, 1);
     objects := urls |}.

(** * Properties *)

(** ** Running method bodies *)

Section Running.
Context `{E : Collaborators}.

Lemma wp_bind {A B} (m : M A) (k : A -> M B) (Q : outcome B -> Eleventy -> Prop)
    (st : Eleventy) :
  wp m (fun r st' =>
          match r with
          | Resolved a => wp (k a) Q st'
          | Rejected e => Q (Rejected e) st'
          end) st ->
  wp (bind m k) Q st.
Proof. unfold wp, bind. destruct (m st) as [[a | e] st']; cbn; trivial. Qed.

Lemma wp_eq {A} (m : M A) (Q : outcome A -> Eleventy -> Prop) (st st' : Eleventy)
    (r : outcome A) :
  m st = (r, st') -> Q r st' -> wp m Q st.
Proof. unfold wp. intros ->. trivial. Qed.

Lemma wp_mono {A} (m : M A) (P Q : outcome A -> Eleventy -> Prop) (st : Eleventy) :
  wp m P st -> (forall r st', P r st' -> Q r st') -> wp m Q st.
Proof. unfold wp. auto. Qed.

Lemma wp_run {A} (m : M A) (st : Eleventy) :
  wp m (fun r st' => m st = (r, st')) st.
Proof. unfold wp. now destruct (m st). Qed.

Lemma wp_await (run : Run) (name : string) (e : event)
    (Q : outcome unit -> Eleventy -> Prop) (st : Eleventy) :
  rejects run name = None ->
  Q (Resolved tt) (set_calls (calls st ++ [e]) st) ->
  wp (await run name e) Q st.
Proof. intros Hrej HQ. unfold await. now rewrite Hrej. Qed.

Lemma wp_ret {A} (a : A) (Q : outcome A -> Eleventy -> Prop) (st : Eleventy) :
  Q (Resolved a) st -> wp (ret a) Q st.
Proof. trivial. Qed.

Lemma wp_throw {A} (e : jserror) (Q : outcome A -> Eleventy -> Prop) (st : Eleventy) :
  Q (Rejected e) st -> wp (throw e) Q st.
Proof. trivial. Qed.

Lemma wp_get {A} (f : Eleventy -> A) (Q : outcome A -> Eleventy -> Prop) (st : Eleventy) :
  Q (Resolved (f st)) st -> wp (get f) Q st.
Proof. trivial. Qed.

Lemma wp_modify (f : Eleventy -> Eleventy) (Q : outcome unit -> Eleventy -> Prop)
    (st : Eleventy) :
  Q (Resolved tt) (f st) -> wp (modify f) Q st.
Proof. trivial. Qed.

Lemma wp_call (e : event) (Q : outcome unit -> Eleventy -> Prop) (st : Eleventy) :
  Q (Resolved tt) (set_calls (calls st ++ [e]) st) -> wp (call e) Q st.
Proof. trivial. Qed.

Lemma wp_the_writer (Q : outcome TemplateWriter -> Eleventy -> Prop) (st : Eleventy) :
  match writer st with
  | Some w => Q (Resolved w) st
  | None => Q (Rejected (TypeError "Cannot read properties of undefined (writer)")) st
  end ->
  wp the_writer Q st.
Proof. unfold wp, the_writer. now destruct (writer st). Qed.

Lemma wp_the_watchManager (Q : outcome EleventyWatch -> Eleventy -> Prop) (st : Eleventy) :
  match watchManager st with
  | Some w => Q (Resolved w) st
  | None =>
      Q (Rejected (TypeError "Cannot read properties of undefined (watchManager)")) st
  end ->
  wp the_watchManager Q st.
Proof. unfold wp, the_watchManager. now destruct (watchManager st). Qed.

Lemma wp_try_catch {A} (body : M A) (handler : jserror -> M A)
    (Q : outcome (outcome A * bool) -> Eleventy -> Prop) (st : Eleventy) :
  wp body (fun r s =>
             match r with
             | Resolved a => Q (Resolved (Resolved a, false)) s
             | Rejected e =>
                 wp (handler e) (fun r' s' => Q (Resolved (r', true)) s') s
             end) st ->
  wp (try_catch body handler) Q st.
Proof.
  unfold wp, try_catch. destruct (body st) as [[a | e] st']; cbn; [trivial |].
  now destruct (handler e st').
Qed.

Lemma wp_finally {A} (pending : outcome A) (fin : M unit)
    (Q : outcome A -> Eleventy -> Prop) (st : Eleventy) :
  wp fin (fun r s =>
            match r with
            | Resolved _ => Q pending s
            | Rejected e => Q (Rejected e) s
            end) st ->
  wp (finally pending fin) Q st.
Proof. unfold wp, finally. now destruct (fin st) as [[[] | e] st']. Qed.

Lemma wp_result {A} (m : M A) (r0 : outcome A) (P : Eleventy -> Prop) (st : Eleventy) :
  wp m (fun r st' => r = r0 /\ P st') st ->
  exists st', m st = (r0, st') /\ P st'.
Proof.
  unfold wp. destruct (m st) as [r st']. cbn. intros [-> HP]. eauto.
Qed.

Lemma wp_resolved {A} (m : M A) (a : A) (P : Eleventy -> Prop) (st : Eleventy) :
  wp m (fun r st' => r = Resolved a /\ P st') st ->
  exists st', m st = (Resolved a, st') /\ P st'.
Proof. apply wp_result. Qed.

End Running.

(** Projections and updates of an instance given field by field. *)
Ltac simpl_state :=
  cbn [set_needsInit set__initing set__hasConfigInitialized set_isIncremental
       set_isRunInitialBuild set_programmaticApiIncrementalFile set_watchManager
       set_writer set__privateCaches set_heap set_watchDelay set_suspended
       set_exited set_calls
       source needsInit _initing _hasConfigInitialized isIncremental
       isRunInitialBuild programmaticApiIncrementalFile watchManager writer
       _privateCaches heap watchDelay suspended exited calls
       fst snd].

Ltac simpl_state_in H :=
  cbn [set_needsInit set__initing set__hasConfigInitialized set_isIncremental
       set_isRunInitialBuild set_programmaticApiIncrementalFile set_watchManager
       set_writer set__privateCaches set_heap set_watchDelay set_suspended
       set_exited set_calls
       source needsInit _initing _hasConfigInitialized isIncremental
       isRunInitialBuild programmaticApiIncrementalFile watchManager writer
       _privateCaches heap watchDelay suspended exited calls
       fst snd] in H.

(** One step of a method body whose head is a primitive of [M]. *)
Ltac wp_step :=
  lazymatch goal with
  | |- wp (bind _ _) _ _ => apply wp_bind
  | |- wp (ret _) _ _ => apply wp_ret
  | |- wp (throw _) _ _ => apply wp_throw
  | |- wp (get _) _ _ => apply wp_get
  | |- wp (modify _) _ _ => apply wp_modify
  | |- wp (call _) _ _ => apply wp_call
  | |- wp (await _ _ _) _ _ => apply wp_await; [solve [auto] |]
  | |- wp the_writer _ _ => apply wp_the_writer
  | |- wp the_watchManager _ _ => apply wp_the_watchManager
  | |- wp (try_catch _ _) _ _ => apply wp_try_catch
  | |- wp (finally _ _) _ _ => apply wp_finally
  | |- wp (writer_assign _ _) _ _ => unfold writer_assign at 1
  | |- wp (writer_call _ _) _ _ => unfold writer_call at 1
  end; simpl_state.

Ltac wp_steps := repeat wp_step.

Section Gate_and_cache.
Context `{E : Collaborators}.

(** ** Sets of paths *)

Lemma Set_has_In (s : list string) (x : string) :
  Set_has s x = true <-> In x s.
Proof.
  unfold Set_has. rewrite existsb_exists. split.
  - intros (y & Hy & Heq). apply String.eqb_eq in Heq. now subst.
  - intros Hx. exists x. split; [assumption | apply String.eqb_refl].
Qed.

Lemma Set_add_In (s : list string) (x y : string) :
  In y (Set_add s x) <-> In y s \/ y = x.
Proof.
  unfold Set_add. destruct (Set_has s x) eqn:Hhas.
  - apply Set_has_In in Hhas. split; [tauto | intros [? | ->]; assumption].
  - rewrite in_app_iff. simpl. intuition.
Qed.

Lemma fold_Set_add_In (l acc : list string) (x : string) :
  In x (fold_left Set_add l acc) <-> In x acc \/ In x l.
Proof.
  revert acc. induction l as [| a l IH]; intros acc; simpl.
  - tauto.
  - rewrite IH, Set_add_In. intuition.
Qed.

Lemma new_Set_In (l : list string) (x : string) :
  In x (new_Set l) <-> In x l.
Proof. unfold new_Set. rewrite fold_Set_add_In. simpl. tauto. Qed.

(** ** The configuration-reset gate *)

Lemma shouldTriggerConfigReset_true (changedFiles : list path) :
  shouldTriggerConfigReset changedFiles = true <->
  exists p, In p changedFiles /\ config_related p.
Proof.
  unfold shouldTriggerConfigReset, config_related.
  destruct (existsb _ changedFiles) eqn:Hdirect.
  - split; [intros _ | reflexivity].
    apply existsb_exists in Hdirect as (p & Hp & Hhas).
    rewrite Set_has_In, new_Set_In in Hhas. eauto.
  - rewrite existsb_exists. split.
    + intros (c & Hc & Hdep). rewrite new_Set_In in Hc.
      apply existsb_exists in Hdep as (p & Hp & Hhas).
      rewrite Set_has_In, new_Set_In in Hhas. eauto 6.
    + intros (p & Hp & [Hcfg | (c & Hc & Hdep)]).
      * assert (Hcontra : existsb
                  (fun filePath => Set_has (new_Set getLocalProjectConfigFiles) filePath)
                  changedFiles = true).
        { apply existsb_exists. exists p. split; [assumption |].
          now rewrite Set_has_In, new_Set_In. }
        congruence.
      * exists c. split; [now rewrite new_Set_In |].
        apply existsb_exists. exists p. split; [assumption |].
        now rewrite Set_has_In, new_Set_In.
Qed.

Lemma shouldTriggerConfigReset_false (changedFiles : list path) :
  (forall p, In p changedFiles -> ~ config_related p) ->
  shouldTriggerConfigReset changedFiles = false.
Proof.
  intros Hnone. apply not_true_is_false. intros Htrue.
  apply shouldTriggerConfigReset_true in Htrue as (p & Hp & Hrel).
  exact (Hnone p Hp Hrel).
Qed.

Lemma _shouldResetConfig_normalized (activeQueue : list path) :
  _shouldResetConfig activeQueue =
  shouldTriggerConfigReset
    (map (fun p => normalizeSeperator (addLeadingDotSlash p)) activeQueue).
Proof.
  unfold _shouldResetConfig. destruct activeQueue as [| p q]; [| reflexivity].
  simpl. symmetry. apply shouldTriggerConfigReset_false. intros p [].
Qed.

(** What holds of the gate: [shouldTriggerConfigReset] answers true
    exactly when a changed path is a declared configuration file or a
    member of [getDependenciesOf c] for a declared configuration file
    [c]; a path that is a dependency of something else only (a
    template or data file) yields false; [_shouldResetConfig] hands
    over [normalizeSeperator (addLeadingDotSlash p)] for each path [p],
    so two spellings for which that form is the same are decided
    alike.  Whether two spellings of one file have the same form is
    up to the two helpers and the order they are applied in. *)
Theorem config_reset_gate :
  (forall changedFiles,
      shouldTriggerConfigReset changedFiles = true <->
      exists p, In p changedFiles /\
                (In p getLocalProjectConfigFiles \/
                 exists c, In c getLocalProjectConfigFiles /\
                           In p (getDependenciesOf c))) /\
  (forall p t,
      In p (getDependenciesOf t) ->
      ~ In p getLocalProjectConfigFiles ->
      (forall c, In c getLocalProjectConfigFiles -> ~ In p (getDependenciesOf c)) ->
      shouldTriggerConfigReset [p] = false) /\
  (forall activeQueue,
      _shouldResetConfig activeQueue = true <->
      exists p, In p activeQueue /\
                config_related (normalizeSeperator (addLeadingDotSlash p))) /\
  (forall p p',
      normalizeSeperator (addLeadingDotSlash p) =
      normalizeSeperator (addLeadingDotSlash p') ->
      _shouldResetConfig [p] = _shouldResetConfig [p']).
Proof.
  split; [| split; [| split]].
  - exact shouldTriggerConfigReset_true.
  - intros p t _ Hcfg Hdep. apply shouldTriggerConfigReset_false.
    intros p' [<- | []] [Hin | (c & Hc & Hin)]; [tauto | exact (Hdep c Hc Hin)].
  - intros q. rewrite _shouldResetConfig_normalized, shouldTriggerConfigReset_true.
    split.
    + intros (n & Hn & Hrel). apply in_map_iff in Hn as (p & <- & Hp). eauto.
    + intros (p & Hp & Hrel). eexists. split; [| exact Hrel].
      apply in_map_iff. eauto.
  - intros p p' Heq. rewrite !_shouldResetConfig_normalized. simpl. now rewrite Heq.
Qed.

(** ** Incremental switches *)

(** C10 as the code has it: on an instance that has a watch manager
    (there is one from [initializeConfig] on), [setIncrementalFile]
    with a truthy path records the path and, besides, turns
    [isRunInitialBuild] off and turns incremental mode on, both on the
    instance and on its watch manager; every other field keeps its
    value.  With a falsy argument it returns without changing the
    instance, watch manager or not. *)
Theorem setIncrementalFile_side_effects :
  (forall incrementalFile st w,
      truthy incrementalFile = true ->
      watchManager st = Some w ->
      let st' :=
        set_programmaticApiIncrementalFile incrementalFile
          (set_watchManager (Some (set_incremental true w))
             (set_isIncremental true (set_isRunInitialBuild false st))) in
      setIncrementalFile incrementalFile st = (Resolved tt, st') /\
      programmaticApiIncrementalFile st' = incrementalFile /\
      isRunInitialBuild st' = false /\
      isIncremental st' = true /\
      incremental <$> watchManager st' = Some true) /\
  (forall incrementalFile st,
      truthy incrementalFile = false ->
      setIncrementalFile incrementalFile st = (Resolved tt, st)).
Proof.
  split.
  - intros f st w Hf Hw st'. repeat split.
    unfold setIncrementalFile. rewrite Hf.
    unfold setIgnoreInitial, setIncrementalBuild, bind, modify, the_watchManager.
    cbn. rewrite Hw. reflexivity.
  - intros f st Hf. unfold setIncrementalFile. now rewrite Hf.
Qed.

(** Before [initializeConfig] there is no watch manager: the call
    throws after the two flags of the instance are set, and the path is
    not recorded. *)
Lemma setIncrementalFile_without_watchManager (incrementalFile : jsval) (st : Eleventy) :
  truthy incrementalFile = true ->
  watchManager st = None ->
  exists e,
    setIncrementalFile incrementalFile st =
    (Rejected e, set_isIncremental true (set_isRunInitialBuild false st)).
Proof.
  intros Hf Hw. eexists. unfold setIncrementalFile. rewrite Hf.
  unfold setIgnoreInitial, setIncrementalBuild, bind, modify, the_watchManager.
  cbn. rewrite Hw. reflexivity.
Qed.

(** ** The carry-over cache *)

Lemma restore_fields_lookup (c : gmap string jsval) (inst : TemplateWriter) (k : string) :
  fields (restore_fields c inst) !! k =
  match c !! k with
  | Some v => Some v
  | None => fields inst !! k
  end.
Proof.
  unfold restore_fields. cbn.
  apply (map_fold_weak_ind
           (fun r (m : gmap string jsval) =>
              r !! k = match m !! k with Some v => Some v | None => fields inst !! k end)).
  - now rewrite lookup_empty.
  - intros i x m r Hi IH. destruct (decide (i = k)) as [-> | Hne].
    + now rewrite !lookup_insert_eq.
    + rewrite !lookup_insert_ne by assumption. exact IH.
Qed.

Lemma capture_fold_lookup (inst : TemplateWriter) (names : list string)
    (acc : gmap string jsval) (k : string) :
  fold_left (fun c cacheKey => <[cacheKey := get_field inst cacheKey]> c) names acc !! k =
  if decide (k ∈ names) then Some (get_field inst k) else acc !! k.
Proof.
  revert acc. induction names as [| n names IH]; intros acc; cbn [fold_left].
  - rewrite decide_False; [reflexivity | apply not_elem_of_nil].
  - rewrite IH.
    destruct (decide (k ∈ names)) as [Hin | Hnin];
      destruct (decide (k ∈ n :: names)) as [Hin' | Hnin']; try reflexivity.
    + exfalso. apply Hnin'. apply elem_of_cons. now right.
    + apply elem_of_cons in Hin' as [-> | Hin']; [apply lookup_insert_eq | tauto].
    + apply lookup_insert_ne. intros ->. apply Hnin'. apply elem_of_cons. now left.
Qed.

Lemma capture_fields_lookup (inst : TemplateWriter) (k : string) :
  capture_fields inst !! k =
  if decide (k ∈ declared_caches inst) then Some (get_field inst k) else None.
Proof.
  unfold capture_fields. rewrite capture_fold_lookup.
  destruct (decide _); [reflexivity | apply lookup_empty].
Qed.

Lemma _cache_restore (key : string) (inst : TemplateWriter) (st : Eleventy)
    (pc : gmap string (gmap string jsval)) (c : gmap string jsval) :
  caches inst <> NoCaches ->
  _privateCaches st = Some pc ->
  pc !! key = Some c ->
  _cache key inst st =
  (Resolved (restore_fields c inst), set_calls (calls st ++ [Call_cache key]) st).
Proof.
  intros Hdecl Hpc Hc. unfold _cache, bind, call, modify, get, ret. cbn.
  rewrite Hpc. cbn. destruct (caches inst); [congruence | |]; cbn; rewrite Hpc; cbn;
    now rewrite Hc.
Qed.

Lemma _cache_capture (key : string) (inst : TemplateWriter) (st : Eleventy) :
  caches inst <> NoCaches ->
  default ∅ (_privateCaches st) !! key = None ->
  _cache key inst st =
  (Resolved inst,
   set__privateCaches
     (Some (<[key := capture_fields inst]> (default ∅ (_privateCaches st))))
     (set_calls (calls st ++ [Call_cache key]) st)).
Proof.
  intros Hdecl Hnone. unfold _cache, bind, call, modify, get, ret. cbn.
  destruct (_privateCaches st) as [pc |] eqn:Hpc; cbn in *;
    (destruct (caches inst); [congruence | |]); cbn; rewrite ?Hpc; cbn;
    now rewrite Hnone.
Qed.

Lemma _cache_needs_caches (key : string) (inst : TemplateWriter) (st : Eleventy) :
  caches inst = NoCaches ->
  exists st',
    _cache key inst st =
    (Rejected (Error "To use _cache you need a `caches` getter object"), st').
Proof.
  intros Hdecl. unfold _cache, bind, call, modify, get, ret. cbn.
  destruct (_privateCaches st); cbn; rewrite Hdecl; eauto.
Qed.

Lemma cache_calls_app (l l' : list event) :
  cache_calls (l ++ l') = cache_calls l + cache_calls l'.
Proof. unfold cache_calls. now rewrite List.filter_app, length_app. Qed.

(** What the capture loop stores, read off the instance itself: for
    each name of its [caches], the property of that name, [undefined]
    when the instance has none. *)
Lemma capture_fields_spec (inst : TemplateWriter) (k : string) :
  capture_fields inst !! k =
  match caches inst with
  | CachesOf names =>
      if decide (k ∈ names) then Some (default JUndefined (fields inst !! k)) else None
  | _ => None
  end.
Proof.
  rewrite capture_fields_lookup. unfold declared_caches, get_field.
  destruct (caches inst); try reflexivity;
    (destruct (decide _) as [Hin | _]; [now apply elem_of_nil in Hin | reflexivity]).
Qed.

(** The first part of [init] with [viaConfigReset]: no cache step. *)
Lemma init_objects_reset (run : Run) (st : Eleventy) :
  (forall name, rejects run name = None) ->
  exists st1,
    init_objects true run st = (Resolved tt, st1) /\
    writer st1 = Some new_TemplateWriter /\
    _privateCaches st1 = _privateCaches st /\
    cache_calls (calls st1) = cache_calls (calls st) /\
    needsInit st1 = needsInit st /\
    heap st1 = heap st.
Proof.
  intros Hrej. apply wp_resolved.
  unfold init_objects, initializeConfig. cbn [negb].
  destruct st as [src ni ini hci inc rib paf wm wr pcs hp wd sus ex cs].
  wp_steps.
  destruct hci, checkPassthroughCopyBehavior; wp_steps;
    (split; [reflexivity |]); (split; [reflexivity |]); (split; [reflexivity |]);
    (split; [rewrite !cache_calls_app; cbn; lia |]); split; reflexivity.
Qed.

(** The first part of [init] without [viaConfigReset]: the cache step
    restores the snapshot onto the new writer, or captures one. *)
Lemma init_objects_cache (run : Run) (st : Eleventy) :
  (forall name, rejects run name = None) ->
  caches new_TemplateWriter <> NoCaches ->
  exists st1 w0,
    init_objects false run st = (Resolved tt, st1) /\
    writer st1 = Some w0 /\
    cache_calls (calls st1) = S (cache_calls (calls st)) /\
    needsInit st1 = needsInit st /\
    heap st1 = heap st /\
    match default ∅ (_privateCaches st) !! "TemplateWriter" with
    | Some c =>
        _privateCaches st1 = _privateCaches st /\
        w0 = restore_fields c new_TemplateWriter
    | None =>
        _privateCaches st1 =
          Some (<["TemplateWriter" := capture_fields new_TemplateWriter]>
                  (default ∅ (_privateCaches st))) /\
        w0 = new_TemplateWriter
    end.
Proof.
  intros Hrej Hdecl.
  cut (wp (init_objects false run)
          (fun r st1 =>
             r = Resolved tt /\
             exists w0,
               writer st1 = Some w0 /\
               cache_calls (calls st1) = S (cache_calls (calls st)) /\
               needsInit st1 = needsInit st /\
               heap st1 = heap st /\
               match default ∅ (_privateCaches st) !! "TemplateWriter" with
               | Some c =>
                   _privateCaches st1 = _privateCaches st /\
                   w0 = restore_fields c new_TemplateWriter
               | None =>
                   _privateCaches st1 =
                     Some (<["TemplateWriter" := capture_fields new_TemplateWriter]>
                             (default ∅ (_privateCaches st))) /\
                   w0 = new_TemplateWriter
               end) st).
  { intros Hwp. apply wp_resolved in Hwp as (st1 & Hrun & w0 & Hfacts). eauto. }
  unfold init_objects, initializeConfig. cbn [negb].
  destruct st as [src ni ini hci inc rib paf wm wr pcs hp wd sus ex cs].
  wp_steps.
  destruct (default ∅ pcs !! "TemplateWriter") as [c |] eqn:Hsnap.
  - destruct pcs as [pc |];
      [| cbn in Hsnap; rewrite lookup_empty in Hsnap; discriminate].
    cbn in Hsnap.
    destruct hci, checkPassthroughCopyBehavior; wp_steps;
      (eapply wp_eq;
       [apply (_cache_restore _ _ _ pc c); [assumption | reflexivity | assumption] |]);
      simpl_state; wp_steps;
      (split; [reflexivity |]); eexists; (split; [reflexivity |]);
      (split; [rewrite !cache_calls_app; cbn; lia |]);
      repeat split; reflexivity.
  - destruct hci, checkPassthroughCopyBehavior; wp_steps;
      (eapply wp_eq; [apply _cache_capture; [assumption | exact Hsnap] |]);
      simpl_state; wp_steps;
      (split; [reflexivity |]); eexists; (split; [reflexivity |]);
      (split; [rewrite !cache_calls_app; cbn; lia |]);
      repeat split; reflexivity.
Qed.

(** The second part of [init]: it keeps the heap and the snapshots,
    and does not invoke [_cache]. *)
Lemma init_writer_run (st : Eleventy) (w0 : TemplateWriter) :
  writer st = Some w0 ->
  exists st',
    init_writer st = (Resolved tt, st') /\
    is_Some (writer st') /\
    needsInit st' = false /\
    heap st' = heap st /\
    _privateCaches st' = _privateCaches st /\
    cache_calls (calls st') = cache_calls (calls st).
Proof.
  intros Hw. apply wp_resolved. unfold init_writer.
  destruct st as [src ni ini hci inc rib paf wm wr pcs hp wd sus ex cs].
  cbn in Hw. subst wr. wp_steps.
  split; [reflexivity |]. split; [eauto |].
  repeat split. rewrite !cache_calls_app. cbn. lia.
Qed.

Lemma init_bind (v : bool) (run : Run) (st st1 : Eleventy) :
  init_objects v run st = (Resolved tt, st1) ->
  init v run st = init_writer st1.
Proof. intros Hrun. unfold init, bind. now rewrite Hrun. Qed.

(** An [init] in which nothing rejects resolves, with a writer. *)
Lemma init_resolves (v : bool) (run : Run) (st : Eleventy) :
  (forall name, rejects run name = None) ->
  caches new_TemplateWriter <> NoCaches ->
  exists st',
    init v run st = (Resolved tt, st') /\
    is_Some (writer st') /\
    needsInit st' = false /\
    heap st' = heap st.
Proof.
  intros Hrej Hdecl. destruct v.
  - destruct (init_objects_reset run st Hrej) as (st1 & Hrun1 & Hw1 & _ & _ & _ & Hh1).
    destruct (init_writer_run st1 _ Hw1) as (st' & Hrun2 & Hw' & Hni & Hh & _).
    exists st'. rewrite (init_bind _ _ _ _ Hrun1). repeat split; try assumption. congruence.
  - destruct (init_objects_cache run st Hrej Hdecl)
      as (st1 & w0 & Hrun1 & Hw1 & _ & _ & Hh1 & _).
    destruct (init_writer_run st1 _ Hw1) as (st' & Hrun2 & Hw' & Hni & Hh & _).
    exists st'. rewrite (init_bind _ _ _ _ Hrun1). repeat split; try assumption. congruence.
Qed.

(** C9: [init] without [viaConfigReset] invokes
    [_cache("TemplateWriter", writer)] exactly once, on the writer it
    has just constructed.  With a snapshot under the key, the writer
    comes out of that step with every field of the snapshot copied
    onto it (and its own value everywhere else), and the snapshots are
    as before; without one, the writer is untouched and, for each name
    in its [caches], the property of that name is stored under the key
    ([undefined] for a property it lacks).  [init] with
    [viaConfigReset] does not invoke [_cache]: the writer is the
    constructed one and the snapshots are unchanged.  The rest of
    [init] (lines 469-492) neither invokes [_cache] nor touches the
    snapshots. *)
Theorem init_cache_invocation (run : Run) (st : Eleventy) :
  (forall name, rejects run name = None) ->
  caches new_TemplateWriter <> NoCaches ->
  (exists st1 st' w0,
      init_objects false run st = (Resolved tt, st1) /\
      writer st1 = Some w0 /\
      init_writer st1 = (Resolved tt, st') /\
      init false run st = (Resolved tt, st') /\
      cache_calls (calls st') = S (cache_calls (calls st)) /\
      _privateCaches st' = _privateCaches st1 /\
      match default ∅ (_privateCaches st) !! "TemplateWriter" with
      | Some c =>
          _privateCaches st1 = _privateCaches st /\
          (forall k, fields w0 !! k =
                     match c !! k with
                     | Some v => Some v
                     | None => fields new_TemplateWriter !! k
                     end)
      | None =>
          w0 = new_TemplateWriter /\
          exists snap,
            _privateCaches st1 =
              Some (<["TemplateWriter" := snap]> (default ∅ (_privateCaches st))) /\
            (forall k, snap !! k =
                       match caches new_TemplateWriter with
                       | CachesOf names =>
                           if decide (k ∈ names)
                           then Some (default JUndefined (fields new_TemplateWriter !! k))
                           else None
                       | _ => None
                       end)
      end) /\
  (exists st1 st',
      init_objects true run st = (Resolved tt, st1) /\
      writer st1 = Some new_TemplateWriter /\
      init_writer st1 = (Resolved tt, st') /\
      init true run st = (Resolved tt, st') /\
      cache_calls (calls st') = cache_calls (calls st) /\
      _privateCaches st' = _privateCaches st).
Proof.
  intros Hrej Hdecl. split.
  - destruct (init_objects_cache run st Hrej Hdecl)
      as (st1 & w0 & Hrun1 & Hw1 & Hcalls1 & _ & _ & Hsnap).
    destruct (init_writer_run st1 w0 Hw1) as (st' & Hrun2 & _ & _ & _ & Hpc & Hcalls2).
    exists st1, st', w0. split; [exact Hrun1 |]. split; [exact Hw1 |].
    split; [exact Hrun2 |]. split; [now rewrite (init_bind _ _ _ _ Hrun1) |].
    split; [congruence |]. split; [exact Hpc |].
    destruct (default ∅ (_privateCaches st) !! "TemplateWriter") as [c |].
    + destruct Hsnap as [Hsame ->]. split; [exact Hsame |].
      intros k. apply restore_fields_lookup.
    + destruct Hsnap as [Hnew ->]. split; [reflexivity |].
      eexists. split; [exact Hnew |]. intros k. apply capture_fields_spec.
  - destruct (init_objects_reset run st Hrej) as (st1 & Hrun1 & Hw1 & Hpc1 & Hcalls1 & _).
    destruct (init_writer_run st1 _ Hw1) as (st' & Hrun2 & _ & _ & _ & Hpc & Hcalls2).
    exists st1, st'. split; [exact Hrun1 |]. split; [exact Hw1 |].
    split; [exact Hrun2 |]. split; [now rewrite (init_bind _ _ _ _ Hrun1) |].
    split; congruence.
Qed.

End Gate_and_cache.

(** ** Quiet method bodies *)

Section Quiet.
Context `{E : Collaborators}.

Lemma quiet_refl (keep : event -> bool) (st : Eleventy) : quiet keep st st.
Proof. split; auto. exists []. now rewrite app_nil_r. Qed.

Lemma quiet_trans (keep : event -> bool) (st1 st2 st3 : Eleventy) :
  quiet keep st1 st2 -> quiet keep st2 st3 -> quiet keep st1 st3.
Proof.
  intros [] []. split; try congruence; auto.
  - destruct quiet_extends0 as [l Hl]. destruct quiet_extends1 as [l' Hl'].
    exists (l ++ l'). now rewrite Hl', Hl, app_assoc.
  - intros Hc. destruct (quiet_config0 Hc) as [Hc2 Hw2].
    destruct (quiet_config1 Hc2) as [Hc3 Hw3]. split; congruence.
Qed.

Lemma quietly_ret {A} keep (a : A) : quietly keep (ret a).
Proof. intros st. apply quiet_refl. Qed.

Lemma quietly_throw {A} keep (e : jserror) : quietly keep (@throw A e).
Proof. intros st. apply quiet_refl. Qed.

Lemma quietly_get {A} keep (f : Eleventy -> A) : quietly keep (get f).
Proof. intros st. apply quiet_refl. Qed.

Lemma quietly_bind {A B} keep (m : M A) (k : A -> M B) :
  quietly keep m -> (forall a, quietly keep (k a)) -> quietly keep (bind m k).
Proof.
  intros Hm Hk st. unfold bind. specialize (Hm st).
  destruct (m st) as [[a | e] st']; cbn in *; [| assumption].
  eapply quiet_trans; [exact Hm | apply Hk].
Qed.

Lemma quietly_call keep (e : event) : keep e = false -> quietly keep (call e).
Proof.
  intros He st. split; cbn; auto.
  - now exists [e].
  - rewrite List.filter_app. cbn. rewrite He. apply app_nil_r.
Qed.

Lemma quietly_await keep (run : Run) (name : string) (e : event) :
  keep e = false -> quietly keep (await run name e).
Proof.
  intros He. unfold await. destruct (rejects run name);
    [apply quietly_throw | now apply quietly_call].
Qed.

Lemma quietly_modify keep (f : Eleventy -> Eleventy) :
  (forall st, quiet keep st (f st)) -> quietly keep (modify f).
Proof. intros Hf st. apply Hf. Qed.

Lemma quietly_the_writer keep : quietly keep the_writer.
Proof. intros st. unfold the_writer. destruct (writer st); apply quiet_refl. Qed.

Lemma quietly_the_watchManager keep : quietly keep the_watchManager.
Proof.
  intros st. unfold the_watchManager. destruct (watchManager st); apply quiet_refl.
Qed.

Lemma quietly_try_catch {A} keep (body : M A) (handler : jserror -> M A) :
  quietly keep body -> (forall e, quietly keep (handler e)) ->
  quietly keep (try_catch body handler).
Proof.
  intros Hb Hh st. unfold try_catch. specialize (Hb st).
  destruct (body st) as [[a | e] st']; cbn in *; [assumption |].
  specialize (Hh e st'). destruct (handler e st') as [r st'']. cbn in *.
  eapply quiet_trans; eassumption.
Qed.

Lemma quietly_array_map {A B} keep (f : A -> M B) (xs : list A) :
  (forall x, quietly keep (f x)) -> quietly keep (array_map f xs).
Proof.
  intros Hf. induction xs as [| x xs IH]; cbn [array_map].
  - apply quietly_ret.
  - apply quietly_bind; [apply Hf | intros y].
    apply quietly_bind; [apply IH | intros ys]. apply quietly_ret.
Qed.

(** Updates of fields that [quiet] does not speak about. *)
Lemma quiet_set_writer keep (w : TemplateWriter) (st : Eleventy) :
  quiet keep st (set_writer (Some w) st).
Proof. split; cbn; auto. exists []. now rewrite app_nil_r. Qed.

Lemma quiet_set_heap keep (h : gmap nat string) (st : Eleventy) :
  quiet keep st (set_heap h st).
Proof. split; cbn; auto. exists []. now rewrite app_nil_r. Qed.

Lemma quiet_set_needsInit keep (b : bool) (st : Eleventy) :
  quiet keep st (set_needsInit b st).
Proof. split; cbn; auto. exists []. now rewrite app_nil_r. Qed.

Lemma quiet_set__initing keep (p : option (outcome unit)) (st : Eleventy) :
  quiet keep st (set__initing p st).
Proof. split; cbn; auto. exists []. now rewrite app_nil_r. Qed.

Lemma quiet_set__privateCaches keep (c : option (gmap string (gmap string jsval)))
    (st : Eleventy) :
  quiet keep st (set__privateCaches c st).
Proof. split; cbn; auto. exists []. now rewrite app_nil_r. Qed.

End Quiet.

Ltac not_kept :=
  first
    [ reflexivity
    | match goal with
      | Hkeep : only_marks ?keep |- ?keep ?e = false =>
          let Hk := fresh in
          destruct (keep e) eqn:Hk; [| reflexivity];
          apply Hkeep in Hk; cbn in Hk; destruct Hk; discriminate
      end ].

Ltac quiet_step :=
  lazymatch goal with
  | |- quietly _ (bind _ _) => apply quietly_bind; [| intros ?]
  | |- quietly _ (ret _) => apply quietly_ret
  | |- quietly _ (throw _) => apply quietly_throw
  | |- quietly _ (get _) => apply quietly_get
  | |- quietly _ (call _) => apply quietly_call; not_kept
  | |- quietly _ (await _ _ _) => apply quietly_await; not_kept
  | |- quietly _ the_writer => apply quietly_the_writer
  | |- quietly _ the_watchManager => apply quietly_the_watchManager
  | |- quietly _ (writer_assign _ _) => unfold writer_assign
  | |- quietly _ (writer_call _ _) => unfold writer_call
  | |- quietly _ (array_map _ _) => apply quietly_array_map; intros ?
  | |- quietly _ (modify _) =>
      apply quietly_modify; intros ?;
      first [ apply quiet_set_writer | apply quiet_set_heap | apply quiet_set_needsInit
            | apply quiet_set__initing | apply quiet_set__privateCaches ]
  | |- quietly _ (if ?b then _ else _) => destruct b
  | |- quietly _ (match ?x with _ => _ end) => destruct x
  end.

Section Build_and_watch.
Context `{E : Collaborators}.

Lemma quietly_logFinished keep : quietly keep logFinished.
Proof. intros st. unfold logFinished. destruct (writer st); apply quiet_refl. Qed.

Lemma quietly__cache keep (key : string) (inst : TemplateWriter) :
  only_marks keep -> quietly keep (_cache key inst).
Proof. intros Hkeep. unfold _cache. repeat quiet_step. Qed.

Lemma quietly_pipeline {A} keep (method : string) (arg : jsval) (result : outcome A)
    (run : Run) :
  only_marks keep -> quietly keep (pipeline method arg result run).
Proof. intros Hkeep. unfold pipeline. repeat quiet_step. Qed.

(** [initializeConfig] replaces the watch manager, but [init] calls it
    only while the configuration is not initialised. *)
Lemma quietly_initializeConfig_once keep (run : Run) :
  only_marks keep ->
  quietly keep
    (let* ready := get _hasConfigInitialized in
     if ready then ret tt else initializeConfig run).
Proof.
  intros Hkeep st. unfold bind, get, initializeConfig, await, bind, call, modify, ret, throw.
  cbn. destruct (_hasConfigInitialized st) eqn:Hready; [apply quiet_refl |].
  destruct (rejects run "eleventyConfig.init"); [apply quiet_refl |].
  cbn. split; cbn; auto; try congruence.
  - eauto.
  - rewrite List.filter_app. cbn.
    destruct (keep _) eqn:Hk; [| apply app_nil_r].
    apply Hkeep in Hk. cbn in Hk. destruct Hk; discriminate.
Qed.

Lemma quietly_init keep (viaConfigReset : bool) (run : Run) :
  only_marks keep -> quietly keep (init viaConfigReset run).
Proof.
  intros Hkeep. unfold init.
  apply quietly_bind; [| intros _; unfold init_writer; repeat quiet_step].
  unfold init_objects.
  apply quietly_bind; [now apply quietly_initializeConfig_once | intros _].
  repeat first [ apply quietly__cache; assumption | quiet_step ].
Qed.

Lemma quietly_executeBuild_ready keep (run : Run) :
  only_marks keep -> quietly keep (executeBuild_ready run).
Proof.
  intros Hkeep. unfold executeBuild_ready.
  apply quietly_bind; [| intros _; repeat quiet_step].
  apply quietly_bind; [apply quietly_get | intros needs].
  destruct needs; [| apply quietly_ret].
  apply quietly_bind; [| intros _; repeat quiet_step].
  apply quietly_bind; [apply quietly_get | intros p].
  apply quietly_bind; [| intros settled; repeat quiet_step].
  destruct p as [settled |]; [apply quietly_ret |].
  intros st. pose proof (quietly_init keep false run Hkeep st) as Hinit.
  destruct (init false run st) as [settled st']. cbn in *.
  eapply quiet_trans; [exact Hinit | apply quiet_set__initing].
Qed.

Lemma quietly_executeBuild_try keep (to : string) (run : Run) :
  only_marks keep -> quietly keep (executeBuild_try to run).
Proof.
  intros Hkeep. unfold executeBuild_try.
  repeat first [ apply quietly_pipeline; assumption
               | quiet_step
               | match goal with
                 | |- quietly _ (let '(_, _) := ?a in _) => destruct a
                 end ].
Qed.

Lemma quietly_executeBuild_catch keep (e : jserror) :
  only_marks keep -> quietly keep (executeBuild_catch e).
Proof. intros Hkeep. unfold executeBuild_catch. repeat quiet_step. Qed.

(** ** One build pass *)

Lemma wp_quietly {A} keep (m : M A) (Q : outcome A -> Eleventy -> Prop) (st : Eleventy) :
  quietly keep m ->
  (forall r st', m st = (r, st') -> quiet keep st st' -> Q r st') ->
  wp m Q st.
Proof.
  intros Hq HQ. unfold wp. specialize (Hq st).
  destruct (m st) as [r st'] eqn:Hrun. cbn in *. now apply HQ.
Qed.

Lemma only_marks_is_finalization : only_marks is_finalization.
Proof. intros e He. now left. Qed.

Lemma only_marks_is_build_mark : only_marks is_build_mark.
Proof. intros e He. now right. Qed.

(** The summary is a function of the writer alone. *)
Lemma logFinished_writer (st : Eleventy) (w : TemplateWriter) :
  writer st = Some w ->
  exists text,
    logFinished st = (Resolved text, st) /\
    forall st', writer st' = Some w -> logFinished st' = (Resolved text, st').
Proof.
  intros Hw. unfold logFinished. rewrite Hw. eexists. split; [reflexivity |].
  intros st' ->. reflexivity.
Qed.

(** The [finally] block: telemetry is finalized, and for the
    file-system target one summary line is printed. *)
Lemma executeBuild_finally_run (to : string) (hasError : bool) (st : Eleventy)
    (w : TemplateWriter) :
  writer st = Some w ->
  exists text st',
    executeBuild_finally to hasError st = (Resolved tt, st') /\
    logFinished st' = (Resolved text, st') /\
    source st' = source st /\
    calls st' =
      calls st ++
      BenchFinish ::
      (if String.eqb to "fs"
       then [LoggerMessage text "info" (if hasError then "red" else "green") true]
       else []).
Proof.
  intros Hw. destruct (logFinished_writer st w Hw) as (text & Hlog & Hsame).
  unfold executeBuild_finally, bind, call, modify. cbn.
  destruct (String.eqb to "fs").
  - rewrite (Hsame (set_calls (calls st ++ [BenchFinish]) st) Hw). cbn.
    exists text. eexists. split; [reflexivity |]. split; [now apply Hsame |].
    split; [reflexivity |]. cbn. now rewrite <- app_assoc.
  - exists text. eexists. split; [reflexivity |]. split; [now apply Hsame |].
    split; reflexivity.
Qed.

(** C6 as the code has it: once [executeBuild] has a writer and enters
    its [try], then whatever the outcome and whatever the target, the
    [finally] block finalizes the telemetry counters exactly once; the
    summary line (the text [logFinished] computes from the writer's
    counters) is printed exactly once for the target fs, in red when
    the [catch] block ran and in green otherwise, and not at all for
    the targets json and ndjson. *)
Theorem build_finalization (to : string) (run : Run) (st st0 : Eleventy)
    (w : TemplateWriter) :
  executeBuild_ready run st = (Resolved tt, st0) ->
  writer st0 = Some w ->
  exists r st2 text (hasError : bool),
    executeBuild to run st = (r, st2) /\
    logFinished st2 = (Resolved text, st2) /\
    List.filter is_finalization (calls st2) =
      List.filter is_finalization (calls st0) ++
      BenchFinish ::
      (if String.eqb to "fs"
       then [LoggerMessage text "info" (if hasError then "red" else "green") true]
       else []) /\
    (hasError = true <-> exists e st1, executeBuild_try to run st0 = (Rejected e, st1)).
Proof.
  intros Hready Hw.
  assert (Hfin : forall (pending : outcome retval) (hasError : bool) st1,
             quiet is_finalization st0 st1 ->
             exists r st2 text,
               finally pending (executeBuild_finally to hasError) st1 = (r, st2) /\
               logFinished st2 = (Resolved text, st2) /\
               List.filter is_finalization (calls st2) =
                 List.filter is_finalization (calls st0) ++
                 BenchFinish ::
                 (if String.eqb to "fs"
                  then [LoggerMessage text "info"
                          (if hasError then "red" else "green") true]
                  else [])).
  { intros pending hasError st1 Hq.
    destruct (quiet_writer _ _ _ Hq) as [w1 Hw1]; [now rewrite Hw |].
    destruct (executeBuild_finally_run to hasError st1 w1 Hw1)
      as (text & st2 & Hrun & Hlog & _ & Hcalls).
    exists pending, st2, text. unfold finally. rewrite Hrun.
    split; [reflexivity |]. split; [assumption |].
    rewrite Hcalls, List.filter_app, (quiet_calls _ _ _ Hq). f_equal.
    cbn. now destruct (String.eqb to "fs"). }
  unfold executeBuild, bind at 1. rewrite Hready.
  unfold bind, try_catch.
  pose proof (quietly_executeBuild_try is_finalization to run
                only_marks_is_finalization st0) as Htry.
  destruct (executeBuild_try to run st0) as [[a | e] st1] eqn:Hbody; cbn in Htry.
  - destruct (Hfin (Resolved a) false st1 Htry) as (r & st2 & text & Hrun & Hlog & Hcalls).
    exists r, st2, text, false. rewrite Hrun.
    repeat split; try assumption; [discriminate |].
    intros (e & st1' & Habs). discriminate.
  - pose proof (quietly_executeBuild_catch is_finalization e
                  only_marks_is_finalization st1) as Hcatch.
    destruct (executeBuild_catch e st1) as [pending st1'] eqn:Hhandler. cbn in Hcatch.
    destruct (Hfin pending true st1' (quiet_trans _ _ _ _ Htry Hcatch))
      as (r & st2 & text & Hrun & Hlog & Hcalls).
    exists r, st2, text, true. rewrite Hrun.
    repeat split; try assumption. eauto.
Qed.

(** C5: when the write pipeline throws during [executeBuild], the
    error is reported in every case; the call re-raises it exactly when
    the invocation source is [script], after reporting it with
    [errorHandler.error]; for any other source it is reported with
    [errorHandler.fatal] and returned as [{error}] instead; and the
    telemetry is finalized after the report, before the call returns
    or throws. *)
Theorem build_error_policy (to : string) (run : Run) (st st0 : Eleventy)
    (w : TemplateWriter) (e : jserror) :
  executeBuild_ready run st = (Resolved tt, st0) ->
  writer st0 = Some w ->
  rejects run "beforeBuild" = None ->
  rejects run "eleventy.before" = None ->
  pipeline_throws to run e ->
  exists st2 before after,
    executeBuild to run st =
      (if String.eqb (source st0) "script" then Rejected e else Resolved (RetError e),
       st2) /\
    calls st2 =
      calls st0 ++ before ++
      [if String.eqb (source st0) "script"
       then ErrorHandlerError e "Problem writing Eleventy templates"
       else ErrorHandlerFatal e "Problem writing Eleventy templates";
       BenchFinish] ++ after.
Proof.
  intros Hready Hw Hb1 Hb2 Hthrows.
  unfold executeBuild, bind at 1. rewrite Hready.
  match goal with
  | |- exists st2 before after, ?m ?s = (?r, st2) /\ _ =>
      cut (wp m (fun r' st2 => r' = r /\
                   exists before after,
                     calls st2 =
                     calls st0 ++ before ++
                     [if String.eqb (source st0) "script"
                      then ErrorHandlerError e "Problem writing Eleventy templates"
                      else ErrorHandlerFatal e "Problem writing Eleventy templates";
                      BenchFinish] ++ after) s)
  end.
  { intros Hwp. apply wp_result in Hwp as (st2 & Hrun & before & after & Hcalls).
    eauto 10. }
  destruct st0 as [src ni ini hci inc rib paf wm wr pcs hp wd sus ex cs].
  cbn in Hw. subst wr.
  unfold executeBuild_try, executeBuild_catch, pipeline.
  destruct Hthrows as [[-> Hres] | [[-> Hres] | [-> Hres]]];
    cbn [String.eqb Ascii.eqb Bool.eqb];
    simpl_state; wp_steps; rewrite Hres; wp_steps;
    destruct (String.eqb src "script"); wp_steps;
    match goal with
    | |- wp (executeBuild_finally ?t ?h) _ ?s =>
        destruct (executeBuild_finally_run t h s _ eq_refl)
          as (text & st' & Hrun & _ & _ & Hcalls);
        eapply wp_eq; [exact Hrun |]
    end;
    (split; [reflexivity |]);
    eexists [_; _; _], _; rewrite Hcalls; simpl_state;
    rewrite <- !app_assoc; reflexivity.
Qed.

(** ** The watch loop *)

Lemma quietly_finally {A} keep (pending : outcome A) (fin : M unit) :
  quietly keep fin -> quietly keep (finally pending fin).
Proof.
  intros Hf st. unfold finally. specialize (Hf st).
  now destruct (fin st) as [[[] | e] st'].
Qed.

Lemma quietly_executeBuild (to : string) (run : Run) :
  quietly is_build_mark (executeBuild to run).
Proof.
  unfold executeBuild.
  apply quietly_bind;
    [apply quietly_executeBuild_ready, only_marks_is_build_mark | intros _].
  apply quietly_bind.
  - apply quietly_try_catch.
    + apply quietly_executeBuild_try, only_marks_is_build_mark.
    + intros e. apply quietly_executeBuild_catch, only_marks_is_build_mark.
  - intros [pending hasError]. apply quietly_finally.
    unfold executeBuild_finally.
    repeat first [ apply quietly_logFinished | quiet_step ].
Qed.

Lemma quietly__watch_build (c : Cycle) (run : Run) :
  quietly is_build_mark (_watch_build c run).
Proof.
  unfold _watch_build, resetConfig, restart, _initWatchDependencies, write, prefix_url.
  repeat first
    [ apply quietly_init, only_marks_is_build_mark
    | apply quietly_executeBuild
    | quiet_step ].
Qed.

Lemma _watch_enter_run (isResetConfig : bool) (st : Eleventy) :
  _watch_enter isResetConfig st =
  match watchManager st with
  | None =>
      (Rejected (TypeError "Cannot read properties of undefined (watchManager)"), st)
  | Some w =>
      if buildRunning w then (Resolved tt, st)
      else
        (Resolved tt,
         set_suspended
           (suspended st ++
            [{| cycleQueue := queue w; cycleIsResetConfig := isResetConfig |}])
           (set_calls (calls st ++ [WatchManagerSetBuildRunning])
              (set_watchManager (Some (setBuildRunning w)) st)))
  end.
Proof.
  unfold _watch_enter, bind, the_watchManager, isBuildRunning.
  destruct (watchManager st) as [w |]; [| reflexivity].
  destruct (buildRunning w); reflexivity.
Qed.

Lemma watchRun_catch_run (e : jserror) (st : Eleventy) :
  watchRun_catch e st =
  if isEleventyBaseError e then
    match watchManager st with
    | Some w =>
        (Resolved tt,
         set_calls
           (calls st ++ [ErrorHandlerError e "Eleventy watch error";
                         WatchManagerSetBuildFinished])
           (set_watchManager (Some (setBuildFinished w)) st))
    | None =>
        (Rejected (TypeError "Cannot read properties of undefined (watchManager)"),
         set_calls (calls st ++ [ErrorHandlerError e "Eleventy watch error"]) st)
    end
  else
    (Resolved tt,
     set_exited true
       (set_calls
          (calls st ++ [ErrorHandlerFatal e "Eleventy fatal watch error";
                        Collaborator "eleventyServe.close" [];
                        Collaborator "watcher.close" [];
                        ProcessExit]) st)).
Proof.
  unfold watchRun_catch, stopWatch, bind, call, modify, the_watchManager.
  destruct (isEleventyBaseError e); cbn.
  - destruct (watchManager st); cbn; [| reflexivity].
    now rewrite <- app_assoc.
  - now rewrite <- !app_assoc.
Qed.

Lemma _watch_finish_run (st : Eleventy) (w : EleventyWatch) :
  watchManager st = Some w ->
  _watch_finish st =
  (Resolved tt,
   if (0 <? length (queue w))%nat then
     set_suspended
       (suspended st ++ [{| cycleQueue := queue w; cycleIsResetConfig := false |}])
       (set_calls
          (calls st ++
           [WatchManagerSetBuildFinished;
            LoggerLog
              ("You saved while Eleventy was running, let’s run again. (" +:+
               pretty (length (queue w)) +:+ " change" +:+
               (if (length (queue w) =? 1)%nat then "" else "s") +:+ ")");
            WatchManagerSetBuildRunning])
          (set_watchManager (Some (setBuildRunning (setBuildFinished w))) st))
   else
     set_calls (calls st ++ [WatchManagerSetBuildFinished; LoggerLog "Watching…"])
       (set_watchManager (Some (setBuildFinished w)) st)).
Proof.
  intros Hw. unfold _watch_finish, bind, the_watchManager, modify, call, getPendingQueueSize.
  rewrite Hw. cbn -[Nat.ltb Nat.eqb pretty String.append].
  destruct (0 <? length (queue w))%nat eqn:Hq.
  - rewrite _watch_enter_run. cbn -[Nat.ltb Nat.eqb pretty String.append].
    rewrite <- !app_assoc. reflexivity.
  - unfold modify. cbn. rewrite <- !app_assoc. reflexivity.
Qed.

Lemma builds_in_flight_app (d : nat) (l l' : list event) :
  builds_in_flight d (l ++ l') =
  match builds_in_flight d l with
  | Some d' => builds_in_flight d' l'
  | None => None
  end.
Proof.
  revert d. induction l as [| e l IH]; intros d; [reflexivity |].
  destruct e; cbn; try apply IH; destruct (_ =? _)%nat; auto.
Qed.

Lemma in_flight_app (l l' : list event) (d : nat) :
  in_flight l = Some d ->
  in_flight (l ++ l') = builds_in_flight d (List.filter is_build_mark l').
Proof.
  unfold in_flight. intros Hl. now rewrite List.filter_app, builds_in_flight_app, Hl.
Qed.

Lemma in_flight_quiet (st st' : Eleventy) :
  quiet is_build_mark st st' -> in_flight (calls st') = in_flight (calls st).
Proof. intros Hq. unfold in_flight. now rewrite (quiet_calls _ _ _ Hq). Qed.

Lemma watchRun_run (p : path) (st : Eleventy) :
  watchRun p st =
  let p' := normalizePath p in
  let isResetConfig := _shouldResetConfig [p'] in
  let modified :=
    ResourceModified p' (getDependantsOf (addLeadingDotSlash p')) isResetConfig
      (getLayoutsUsedBy p') in
  match watchManager st with
  | Some w =>
      set_watchDelay (Some isResetConfig)
        (set_watchManager (Some (addToPendingQueue p' w))
           (set_calls (calls st ++ [modified]) st))
  | None =>
      set_watchDelay (Some isResetConfig) (set_calls (calls st ++ [modified]) st)
  end.
Proof.
  unfold watchRun, _addFileToWatchQueue, bind, call, modify, the_watchManager.
  cbn. destruct (watchManager st); reflexivity.
Qed.

(** What the invariant says of a running process. *)
Lemma watch_inv_running (st : Eleventy) :
  watch_inv st -> exited st = false ->
  in_flight (calls st) = Some (length (suspended st)) /\
  match watchManager st with
  | Some w =>
      (buildRunning w = false /\ suspended st = []) \/
      (buildRunning w = true /\ exists c, suspended st = [c])
  | None => suspended st = []
  end.
Proof.
  intros (Hlen & d & Hd & Hrun) Hex. destruct (Hrun Hex) as [-> Hflag].
  split; [exact Hd |]. destruct (watchManager st) as [w |]; [| exact Hflag].
  destruct (suspended st) as [| c [| c' l]]; cbn in *.
  - left. now split.
  - right. split; [assumption | eauto].
  - lia.
Qed.

Lemma watch_inv_intro (st : Eleventy) (d : nat) :
  in_flight (calls st) = Some d ->
  length (suspended st) <= 1 ->
  (exited st = false ->
   d = length (suspended st) /\
   match watchManager st with
   | Some w => buildRunning w = negb (length (suspended st) =? 0)%nat
   | None => suspended st = []
   end) ->
  watch_inv st.
Proof. intros Hd Hlen Hrun. split; [exact Hlen |]. eauto. Qed.

Lemma watch_inv_notify (p : path) (st : Eleventy) :
  watch_inv st -> watch_inv (watchRun p st).
Proof.
  intros (Hlen & d & Hd & Hrun). rewrite watchRun_run. cbn zeta.
  destruct (watchManager st) as [w |] eqn:Hw.
  - apply (watch_inv_intro _ d); simpl_state.
    + now rewrite (in_flight_app _ _ d Hd).
    + exact Hlen.
    + intros Hex. exact (Hrun Hex).
  - apply (watch_inv_intro _ d); simpl_state.
    + now rewrite (in_flight_app _ _ d Hd).
    + exact Hlen.
    + intros Hex. rewrite Hw. exact (Hrun Hex).
Qed.

Lemma watch_inv_timer (isResetConfig : bool) (st : Eleventy) :
  watch_inv st -> exited st = false ->
  watch_inv (watchRun_timer isResetConfig (set_watchDelay None st)).
Proof.
  intros Hinv Hex. destruct (watch_inv_running st Hinv Hex) as [Hd Hflag].
  destruct Hinv as [Hlen _].
  unfold watchRun_timer. rewrite _watch_enter_run. simpl_state.
  destruct (watchManager st) as [w |] eqn:Hw.
  - destruct Hflag as [[Hb Hs] | [Hb (c & Hs)]]; rewrite Hb.
    + apply (watch_inv_intro _ 1); simpl_state.
      * rewrite (in_flight_app _ _ _ Hd), Hs. reflexivity.
      * rewrite Hs. cbn. lia.
      * intros _. rewrite Hs. cbn. auto.
    + apply (watch_inv_intro _ 1); simpl_state.
      * rewrite Hd, Hs. reflexivity.
      * exact Hlen.
      * intros _. rewrite Hs, Hw. cbn. auto.
  - rewrite watchRun_catch_run. cbn [isEleventyBaseError TypeError]. simpl_state.
    apply (watch_inv_intro _ 0); simpl_state.
    + rewrite (in_flight_app _ _ _ Hd), Hflag. reflexivity.
    + exact Hlen.
    + discriminate.
Qed.

Lemma watch_inv_settle (i : nat) (run : Run) (st : Eleventy) :
  watch_inv st -> exited st = false ->
  watch_inv (watchRun_settle i run st).
Proof.
  intros Hinv Hex. destruct (watch_inv_running st Hinv Hex) as [Hd Hflag].
  unfold watchRun_settle.
  destruct (suspended st !! i) as [c |] eqn:Hi; [| exact Hinv].
  destruct (watchManager st) as [w |] eqn:Hw;
    [| rewrite Hflag in Hi; discriminate].
  destruct Hflag as [[Hb Hs] | [Hb (c0 & Hs)]]; [rewrite Hs in Hi; discriminate |].
  rewrite Hs in *. destruct i as [| i]; [| discriminate].
  cbn in Hi. injection Hi as ->. cbn [delete list_delete].
  unfold _watch_resume, bind.
  pose proof (quietly__watch_build c run (set_suspended [] st)) as Hq.
  destruct (_watch_build c run (set_suspended [] st)) as [[[] | e] st1] eqn:Hbuild;
    cbn in Hq.
  all: pose proof (in_flight_quiet _ _ Hq) as Hd1;
    pose proof (quiet_suspended _ _ _ Hq) as Hs1;
    pose proof (quiet_exited _ _ _ Hq) as Hex1;
    destruct (quiet_watchManager _ _ _ Hq) as [w1 Hw1];
    [simpl_state; rewrite Hw; eauto |];
    simpl_state_in Hd1; simpl_state_in Hs1; simpl_state_in Hex1;
    rewrite Hd in Hd1; cbn [length] in Hd1.
  - rewrite (_watch_finish_run st1 w1 Hw1).
    destruct (0 <? length (queue w1))%nat.
    + apply (watch_inv_intro _ 1); simpl_state.
      * rewrite (in_flight_app _ _ _ Hd1). reflexivity.
      * rewrite Hs1. cbn. lia.
      * intros _. rewrite Hs1. cbn. auto.
    + apply (watch_inv_intro _ 0); simpl_state.
      * rewrite (in_flight_app _ _ _ Hd1). reflexivity.
      * rewrite Hs1. cbn. lia.
      * intros _. rewrite Hs1. cbn. auto.
  - rewrite watchRun_catch_run. destruct (isEleventyBaseError e).
    + rewrite Hw1. apply (watch_inv_intro _ 0); simpl_state.
      * rewrite (in_flight_app _ _ _ Hd1). reflexivity.
      * rewrite Hs1. cbn. lia.
      * intros _. rewrite Hs1. cbn. auto.
    + apply (watch_inv_intro _ 1); simpl_state.
      * rewrite (in_flight_app _ _ _ Hd1). reflexivity.
      * rewrite Hs1. cbn. lia.
      * discriminate.
Qed.

Lemma watch_inv_step (l : label) (st : Eleventy) :
  watch_inv st -> watch_inv (step l st).
Proof.
  intros Hinv. unfold step. destruct (exited st) eqn:Hex; [exact Hinv |].
  destruct l as [p | | i run].
  - now apply watch_inv_notify.
  - destruct (watchDelay st); [now apply watch_inv_timer | exact Hinv].
  - now apply watch_inv_settle.
Qed.

Lemma watch_inv_steps (ls : list label) (st : Eleventy) :
  watch_inv st -> watch_inv (steps ls st).
Proof.
  unfold steps. revert st. induction ls as [| l ls IH]; intros st Hinv; cbn.
  - exact Hinv.
  - apply IH. now apply watch_inv_step.
Qed.

Lemma idle_watch_inv (st : Eleventy) : idle st -> watch_inv st.
Proof.
  intros (Hs & Hd & Hflag). apply (watch_inv_intro _ 0); rewrite ?Hs; cbn; auto.
  intros _. split; [reflexivity |].
  destruct (watchManager st) as [w |] eqn:Hw; [now apply Hflag | reflexivity].
Qed.

Lemma builds_in_flight_le (d d' : nat) (l : list event) :
  d <= 1 -> builds_in_flight d l = Some d' -> d' <= 1.
Proof.
  revert d. induction l as [| e l IH]; intros d Hd; cbn.
  - intros [= <-]. exact Hd.
  - destruct e; try apply (IH d Hd); destruct (_ =? _)%nat; try discriminate.
    + apply IH. lia.
    + apply IH. lia.
Qed.

(** C1: build cycles are single-flight.  An invocation of [_watch]
    that finds [isBuildRunning()] true returns at once and leaves the
    instance as it is; hence, from watch mode at rest and whatever the
    watcher, the timer and the builds do, at most one activation of
    [_watch] is ever inside a build, and in the trace every claim of
    the build flag comes after the release of the previous one: cycle
    N+1 never starts before cycle N has finished. *)
Theorem watch_single_flight :
  (forall isResetConfig st w,
      watchManager st = Some w ->
      isBuildRunning w = true ->
      _watch_enter isResetConfig st = (Resolved tt, st)) /\
  (forall st0 ls,
      idle st0 ->
      length (suspended (steps ls st0)) <= 1 /\
      exists d, d <= 1 /\ in_flight (calls (steps ls st0)) = Some d).
Proof.
  split.
  - intros r st w Hw Hb. rewrite _watch_enter_run, Hw.
    unfold isBuildRunning in Hb. now rewrite Hb.
  - intros st0 ls Hidle.
    destruct (watch_inv_steps ls st0 (idle_watch_inv st0 Hidle)) as (Hlen & d & Hd & Hrun).
    split; [exact Hlen |]. exists d. split; [| exact Hd].
    unfold in_flight in Hd. apply (builds_in_flight_le 0 d _ ltac:(lia) Hd).
Qed.

Lemma settle_resolved (i : nat) (c : Cycle) (run : Run) (st st1 : Eleventy)
    (w : EleventyWatch) :
  exited st = false ->
  suspended st !! i = Some c ->
  _hasConfigInitialized st = true ->
  watchManager st = Some w ->
  _watch_build c run (set_suspended (delete i (suspended st)) st) = (Resolved tt, st1) ->
  step (Settles i run) st =
  if (0 <? length (queue w))%nat then
    set_suspended
      (delete i (suspended st) ++
       [{| cycleQueue := queue w; cycleIsResetConfig := false |}])
      (set_calls
         (calls st1 ++
          [WatchManagerSetBuildFinished;
           LoggerLog
             ("You saved while Eleventy was running, let’s run again. (" +:+
              pretty (length (queue w)) +:+ " change" +:+
              (if (length (queue w) =? 1)%nat then "" else "s") +:+ ")");
           WatchManagerSetBuildRunning])
         (set_watchManager (Some (setBuildRunning (setBuildFinished w))) st1))
  else
    set_calls (calls st1 ++ [WatchManagerSetBuildFinished; LoggerLog "Watching…"])
      (set_watchManager (Some (setBuildFinished w)) st1).
Proof.
  intros Hex Hi Hcfg Hw Hbuild.
  unfold step. rewrite Hex. unfold watchRun_settle. rewrite Hi.
  unfold _watch_resume, bind. rewrite Hbuild.
  pose proof (quietly__watch_build c run (set_suspended (delete i (suspended st)) st))
    as Hq.
  rewrite Hbuild in Hq. cbn [snd] in Hq.
  destruct (quiet_config _ _ _ Hq Hcfg) as [_ Hw1]. simpl_state_in Hw1.
  rewrite Hw in Hw1.
  pose proof (quiet_suspended _ _ _ Hq) as Hs1. simpl_state_in Hs1.
  rewrite (_watch_finish_run st1 w Hw1), Hs1.
  now destruct (0 <? length (queue w))%nat.
Qed.

Lemma settle_rejected (i : nat) (c : Cycle) (run : Run) (st st1 : Eleventy)
    (w : EleventyWatch) (e : jserror) :
  exited st = false ->
  suspended st !! i = Some c ->
  _hasConfigInitialized st = true ->
  watchManager st = Some w ->
  _watch_build c run (set_suspended (delete i (suspended st)) st) = (Rejected e, st1) ->
  step (Settles i run) st =
  if isEleventyBaseError e then
    set_calls
      (calls st1 ++ [ErrorHandlerError e "Eleventy watch error";
                     WatchManagerSetBuildFinished])
      (set_watchManager (Some (setBuildFinished w)) st1)
  else
    set_exited true
      (set_calls
         (calls st1 ++ [ErrorHandlerFatal e "Eleventy fatal watch error";
                        Collaborator "eleventyServe.close" [];
                        Collaborator "watcher.close" [];
                        ProcessExit]) st1).
Proof.
  intros Hex Hi Hcfg Hw Hbuild.
  unfold step. rewrite Hex. unfold watchRun_settle. rewrite Hi.
  unfold _watch_resume, bind. rewrite Hbuild.
  pose proof (quietly__watch_build c run (set_suspended (delete i (suspended st)) st))
    as Hq.
  rewrite Hbuild in Hq. cbn [snd] in Hq.
  destruct (quiet_config _ _ _ Hq Hcfg) as [_ Hw1]. simpl_state_in Hw1.
  rewrite Hw in Hw1.
  rewrite watchRun_catch_run, Hw1. now destruct (isEleventyBaseError e).
Qed.

Lemma executeBuild_ready_initialised (run : Run) (st : Eleventy) :
  needsInit st = false ->
  is_Some (writer st) ->
  exists st0,
    executeBuild_ready run st = (Resolved tt, st0) /\
    needsInit st0 = false /\
    writer st0 = writer st /\
    heap st0 = heap st /\
    source st0 = source st.
Proof.
  intros Hni [w Hw]. unfold executeBuild_ready, bind, get, ret, writer_call, bind,
    the_writer, call, modify.
  rewrite Hni, Hw. cbn. destruct (truthy (programmaticApiIncrementalFile st)).
  - rewrite Hw. cbn. eexists. split; [reflexivity |]. cbn. auto.
  - eexists. split; [reflexivity |]. auto.
Qed.

Lemma executeBuild_finally_frame (to : string) (hasError : bool) (st : Eleventy) :
  is_Some (writer st) ->
  exists st',
    executeBuild_finally to hasError st = (Resolved tt, st') /\
    heap st' = heap st.
Proof.
  intros [w Hw]. unfold executeBuild_finally, bind, call, modify, logFinished. cbn.
  destruct (String.eqb to "fs"); cbn; rewrite ?Hw; cbn; eauto.
Qed.

Lemma executeBuild_fs_run (run : Run) (st : Eleventy) :
  (forall name, rejects run name = None) ->
  needsInit st = false ->
  is_Some (writer st) ->
  exists st2,
    executeBuild "fs" run st =
      (match fsResult run with
       | Resolved (copy, templateResults) =>
           Resolved (RetFs copy (map Some (filter_truthy (flat templateResults))
                                   :: tl templateResults))
       | Rejected e =>
           if String.eqb (source st) "script" then Rejected e else Resolved (RetError e)
       end, st2) /\
    heap st2 = objects run ∪ heap st.
Proof.
  intros Hrej Hni Hw.
  destruct (executeBuild_ready_initialised run st Hni Hw)
    as (st0 & Hready & _ & Hw0 & Hh0 & Hs0).
  destruct Hw as [w Hw]. rewrite Hw in Hw0. rewrite <- Hh0, <- Hs0.
  unfold executeBuild, bind at 1. rewrite Hready.
  apply wp_result.
  destruct st0 as [src ni ini hci inc rib paf wm wr pcs hp wd sus ex cs].
  cbn in Hw0. subst wr. simpl_state.
  unfold executeBuild_try, executeBuild_catch, pipeline.
  cbn [String.eqb Ascii.eqb Bool.eqb]. wp_steps.
  destruct (fsResult run) as [[copy templateResults] | e]; wp_steps.
  - match goal with
    | |- wp (executeBuild_finally ?t ?h) _ ?s =>
        destruct (executeBuild_finally_frame t h s) as (st' & Hrun & Hheap);
        [simpl_state; eauto | eapply wp_eq; [exact Hrun |]]
    end.
    simpl_state_in Hheap. now split.
  - destruct (String.eqb src "script"); wp_steps;
      match goal with
      | |- wp (executeBuild_finally ?t ?h) _ ?s =>
          destruct (executeBuild_finally_frame t h s) as (st' & Hrun & Hheap);
          [simpl_state; eauto | eapply wp_eq; [exact Hrun |]]
      end;
      simpl_state_in Hheap; now split.
Qed.

Lemma array_map_prefix_url_run (p : string) (entries : list nat) (st : Eleventy) :
  array_map (prefix_url p) entries st =
  (Resolved entries, set_heap (prefixed_heap p entries (heap st)) st).
Proof.
  revert st. induction entries as [| entry entries IH]; intros st.
  - destruct st. reflexivity.
  - cbn [array_map]. unfold bind at 1. unfold prefix_url at 1, bind, modify, ret.
    unfold bind. rewrite IH. cbn. destruct st. reflexivity.
Qed.

Lemma wp_init_initialised (v : bool) (run : Run) (w : EleventyWatch) (s : Eleventy)
    (Q : outcome unit -> Eleventy -> Prop) :
  (forall name, rejects run name = None) ->
  caches new_TemplateWriter <> NoCaches ->
  _hasConfigInitialized s = true ->
  watchManager s = Some w ->
  (forall s', initialised w (source s) s' -> heap s' = heap s ->
              calls s `prefix_of` calls s' -> Q (Resolved tt) s') ->
  wp (init v run) Q s.
Proof.
  intros Hrej Hdecl Hc Hw HQ.
  destruct (init_resolves v run s Hrej Hdecl) as (s' & Hrun & Hwr & Hni & Hheap).
  pose proof (quietly_init is_build_mark v run only_marks_is_build_mark s) as Hq.
  rewrite Hrun in Hq. cbn [snd] in Hq.
  destruct (quiet_extends _ _ _ Hq) as [l Hl].
  eapply wp_eq; [exact Hrun |]. apply (HQ s'); [| exact Hheap | now exists l].
  destruct (quiet_config _ _ _ Hq Hc) as [Hc' Hw'].
  repeat split; try assumption; [congruence | apply (quiet_source _ _ _ Hq)].
Qed.

Lemma wp_write_initialised (run : Run) (w : EleventyWatch) (s : Eleventy)
    (Q : outcome retval -> Eleventy -> Prop) :
  (forall name, rejects run name = None) ->
  initialised w (source s) s ->
  (forall s', is_Some (writer s') -> watchManager s' = Some w ->
                heap s' = objects run ∪ heap s ->
                calls s `prefix_of` calls s' ->
                Q (match fsResult run with
                   | Resolved (copy, templateResults) =>
                       Resolved (RetFs copy (map Some (filter_truthy (flat templateResults))
                                               :: tl templateResults))
                   | Rejected e =>
                       if String.eqb (source s) "script"
                       then Rejected e else Resolved (RetError e)
                   end) s') ->
  wp (executeBuild "fs" run) Q s.
Proof.
  intros Hrej (Hni & Hwr & Hw & Hc & Hs) HQ.
  destruct (executeBuild_fs_run run s Hrej Hni Hwr) as (s' & Hrun & Hheap).
  pose proof (quietly_executeBuild "fs" run s) as Hq.
  rewrite Hrun in Hq. cbn [snd] in Hq.
  destruct (quiet_extends _ _ _ Hq) as [l Hl].
  eapply wp_eq; [exact Hrun |]. apply (HQ s'); [| | exact Hheap | now exists l].
  - now apply (quiet_writer _ _ _ Hq).
  - destruct (quiet_config _ _ _ Hq Hc) as [Hc' Hw']. congruence.
Qed.

Lemma _initWatchDependencies_run (run : Run) (st : Eleventy) :
  (forall name, rejects run name = None) ->
  _initWatchDependencies run st =
  (Resolved tt, set_calls (calls st ++ watch_dependency_calls) st).
Proof.
  intros Hrej. unfold _initWatchDependencies, watch_dependency_calls, await.
  rewrite !Hrej. destruct watchJavaScriptDependencies; cbn.
  - unfold bind, call, modify. cbn. rewrite <- !app_assoc. reflexivity.
  - rewrite app_nil_r. now destruct st.
Qed.

Lemma wp__initWatchDependencies (run : Run) (Q : outcome unit -> Eleventy -> Prop)
    (st : Eleventy) :
  (forall name, rejects run name = None) ->
  Q (Resolved tt) (set_calls (calls st ++ watch_dependency_calls) st) ->
  wp (_initWatchDependencies run) Q st.
Proof. intros Hrej HQ. eapply wp_eq; [now apply _initWatchDependencies_run | exact HQ]. Qed.

Lemma _watch_build_run (c : Cycle) (run : Run) (st : Eleventy) (w : EleventyWatch) :
  (forall name, rejects run name = None) ->
  caches new_TemplateWriter <> NoCaches ->
  _hasConfigInitialized st = true ->
  watchManager st = Some w ->
  (source st <> "script" \/ exists res, fsResult run = Resolved res) ->
  exists st1 before,
    _watch_build c run st = (Resolved tt, st1) /\
    calls st1 = calls st ++ before ++ [handed_over run w (heap st)].
Proof.
  intros Hrej Hdecl Hcfg Hwm Hsrc.
  cut (wp (_watch_build c run)
          (fun r s => r = Resolved tt /\
                      exists before,
                        calls s = calls st ++ before ++ [handed_over run w (heap st)]) st).
  { intros Hwp. apply wp_resolved in Hwp as (st1 & Hrun & before & Hcalls). eauto. }
  assert (Hend : forall (X : list event) (last : event),
             calls st `prefix_of` X ->
             exists before, X ++ [last] = calls st ++ before ++ [last]).
  { intros X last [mid ->]. exists mid. now rewrite app_assoc. }
  unfold _watch_build, resetConfig, restart, write.
  wp_steps.
  destruct (cycleIsResetConfig c); wp_steps;
    (eapply (wp_init_initialised _ _ w); try assumption; simpl_state; try assumption;
     intros s1 (Hni1 & Hwr1 & Hwm1 & Hc1 & Hs1) Hh1 Hl1;
     simpl_state_in Hh1; simpl_state_in Hs1; simpl_state_in Hl1;
     destruct Hwr1 as [wr1 Hwr1];
     wp_steps; rewrite Hwm1;
     destruct (truthy (getIncrementalFile w)); wp_steps; rewrite ?Hwr1; wp_steps;
     (eapply (wp_write_initialised _ w);
      [assumption | simpl_state; repeat split; try assumption; rewrite ?Hwr1; eauto |]);
     intros s2 [wr2 Hwr2] Hwm2 Hh2 Hl2;
     simpl_state_in Hh2; simpl_state_in Hl2; simpl_state; rewrite Hh1 in Hh2).
  all: unfold handed_over.
  all: destruct (fsResult run) as [[copy templateResults] | e].
  all: try (destruct Hsrc as [Hsrc | [res Hres]]; [| discriminate];
            rewrite Hs1; apply String.eqb_neq in Hsrc; rewrite Hsrc).
  all: assert (Hpre : calls st `prefix_of` calls s2)
    by (etransitivity; [| exact Hl2];
        repeat (apply prefix_app_r); etransitivity; [| exact Hl1];
        repeat (apply prefix_app_r); reflexivity).
  all: repeat (progress (wp_steps; rewrite ?Hwr2, ?Hwm2;
                         try (apply wp__initWatchDependencies; [assumption |]; simpl_state))).
  all: try (eapply wp_eq; [apply array_map_prefix_url_run |];
            simpl_state; wp_steps; rewrite Hh2).
  all: (split; [reflexivity |]); apply Hend; repeat (apply prefix_app_r); exact Hpre.
Qed.

Lemma filter_truthy_map_Some (xs : list nat) : filter_truthy (map Some xs) = xs.
Proof. induction xs as [| x xs IH]; cbn; [reflexivity | now rewrite IH]. Qed.

Lemma filter_truthy_app (xs ys : list (option nat)) :
  filter_truthy (xs ++ ys) = filter_truthy xs ++ filter_truthy ys.
Proof.
  induction xs as [| [x |] xs IH]; cbn; [reflexivity | now rewrite IH | exact IH].
Qed.

(** The entries [_watch] maps over: the flattened results that
    [executeBuild] stored at index 1, followed once more by the entries
    of every array it left behind from index 2 on. *)
Lemma payload_entries (templateResults : list (list (option nat))) :
  filter_truthy (flat (map Some (filter_truthy (flat templateResults)) :: tl templateResults)) =
  filter_truthy (flat templateResults) ++ filter_truthy (flat (tl templateResults)).
Proof.
  unfold flat. cbn [concat]. now rewrite filter_truthy_app, filter_truthy_map_Some.
Qed.

Lemma prefixed_heap_other (p : string) (entries : list nat) (h : gmap nat string)
    (e : nat) :
  e ∉ entries -> prefixed_heap p entries h !! e = h !! e.
Proof.
  unfold prefixed_heap. revert h.
  induction entries as [| x entries IH]; intros h Hnot; cbn [fold_left]; [reflexivity |].
  apply not_elem_of_cons in Hnot as [Hne Hnot].
  rewrite IH by assumption. now apply lookup_insert_ne.
Qed.

(** An entry that is visited once has the prefix joined to its [url]
    once. *)
Lemma prefixed_heap_once (p : string) (entries : list nat) (h : gmap nat string)
    (e : nat) :
  NoDup entries -> e ∈ entries ->
  url_of (prefixed_heap p entries h) e = joinUrlParts p (url_of h e).
Proof.
  revert h. induction entries as [| x entries IH]; intros h Hnd Hin.
  - now apply elem_of_nil in Hin.
  - apply NoDup_cons in Hnd as [Hx Hnd].
    change (prefixed_heap p (x :: entries) h)
      with (prefixed_heap p entries (<[x := joinUrlParts p (url_of h x)]> h)).
    destruct (decide (e = x)) as [-> | Hne].
    + unfold url_of at 1. rewrite prefixed_heap_other by assumption.
      now rewrite lookup_insert_eq.
    + apply elem_of_cons in Hin as [Heq | Hin]; [contradiction |].
      rewrite IH by assumption. unfold url_of.
      now rewrite lookup_insert_ne by congruence.
Qed.

(** When the write pipeline resolves with one array of distinct result
    objects after the copy results, the payload lists each non-empty
    entry once, with the path prefix joined to the [url] the build gave
    it. *)
Lemma handed_over_one_array (run : Run) (w : EleventyWatch) (h : gmap nat string)
    (copy : jsval) (results : list (option nat)) :
  fsResult run = Resolved (copy, [results]) ->
  NoDup (filter_truthy results) ->
  handed_over run w h =
  ServeReload
    {| files := getActiveQueue w;
       subtype :=
         if hasAllQueueFiles
              (fun p => endsWith p ".css" && negb (startsWithSubPath p getIncludesDir)) w
         then Some "css" else None;
       templates :=
         map (fun entry =>
                (entry,
                 joinUrlParts (normalizePathPrefix configPathPrefix)
                   (url_of (objects run ∪ h) entry)))
           (filter_truthy results) |}.
Proof.
  intros Hres Hnd. unfold handed_over. rewrite Hres, payload_entries.
  cbn [tl flat concat filter_truthy]. rewrite !app_nil_r.
  do 2 f_equal. apply map_ext_in. intros e Hin.
  f_equal. apply prefixed_heap_once; [assumption |]. now apply list_elem_of_In.
Qed.

(** The completion of a cycle.  When the activation of a cycle runs to
    its end without throwing (no awaited collaborator rejects and either
    the build succeeds or the source is not [script], so that a build
    failure comes back from [write()] as [{error}]), the result is
    handed to the reload layer, the build flag is released and then, if
    the pending queue is not empty, exactly one further cycle starts in
    the same step, with the pending queue as its queue and without
    going through the debounce timer; otherwise the instance stays idle
    and [Watching…] is logged.  When the activation throws, the [catch]
    block of [watchRun] releases the flag for an [EleventyBaseError]
    (and stops the process otherwise); it starts no cycle. *)
Theorem cycle_completion (i : nat) (c : Cycle) (run : Run) (st : Eleventy)
    (w : EleventyWatch) :
  exited st = false ->
  suspended st !! i = Some c ->
  _hasConfigInitialized st = true ->
  watchManager st = Some w ->
  let st' := step (Settles i run) st in
  ((forall name, rejects run name = None) ->
   caches new_TemplateWriter <> NoCaches ->
   (source st <> "script" \/ exists res, fsResult run = Resolved res) ->
   watchDelay st' = watchDelay st /\
   exists before,
     if (0 <? length (queue w))%nat then
       suspended st' =
         delete i (suspended st) ++
         [{| cycleQueue := queue w; cycleIsResetConfig := false |}] /\
       watchManager st' = Some (setBuildRunning (setBuildFinished w)) /\
       exists text,
         calls st' =
         calls st ++ before ++
         [handed_over run w (heap st); WatchManagerSetBuildFinished;
          LoggerLog text; WatchManagerSetBuildRunning]
     else
       suspended st' = delete i (suspended st) /\
       watchManager st' = Some (setBuildFinished w) /\
       calls st' =
         calls st ++ before ++
         [handed_over run w (heap st); WatchManagerSetBuildFinished;
          LoggerLog "Watching…"]) /\
  (forall e st1,
      _watch_build c run (set_suspended (delete i (suspended st)) st) = (Rejected e, st1) ->
      watchDelay st' = watchDelay st /\
      suspended st' = delete i (suspended st) /\
      if isEleventyBaseError e then
        watchManager st' = Some (setBuildFinished w) /\
        calls st' =
          calls st1 ++ [ErrorHandlerError e "Eleventy watch error";
                        WatchManagerSetBuildFinished]
      else exited st' = true).
Proof.
  intros Hex Hi Hcfg Hw st'. split.
  - intros Hrej Hdecl Hsrc.
    destruct (_watch_build_run c run (set_suspended (delete i (suspended st)) st) w
                Hrej Hdecl Hcfg Hw Hsrc) as (st1 & before & Hbuild & Hcalls).
    simpl_state_in Hcalls.
    pose proof (quietly__watch_build c run (set_suspended (delete i (suspended st)) st))
      as Hq.
    rewrite Hbuild in Hq. cbn [snd] in Hq.
    pose proof (quiet_watchDelay _ _ _ Hq) as Hd1. simpl_state_in Hd1.
    pose proof (quiet_suspended _ _ _ Hq) as Hs1. simpl_state_in Hs1.
    subst st'. rewrite (settle_resolved i c run st st1 w Hex Hi Hcfg Hw Hbuild).
    split; [now destruct (0 <? length (queue w))%nat |].
    exists before.
    destruct (0 <? length (queue w))%nat; simpl_state;
      rewrite Hcalls, ?Hs1, <- !app_assoc; cbn [app]; eauto 10.
  - intros e st1 Hbuild.
    pose proof (quietly__watch_build c run (set_suspended (delete i (suspended st)) st))
      as Hq.
    rewrite Hbuild in Hq. cbn [snd] in Hq.
    pose proof (quiet_suspended _ _ _ Hq) as Hs1. simpl_state_in Hs1.
    pose proof (quiet_watchDelay _ _ _ Hq) as Hd1. simpl_state_in Hd1.
    subst st'. rewrite (settle_rejected i c run st st1 w e Hex Hi Hcfg Hw Hbuild).
    destruct (isEleventyBaseError e); simpl_state; auto.
Qed.

(** C8 as the code has it: a notification that arrives while a build
    is running is put on the pending queue and, like every
    notification, cancels the debounce timer and sets it again;
    [watchRun] does not look at the build flag, and no build is
    started.  When that timer fires while the build is still running,
    [_watch] returns at once: no build starts and the path stays on
    the pending queue.  When the cycle in flight then completes
    without throwing, the cycle it starts at once (without
    configuration reset) takes the pending queue, the notified path
    included, whether the timer has fired meanwhile or not. *)
Theorem notification_while_building (p : path) (st : Eleventy) (w : EleventyWatch) :
  exited st = false ->
  watchManager st = Some w ->
  buildRunning w = true ->
  let st' := step (Notify p) st in
  let p' := normalizePath p in
  watchManager st' = Some (addToPendingQueue p' w) /\
  In p' (queue (addToPendingQueue p' w)) /\
  suspended st' = suspended st /\
  watchDelay st' = Some (_shouldResetConfig [p']) /\
  step TimerFires st' = set_watchDelay None st' /\
  (forall i c run st'',
      st'' = st' \/ st'' = step TimerFires st' ->
      suspended st !! i = Some c ->
      _hasConfigInitialized st = true ->
      (forall name, rejects run name = None) ->
      caches new_TemplateWriter <> NoCaches ->
      (source st <> "script" \/ exists res, fsResult run = Resolved res) ->
      suspended (step (Settles i run) st'') =
        delete i (suspended st) ++
        [{| cycleQueue := queue (addToPendingQueue p' w); cycleIsResetConfig := false |}]).
Proof.
  intros Hex Hw Hb st' p'.
  assert (Hst' : st' =
                 set_watchDelay (Some (_shouldResetConfig [p']))
                   (set_watchManager (Some (addToPendingQueue p' w))
                      (set_calls
                         (calls st ++
                          [ResourceModified p' (getDependantsOf (addLeadingDotSlash p'))
                             (_shouldResetConfig [p']) (getLayoutsUsedBy p')]) st))).
  { subst st'. unfold step. rewrite Hex, watchRun_run, Hw. reflexivity. }
  assert (Hin : In p' (queue (addToPendingQueue p' w))).
  { cbn. apply Set_add_In. now right. }
  assert (Hfires : step TimerFires st' = set_watchDelay None st').
  { rewrite Hst'. unfold step. simpl_state. rewrite Hex. unfold watchRun_timer.
    rewrite _watch_enter_run. simpl_state. cbn [buildRunning addToPendingQueue].
    now rewrite Hb. }
  split; [now rewrite Hst' |]. split; [exact Hin |].
  split; [now rewrite Hst' |]. split; [now rewrite Hst' |]. split; [exact Hfires |].
  intros i c run st'' Hwhich Hi Hcfg Hrej Hdecl Hsrc.
  assert (Hs : exited st'' = false /\
               suspended st'' = suspended st /\
               _hasConfigInitialized st'' = true /\
               watchManager st'' = Some (addToPendingQueue p' w) /\
               source st'' = source st).
  { destruct Hwhich as [-> | ->]; rewrite ?Hfires, Hst'; simpl_state; auto. }
  destruct Hs as (Hex2 & Hsus2 & Hcfg2 & Hw2 & Hsrc2).
  destruct (_watch_build_run c run (set_suspended (delete i (suspended st'')) st'')
              (addToPendingQueue p' w) Hrej Hdecl)
    as (st1 & before & Hbuild & _);
    [simpl_state; assumption | simpl_state; assumption
    | simpl_state; now rewrite Hsrc2 |].
  rewrite (settle_resolved i c run st'' st1 (addToPendingQueue p' w));
    try assumption; [| now rewrite Hsus2].
  rewrite Hsus2.
  destruct (0 <? length (queue (addToPendingQueue p' w)))%nat eqn:Hq.
  - simpl_state. reflexivity.
  - apply Nat.ltb_ge in Hq.
    destruct (queue (addToPendingQueue p' w)); [destruct Hin | cbn in Hq; lia].
Qed.

End Build_and_watch.

(** * More properties of the class *)

(** ** What builds and watch steps leave alone *)

Section Steady.
Context `{E : Collaborators}.

Lemma steady_refl (st : Eleventy) : steady st st.
Proof. split; auto. Qed.

Lemma steady_trans (st1 st2 st3 : Eleventy) :
  steady st1 st2 -> steady st2 st3 -> steady st1 st3.
Proof.
  intros [] []. split; try congruence; auto.
  etransitivity; eassumption.
Qed.

Lemma steadily_ret {A} (a : A) : steadily (ret a).
Proof. intros st. apply steady_refl. Qed.

Lemma steadily_throw {A} (e : jserror) : steadily (@throw A e).
Proof. intros st. apply steady_refl. Qed.

Lemma steadily_get {A} (f : Eleventy -> A) : steadily (get f).
Proof. intros st. apply steady_refl. Qed.

Lemma steadily_bind {A B} (m : M A) (k : A -> M B) :
  steadily m -> (forall a, steadily (k a)) -> steadily (bind m k).
Proof.
  intros Hm Hk st. unfold bind. specialize (Hm st).
  destruct (m st) as [[a | e] st']; cbn in *; [| assumption].
  eapply steady_trans; [exact Hm | apply Hk].
Qed.

Lemma steadily_call (e : event) : steadily (call e).
Proof. intros st. split; cbn; auto. now apply prefix_app_r. Qed.

Lemma steadily_await (run : Run) (name : string) (e : event) : steadily (await run name e).
Proof.
  unfold await. destruct (rejects run name); [apply steadily_throw | apply steadily_call].
Qed.

Lemma steadily_modify (f : Eleventy -> Eleventy) :
  (forall st, steady st (f st)) -> steadily (modify f).
Proof. intros Hf st. apply Hf. Qed.

Lemma steadily_the_writer : steadily the_writer.
Proof. intros st. unfold the_writer. destruct (writer st); apply steady_refl. Qed.

Lemma steadily_the_watchManager : steadily the_watchManager.
Proof.
  intros st. unfold the_watchManager. destruct (watchManager st); apply steady_refl.
Qed.

Lemma steadily_try_catch {A} (body : M A) (handler : jserror -> M A) :
  steadily body -> (forall e, steadily (handler e)) -> steadily (try_catch body handler).
Proof.
  intros Hb Hh st. unfold try_catch. specialize (Hb st).
  destruct (body st) as [[a | e] st']; cbn in *; [assumption |].
  specialize (Hh e st'). destruct (handler e st') as [r st'']. cbn in *.
  eapply steady_trans; eassumption.
Qed.

Lemma steadily_finally {A} (pending : outcome A) (fin : M unit) :
  steadily fin -> steadily (finally pending fin).
Proof.
  intros Hf st. unfold finally. specialize (Hf st).
  now destruct (fin st) as [[[] | e] st'].
Qed.

Lemma steadily_array_map {A B} (f : A -> M B) (xs : list A) :
  (forall x, steadily (f x)) -> steadily (array_map f xs).
Proof.
  intros Hf. induction xs as [| x xs IH]; cbn [array_map].
  - apply steadily_ret.
  - apply steadily_bind; [apply Hf | intros y].
    apply steadily_bind; [apply IH | intros ys]. apply steadily_ret.
Qed.

Lemma steady_set_writer (w : option TemplateWriter) (st : Eleventy) :
  steady st (set_writer w st).
Proof. split; cbn; auto. Qed.

Lemma steady_set_watchManager (w : option EleventyWatch) (st : Eleventy) :
  steady st (set_watchManager w st).
Proof. split; cbn; auto. Qed.

Lemma steady_set_heap (h : gmap nat string) (st : Eleventy) : steady st (set_heap h st).
Proof. split; cbn; auto. Qed.

Lemma steady_set_needsInit (st : Eleventy) : steady st (set_needsInit false st).
Proof. split; cbn; auto. Qed.

Lemma steady_set__hasConfigInitialized (st : Eleventy) :
  steady st (set__hasConfigInitialized true st).
Proof. split; cbn; auto. Qed.

Lemma steady_set_suspended (l : list Cycle) (st : Eleventy) :
  steady st (set_suspended l st).
Proof. split; cbn; auto. Qed.

Lemma steady_set_watchDelay (d : option bool) (st : Eleventy) :
  steady st (set_watchDelay d st).
Proof. split; cbn; auto. Qed.

Lemma steady_set_exited (b : bool) (st : Eleventy) : steady st (set_exited b st).
Proof. split; cbn; auto. Qed.

End Steady.

Ltac steady_step :=
  lazymatch goal with
  | |- steadily (bind _ _) => apply steadily_bind; [| intros ?]
  | |- steadily (ret _) => apply steadily_ret
  | |- steadily (throw _) => apply steadily_throw
  | |- steadily (get _) => apply steadily_get
  | |- steadily (call _) => apply steadily_call
  | |- steadily (await _ _ _) => apply steadily_await
  | |- steadily the_writer => apply steadily_the_writer
  | |- steadily the_watchManager => apply steadily_the_watchManager
  | |- steadily (writer_assign _ _) => unfold writer_assign
  | |- steadily (writer_call _ _) => unfold writer_call
  | |- steadily (array_map _ _) => apply steadily_array_map; intros ?
  | |- steadily (try_catch _ _) => apply steadily_try_catch; [| intros ?]
  | |- steadily (finally _ _) => apply steadily_finally
  | |- steadily (modify _) =>
      apply steadily_modify; intros ?;
      first [ apply steady_set_writer | apply steady_set_watchManager
            | apply steady_set_heap | apply steady_set_needsInit
            | apply steady_set__hasConfigInitialized | apply steady_set_suspended
            | apply steady_set_watchDelay | apply steady_set_exited ]
  | |- steadily (if ?b then _ else _) => destruct b
  | |- steadily (let '(_, _) := ?a in _) => destruct a
  | |- steadily (match ?x with _ => _ end) => destruct x
  end.

Section Steady_methods.
Context `{E : Collaborators}.

Lemma steadily_logFinished : steadily logFinished.
Proof. intros st. unfold logFinished. destruct (writer st); apply steady_refl. Qed.

Lemma steadily__cache (key : string) (inst : TemplateWriter) : steadily (_cache key inst).
Proof.
  intros st. unfold _cache, bind, call, modify, get, ret, throw. cbn.
  assert (Hcalls : calls st `prefix_of` calls st ++ [Call_cache key])
    by now apply prefix_app_r.
  destruct (_privateCaches st) as [pc |] eqn:Hpc; cbn;
    destruct (caches inst); cbn; rewrite ?Hpc; cbn;
    try (split; cbn; rewrite ?Hpc; cbn; now auto).
  all: try (destruct (pc !! key) as [c |] eqn:Hkey; cbn; split; cbn; rewrite ?Hpc; cbn; auto;
            intros key' c' Hsnap; destruct (decide (key' = key)) as [-> | Hne];
            [congruence | now rewrite lookup_insert_ne by congruence]).
  all: rewrite lookup_empty; cbn; split; cbn; rewrite ?Hpc; cbn; auto;
       intros key' c' Hsnap; now rewrite lookup_empty in Hsnap.
Qed.

Lemma steadily_pipeline {A} (method : string) (arg : jsval) (result : outcome A)
    (run : Run) :
  steadily (pipeline method arg result run).
Proof. unfold pipeline. repeat steady_step. Qed.

Lemma steadily_init (viaConfigReset : bool) (run : Run) : steadily (init viaConfigReset run).
Proof.
  unfold init, init_objects, init_writer, initializeConfig.
  repeat first [ apply steadily__cache | steady_step ].
Qed.

Lemma steadily_executeBuild_ready (run : Run) : steadily (executeBuild_ready run).
Proof.
  unfold executeBuild_ready.
  apply steadily_bind; [| intros _; repeat steady_step].
  intros st. unfold bind at 1, get at 1. cbn [fst snd].
  destruct (needsInit st) eqn:Hneeds; [| apply steady_refl].
  unfold bind at 1. unfold bind at 1, get at 1.
  destruct (_initing st) as [settled |] eqn:Hp.
  - unfold bind, ret. destruct settled; cbn; [| apply steady_refl].
    unfold modify. cbn. apply steady_set_needsInit.
  - pose proof (steadily_init false run st) as Hinit.
    unfold bind at 1.
    destruct (init false run st) as [settled st'] eqn:Hrun. cbn [snd] in Hinit.
    assert (Hset : steady st (set__initing (Some settled) st')).
    { destruct Hinit. split; cbn; auto. intros p. congruence. }
    destruct settled; cbn; [| exact Hset].
    unfold modify. cbn.
    eapply steady_trans; [exact Hset | apply steady_set_needsInit].
Qed.

Lemma steadily_executeBuild (to : string) (run : Run) : steadily (executeBuild to run).
Proof.
  unfold executeBuild.
  apply steadily_bind; [apply steadily_executeBuild_ready | intros _].
  unfold executeBuild_try, executeBuild_catch, executeBuild_finally.
  repeat first [ apply steadily_pipeline | apply steadily_logFinished | steady_step ].
Qed.

Lemma steadily__watch_enter (isResetConfig : bool) : steadily (_watch_enter isResetConfig).
Proof. unfold _watch_enter. repeat steady_step. Qed.

Lemma steadily__watch_resume (c : Cycle) (run : Run) : steadily (_watch_resume c run).
Proof.
  unfold _watch_resume, _watch_build, _watch_finish, resetConfig, restart,
    _initWatchDependencies, write, prefix_url.
  repeat first
    [ apply steadily_init | apply steadily_executeBuild | apply steadily__watch_enter
    | steady_step ].
Qed.

Lemma steadily__watch_build (c : Cycle) (run : Run) : steadily (_watch_build c run).
Proof.
  unfold _watch_build, resetConfig, restart, _initWatchDependencies, write, prefix_url.
  repeat first [ apply steadily_init | apply steadily_executeBuild | steady_step ].
Qed.

Lemma steadily_watchRun_catch (e : jserror) : steadily (watchRun_catch e).
Proof. unfold watchRun_catch, stopWatch. repeat steady_step. Qed.

Lemma steadily__addFileToWatchQueue (p : path) (isResetConfig : bool) :
  steadily (_addFileToWatchQueue p isResetConfig).
Proof. unfold _addFileToWatchQueue. repeat steady_step. Qed.

Lemma steady_step_label (l : label) (st : Eleventy) : steady st (step l st).
Proof.
  unfold step. destruct (exited st); [apply steady_refl |].
  destruct l as [p | | i run].
  - unfold watchRun.
    eapply steady_trans; [| apply steady_set_watchDelay].
    apply steadily__addFileToWatchQueue.
  - destruct (watchDelay st) as [r |]; [| apply steady_refl].
    eapply steady_trans; [apply (steady_set_watchDelay None) |].
    unfold watchRun_timer.
    pose proof (steadily__watch_enter r (set_watchDelay None st)) as Hen.
    destruct (_watch_enter r (set_watchDelay None st)) as [[[] | e] st']; cbn in Hen;
      [exact Hen |].
    eapply steady_trans; [exact Hen | apply steadily_watchRun_catch].
  - unfold watchRun_settle. destruct (suspended st !! i) as [c |]; [| apply steady_refl].
    eapply steady_trans; [apply (steady_set_suspended (delete i (suspended st))) |].
    pose proof (steadily__watch_resume c run (set_suspended (delete i (suspended st)) st))
      as Hres.
    destruct (_watch_resume c run _) as [[[] | e] st']; cbn in Hres; [exact Hres |].
    eapply steady_trans; [exact Hres | apply steadily_watchRun_catch].
Qed.

Lemma steady_steps (ls : list label) (st : Eleventy) : steady st (steps ls st).
Proof.
  revert st. induction ls as [| l ls IH]; intros st; [apply steady_refl |].
  cbn. eapply steady_trans; [apply steady_step_label | apply IH].
Qed.

End Steady_methods.

(** ** The gate and the cache, further *)

Section Gate_and_cache_further.
Context `{E : Collaborators}.

Lemma _shouldResetConfig_true (activeQueue : list path) :
  _shouldResetConfig activeQueue = true <->
  exists p, In p activeQueue /\
            config_related (normalizeSeperator (addLeadingDotSlash p)).
Proof.
  rewrite _shouldResetConfig_normalized, shouldTriggerConfigReset_true. split.
  - intros (n & Hn & Hrel). apply in_map_iff in Hn as (p & <- & Hp). eauto.
  - intros (p & Hp & Hrel). eexists. split; [| exact Hrel]. apply in_map_iff. eauto.
Qed.

(** X1: the reset decision for a queue is the disjunction of the
    decisions for its paths taken one at a time: an empty queue never
    resets, a queue resets exactly when one of its paths would on its
    own, and the decision for two queues put together is the
    disjunction of their decisions, whatever the order. *)
Theorem reset_gate_is_pathwise :
  _shouldResetConfig [] = false /\
  (forall activeQueue,
      _shouldResetConfig activeQueue =
      existsb (fun p => _shouldResetConfig [p]) activeQueue) /\
  (forall q1 q2,
      _shouldResetConfig (q1 ++ q2) = _shouldResetConfig q1 || _shouldResetConfig q2).
Proof.
  assert (Hpath : forall q,
             _shouldResetConfig q = existsb (fun p => _shouldResetConfig [p]) q).
  { intros q. apply eq_true_iff_eq.
    rewrite _shouldResetConfig_true, existsb_exists. split.
    - intros (p & Hp & Hrel). exists p. split; [assumption |].
      apply _shouldResetConfig_true. exists p. split; [now left | assumption].
    - intros (p & Hp & Hone). apply _shouldResetConfig_true in Hone as (p' & [<- | []] & Hrel).
      eauto. }
  split; [reflexivity |]. split; [exact Hpath |].
  intros q1 q2. rewrite (Hpath (q1 ++ q2)), existsb_app, <- !Hpath. reflexivity.
Qed.

Lemma restore_fields_empty (inst : TemplateWriter) : restore_fields ∅ inst = inst.
Proof. unfold restore_fields. rewrite map_fold_empty. now destruct inst. Qed.

(** X2: capture and restore through [_cache] are a round trip.  The
    first instance seen under a key is left as it is and the fields
    its [caches] names are captured; a later instance under the same
    key receives exactly those fields with the values the first one had
    (a field the first one lacked arrives as [undefined]) and keeps its
    other fields; the snapshot is not touched by the restore. *)
Theorem cache_round_trip (key : string) (inst1 inst2 : TemplateWriter) (st : Eleventy) :
  caches inst1 <> NoCaches ->
  caches inst2 <> NoCaches ->
  default ∅ (_privateCaches st) !! key = None ->
  exists st1 st2 inst2',
    _cache key inst1 st = (Resolved inst1, st1) /\
    _cache key inst2 st1 = (Resolved inst2', st2) /\
    _privateCaches st2 = _privateCaches st1 /\
    forall k,
      fields inst2' !! k =
      if decide (k ∈ declared_caches inst1)
      then Some (get_field inst1 k)
      else fields inst2 !! k.
Proof.
  intros H1 H2 Hnone.
  eexists _, _, _. split; [now apply _cache_capture |]. split.
  - eapply _cache_restore; [assumption | reflexivity | apply lookup_insert_eq].
  - split; [reflexivity |]. intros k.
    rewrite restore_fields_lookup, capture_fields_lookup. now destruct (decide _).
Qed.

(** X3: the edge cases of [_cache].  An instance without a [caches]
    property makes it throw; by then the map of snapshots exists, and
    it holds what it held.  An instance whose [caches] is falsy is
    accepted, and pins an empty snapshot under the key: every later
    instance under that key comes back unchanged. *)
Theorem cache_edge_cases (key : string) (inst : TemplateWriter) (st : Eleventy) :
  (caches inst = NoCaches ->
   exists st',
     _cache key inst st =
       (Rejected (Error "To use _cache you need a `caches` getter object"), st') /\
     is_Some (_privateCaches st') /\
     default ∅ (_privateCaches st') = default ∅ (_privateCaches st)) /\
  (caches inst = CachesFalsy ->
   default ∅ (_privateCaches st) !! key = None ->
   exists st',
     _cache key inst st = (Resolved inst, st') /\
     default ∅ (_privateCaches st') !! key = Some ∅ /\
     forall inst2 st2,
       caches inst2 <> NoCaches ->
       default ∅ (_privateCaches st2) !! key = Some ∅ ->
       exists st3, _cache key inst2 st2 = (Resolved inst2, st3) /\
                   _privateCaches st3 = _privateCaches st2).
Proof.
  split.
  - intros Hdecl. unfold _cache, bind, call, modify, get, ret. cbn.
    destruct (_privateCaches st) as [pc |] eqn:Hpc; cbn; rewrite Hdecl; cbn;
      eexists; (split; [reflexivity |]); cbn; rewrite ?Hpc; cbn; eauto.
  - intros Hdecl Hnone. eexists. split; [apply _cache_capture; [congruence | assumption] |].
    split.
    + cbn. rewrite lookup_insert_eq. unfold capture_fields, declared_caches.
      now rewrite Hdecl.
    + intros inst2 st2 H2 Hsnap.
      destruct (_privateCaches st2) as [pc |] eqn:Hpc;
        [| cbn in Hsnap; rewrite lookup_empty in Hsnap; discriminate].
      cbn in Hsnap. eexists. split.
      * rewrite (_cache_restore key inst2 st2 pc ∅ H2 Hpc Hsnap).
        now rewrite restore_fields_empty.
      * cbn. now rewrite Hpc.
Qed.

End Gate_and_cache_further.

(** ** Traces of [init] and of a file-system build *)

Section Traces.
Context `{E : Collaborators}.

(** The calls of an [init] in which nothing rejects. *)
Lemma init_trace (v : bool) (run : Run) (st : Eleventy) :
  (forall name, rejects run name = None) ->
  caches new_TemplateWriter <> NoCaches ->
  exists st',
    init v run st = (Resolved tt, st') /\
    calls st' =
      calls st ++
      init_calls (_hasConfigInitialized st) v (isRunInitialBuild st) (isIncremental st).
Proof.
  intros Hrej Hdecl. apply wp_resolved.
  unfold init, init_objects, init_writer, initializeConfig, init_calls.
  destruct st as [src ni ini hci inc rib paf wm wr pcs hp wd sus ex cs].
  wp_steps.
  destruct v; cbn [negb]; destruct hci, checkPassthroughCopyBehavior; wp_steps.
  1-4: split; [reflexivity |]; rewrite <- !app_assoc; reflexivity.
  all: destruct (default ∅ pcs !! "TemplateWriter") as [c |] eqn:Hsnap.
  all: try (destruct pcs as [pc |];
            [| cbn in Hsnap; rewrite lookup_empty in Hsnap; discriminate];
            cbn in Hsnap;
            eapply wp_eq;
            [apply (_cache_restore _ _ _ pc c); [assumption | reflexivity | assumption] |]).
  all: try (eapply wp_eq; [apply _cache_capture; [assumption | exact Hsnap] |]).
  all: simpl_state; wp_steps; (split; [reflexivity |]); rewrite <- !app_assoc; reflexivity.
Qed.

(** A file-system build on an initialised instance in which no listener
    rejects, in full: what it returns or throws, and the instance it
    leaves. *)
Lemma executeBuild_fs_trace (run : Run) (st : Eleventy) (wr : TemplateWriter) :
  (forall name, rejects run name = None) ->
  needsInit st = false ->
  writer st = Some wr ->
  exists text,
    (forall s, writer s = Some (set_counts (countsAfter run) wr) ->
               logFinished s = (Resolved text, s)) /\
    executeBuild "fs" run st =
      (fs_build_result (source st) run,
       set_calls
         (calls st ++ ready_calls (programmaticApiIncrementalFile st) ++
          fs_build_calls (source st) run (isIncremental st) text)
         (set_heap (objects run ∪ heap st)
            (set_writer (Some (set_counts (countsAfter run) wr)) st))).
Proof.
  intros Hrej Hni Hw.
  destruct (logFinished_writer
              (set_writer (Some (set_counts (countsAfter run) wr)) st)
              (set_counts (countsAfter run) wr) eq_refl) as (text & _ & Htext).
  exists text. split; [exact Htext |].
  assert (Hwp : wp (executeBuild "fs" run)
                  (fun r s =>
                     r = fs_build_result (source st) run /\
                     s = set_calls
                           (calls st ++ ready_calls (programmaticApiIncrementalFile st) ++
                            fs_build_calls (source st) run (isIncremental st) text)
                           (set_heap (objects run ∪ heap st)
                              (set_writer (Some (set_counts (countsAfter run) wr)) st))) st).
  2: { unfold wp in Hwp. destruct (executeBuild "fs" run st) as [r s].
       cbn in Hwp. destruct Hwp as [-> ->]. reflexivity. }
  destruct st as [src ni ini hci inc rib paf wm w0 pcs hp wd sus ex cs].
  cbn in Hni, Hw. subst ni w0.
  unfold executeBuild, executeBuild_ready, executeBuild_try, executeBuild_catch,
    executeBuild_finally, pipeline, fs_build_result, fs_build_calls, ready_calls.
  cbn [String.eqb Ascii.eqb Bool.eqb]. simpl_state. wp_steps.
  destruct (truthy paf); wp_steps;
    destruct (fsResult run) as [[copy templateResults] | e]; wp_steps;
    try (destruct (String.eqb src "script"); wp_steps);
    (eapply wp_eq; [apply Htext; reflexivity |]); simpl_state; wp_steps;
    (split; [reflexivity |]); simpl_state; rewrite <- ?app_assoc; reflexivity.
Qed.

End Traces.

(** ** Builds *)

Section Builds.
Context `{E : Collaborators}.

Lemma wp_await_any (run : Run) (name : string) (e : event)
    (Q : outcome unit -> Eleventy -> Prop) (st : Eleventy) :
  (forall err, rejects run name = Some err -> Q (Rejected err) st) ->
  (rejects run name = None -> Q (Resolved tt) (set_calls (calls st ++ [e]) st)) ->
  wp (await run name e) Q st.
Proof.
  intros Hrej Hres. unfold await. destruct (rejects run name) as [err |]; [apply Hrej | apply Hres];
    reflexivity.
Qed.

Lemma _cache_needsInit (key : string) (inst : TemplateWriter) (st : Eleventy) :
  needsInit (snd (_cache key inst st)) = needsInit st /\
  writer (snd (_cache key inst st)) = writer st.
Proof.
  destruct st as [src ni ini hci inc rib paf wm wr pcs hp wd sus ex cs].
  unfold _cache, bind, call, modify, get, ret, throw. cbn.
  destruct pcs as [pc |]; cbn; destruct (caches inst); cbn; auto;
    try (destruct (pc !! key); cbn; now auto);
    try (rewrite lookup_empty; cbn; now auto).
Qed.

(** While [init] has not reached its last statement the instance still
    needs it. *)
Lemma init_rejected_needsInit (v : bool) (run : Run) (st st1 : Eleventy) (e : jserror) :
  init v run st = (Rejected e, st1) -> needsInit st1 = needsInit st.
Proof.
  intros Hrun.
  cut (wp (init v run)
          (fun r s => match r with
                      | Rejected _ => needsInit s = needsInit st
                      | Resolved _ => True
                      end) st).
  { unfold wp. now rewrite Hrun. }
  clear Hrun.
  unfold init, init_objects, init_writer, initializeConfig.
  destruct st as [src ni ini hci inc rib paf wm wr pcs hp wd sus ex cs].
  simpl_state.
  repeat first
    [ lazymatch goal with
      | |- wp (await _ _ _) _ _ =>
          apply wp_await_any; [intros err _; reflexivity | intros _]; simpl_state
      | |- wp (if ?b then _ else _) _ _ => destruct b
      | |- wp (_cache ?k ?i) _ ?s =>
          let H1 := fresh "Hni" in
          let H2 := fresh "Hwr" in
          destruct (_cache_needsInit k i s) as [H1 H2];
          unfold wp at 1;
          destruct (_cache k i s) as [[inst | err] s'];
          cbn [fst snd] in *; simpl_state_in H1; simpl_state_in H2;
          [| exact H1]
      end
    | wp_step ].
  all: try exact I; try reflexivity.
Qed.

(** X8: a failed [init] stays failed.  When the [init] that
    [executeBuild] starts rejects, [executeBuild] rejects with the same
    error having done nothing but what [init] did: the code before the
    [try] makes no report and runs no finalization; the rejected
    promise is kept in [_initing] and [needsInit] stays set, so every
    later [executeBuild], whatever its target and whatever the
    collaborators would do then, rejects with that error again and
    changes nothing. *)
Theorem failed_init_is_sticky (run : Run) (st st1 : Eleventy) (e : jserror) :
  needsInit st = true ->
  _initing st = None ->
  init false run st = (Rejected e, st1) ->
  let st2 := set__initing (Some (Rejected e)) st1 in
  (forall to, executeBuild to run st = (Rejected e, st2)) /\
  (forall to run', executeBuild to run' st2 = (Rejected e, st2)).
Proof.
  intros Hni Hini Hinit st2.
  pose proof (init_rejected_needsInit false run st st1 e Hinit) as Hni1.
  rewrite Hni in Hni1.
  split.
  - intros to. unfold executeBuild, executeBuild_ready, bind, get. cbn.
    rewrite Hni, Hini, Hinit. reflexivity.
  - intros to run'. unfold executeBuild, executeBuild_ready, bind, get, ret, throw.
    subst st2. cbn. rewrite Hni1. reflexivity.
Qed.

(** X9: a build on an initialised instance in which nothing rejects,
    target by target.  The two before-build events come first, then
    the one call of the write pipeline, then the two after-build
    events, then the finalization.  For the target fs the after-build
    listeners get the flattened, non-empty results, the summary is
    printed in green, and the array returned has those results at
    index 1.  For json the array of [getJSON] is returned as it is,
    and the listeners get its non-empty entries from the second on:
    the first entry is skipped by the same destructuring that skips
    the copy results of the target fs.  For ndjson the listeners get
    the same, the stream is closed between the pipeline and the
    after-build events, and the stream is what is returned.  No
    summary is printed for json and ndjson. *)
Theorem successful_build_protocol (run : Run) (st : Eleventy) (wr : TemplateWriter) :
  (forall name, rejects run name = None) ->
  needsInit st = false ->
  writer st = Some wr ->
  let incr := isIncremental st in
  let ready := ready_calls (programmaticApiIncrementalFile st) in
  (forall copy templateResults,
      fsResult run = Resolved (copy, templateResults) ->
      let results := filter_truthy (flat templateResults) in
      exists st2 text,
        executeBuild "fs" run st =
          (Resolved (RetFs copy (map Some results :: tl templateResults)), st2) /\
        logFinished st2 = (Resolved text, st2) /\
        calls st2 =
          calls st ++ ready ++
          [EmitBuild "beforeBuild" "fs" incr None; EmitBuild "eleventy.before" "fs" incr None;
           WriterCall "write" JUndefined;
           EmitBuild "afterBuild" "fs" incr (Some results);
           EmitBuild "eleventy.after" "fs" incr (Some results);
           BenchFinish; LoggerMessage text "info" "green" true]) /\
  (forall entries,
      jsonResult run "json" = Resolved entries ->
      let results := filter_truthy (tl entries) in
      exists st2,
        executeBuild "json" run st = (Resolved (RetJson entries), st2) /\
        calls st2 =
          calls st ++ ready ++
          [EmitBuild "beforeBuild" "json" incr None;
           EmitBuild "eleventy.before" "json" incr None;
           WriterCall "getJSON" (JStr "json");
           EmitBuild "afterBuild" "json" incr (Some results);
           EmitBuild "eleventy.after" "json" incr (Some results);
           BenchFinish]) /\
  (forall entries,
      jsonResult run "ndjson" = Resolved entries ->
      let results := filter_truthy (tl entries) in
      exists st2,
        executeBuild "ndjson" run st = (Resolved RetStream, st2) /\
        calls st2 =
          calls st ++ ready ++
          [EmitBuild "beforeBuild" "ndjson" incr None;
           EmitBuild "eleventy.before" "ndjson" incr None;
           WriterCall "getJSON" (JStr "ndjson");
           LoggerCloseStream "ndjson";
           EmitBuild "afterBuild" "ndjson" incr (Some results);
           EmitBuild "eleventy.after" "ndjson" incr (Some results);
           BenchFinish]).
Proof.
  intros Hrej Hni Hw incr ready. split; [| split].
  - intros copy templateResults Hres results.
    destruct (executeBuild_fs_trace run st wr Hrej Hni Hw) as (text & Htext & Hrun).
    eexists _, text. split; [| split].
    + rewrite Hrun. unfold fs_build_result. rewrite Hres. reflexivity.
    + apply Htext. reflexivity.
    + simpl_state. unfold fs_build_calls. rewrite Hres. reflexivity.
  - intros entries Hres results. apply wp_resolved.
    destruct st as [src ni ini hci inc rib paf wm w0 pcs hp wd sus ex cs].
    cbn in Hni, Hw. subst ni w0. subst incr ready. simpl_state.
    unfold executeBuild, executeBuild_ready, executeBuild_try, executeBuild_finally,
      pipeline, ready_calls.
    cbn [String.eqb Ascii.eqb Bool.eqb]. simpl_state. wp_steps.
    destruct (truthy paf); wp_steps; rewrite Hres; wp_steps;
      (split; [reflexivity |]); rewrite <- ?app_assoc; reflexivity.
  - intros entries Hres results. apply wp_resolved.
    destruct st as [src ni ini hci inc rib paf wm w0 pcs hp wd sus ex cs].
    cbn in Hni, Hw. subst ni w0. subst incr ready. simpl_state.
    unfold executeBuild, executeBuild_ready, executeBuild_try, executeBuild_finally,
      pipeline, ready_calls.
    cbn [String.eqb Ascii.eqb Bool.eqb]. simpl_state. wp_steps.
    destruct (truthy paf); wp_steps; rewrite Hres; wp_steps;
      (split; [reflexivity |]); rewrite <- ?app_assoc; reflexivity.
Qed.

(** X10: a target other than fs, json and ndjson is refused inside the
    [try], after the two before-build events were emitted: the write
    pipeline is not called, no after-build event is emitted and no
    summary is printed; the error names the target and goes the way of
    every build error (thrown again for the source script, returned as
    [{error}] otherwise), and the telemetry is finalized. *)
Theorem invalid_target_build (to : string) (run : Run) (st : Eleventy)
    (wr : TemplateWriter) :
  to <> "fs" -> to <> "json" -> to <> "ndjson" ->
  rejects run "beforeBuild" = None ->
  rejects run "eleventy.before" = None ->
  needsInit st = false ->
  writer st = Some wr ->
  let e := Error ("Invalid argument for `Eleventy->executeBuild(" +:+ to +:+
                  ")`, expected " +:+ quoted "json" +:+ ", " +:+
                  quoted "ndjson" +:+ ", or " +:+ quoted "fs" +:+ ".") in
  let script := String.eqb (source st) "script" in
  exists st2,
    executeBuild to run st = (if script then Rejected e else Resolved (RetError e), st2) /\
    writer st2 = Some wr /\
    heap st2 = heap st /\
    calls st2 =
      calls st ++ ready_calls (programmaticApiIncrementalFile st) ++
      [EmitBuild "beforeBuild" to (isIncremental st) None;
       EmitBuild "eleventy.before" to (isIncremental st) None;
       if script
       then ErrorHandlerError e "Problem writing Eleventy templates"
       else ErrorHandlerFatal e "Problem writing Eleventy templates";
       BenchFinish].
Proof.
  intros Hfs Hjson Hnd Hb1 Hb2 Hni Hw e script.
  apply String.eqb_neq in Hfs, Hjson, Hnd.
  apply wp_result.
  destruct st as [src ni ini hci inc rib paf wm w0 pcs hp wd sus ex cs].
  cbn in Hni, Hw. subst ni w0. subst script. simpl_state.
  unfold executeBuild, executeBuild_ready, executeBuild_try, executeBuild_catch,
    executeBuild_finally, ready_calls.
  rewrite Hfs, Hjson, Hnd. simpl_state. wp_steps.
  destruct (truthy paf); wp_steps;
    destruct (String.eqb src "script"); wp_steps;
    repeat split; rewrite <- ?app_assoc; reflexivity.
Qed.

(** X11: a listener of [afterBuild] that rejects turns a written build
    into a failed one: the write pipeline has run and left its counters
    on the writer, [eleventy.after] is not emitted, the rejection is
    reported and thrown or returned like a build error, and the summary
    is printed in red. *)
Theorem rejecting_after_listener (run : Run) (st : Eleventy) (wr : TemplateWriter)
    (copy : jsval) (templateResults : list (list (option nat))) (e : jserror) :
  rejects run "beforeBuild" = None ->
  rejects run "eleventy.before" = None ->
  rejects run "afterBuild" = Some e ->
  fsResult run = Resolved (copy, templateResults) ->
  needsInit st = false ->
  writer st = Some wr ->
  let script := String.eqb (source st) "script" in
  exists st2 text,
    executeBuild "fs" run st = (if script then Rejected e else Resolved (RetError e), st2) /\
    writer st2 = Some (set_counts (countsAfter run) wr) /\
    logFinished st2 = (Resolved text, st2) /\
    calls st2 =
      calls st ++ ready_calls (programmaticApiIncrementalFile st) ++
      [EmitBuild "beforeBuild" "fs" (isIncremental st) None;
       EmitBuild "eleventy.before" "fs" (isIncremental st) None;
       WriterCall "write" JUndefined;
       if script
       then ErrorHandlerError e "Problem writing Eleventy templates"
       else ErrorHandlerFatal e "Problem writing Eleventy templates";
       BenchFinish; LoggerMessage text "info" "red" true].
Proof.
  intros Hb1 Hb2 Ha Hres Hni Hw script.
  destruct (logFinished_writer
              (set_writer (Some (set_counts (countsAfter run) wr)) st)
              (set_counts (countsAfter run) wr) eq_refl) as (text & _ & Htext).
  cut (wp (executeBuild "fs" run)
          (fun r s =>
             r = (if script then Rejected e else Resolved (RetError e)) /\
             writer s = Some (set_counts (countsAfter run) wr) /\
             logFinished s = (Resolved text, s) /\
             calls s =
               calls st ++ ready_calls (programmaticApiIncrementalFile st) ++
               [EmitBuild "beforeBuild" "fs" (isIncremental st) None;
                EmitBuild "eleventy.before" "fs" (isIncremental st) None;
                WriterCall "write" JUndefined;
                if script
                then ErrorHandlerError e "Problem writing Eleventy templates"
                else ErrorHandlerFatal e "Problem writing Eleventy templates";
                BenchFinish; LoggerMessage text "info" "red" true]) st).
  { intros Hwp. apply wp_result in Hwp as (st2 & Hrun & Hfacts). eauto. }
  destruct st as [src ni ini hci inc rib paf wm w0 pcs hp wd sus ex cs].
  cbn in Hni, Hw. subst ni w0. subst script. simpl_state.
  unfold executeBuild, executeBuild_ready, executeBuild_try, executeBuild_catch,
    executeBuild_finally, pipeline, ready_calls.
  cbn [String.eqb Ascii.eqb Bool.eqb]. simpl_state. wp_steps.
  destruct (truthy paf); wp_steps; rewrite Hres; wp_steps;
    unfold await at 1; rewrite Ha; wp_steps;
    destruct (String.eqb src "script"); wp_steps;
    (eapply wp_eq; [apply Htext; reflexivity |]); simpl_state; wp_steps;
    (split; [reflexivity |]); (split; [reflexivity |]);
    (split; [apply Htext; reflexivity |]); rewrite <- ?app_assoc; reflexivity.
Qed.

End Builds.

(** ** One watch cycle *)

Section Cycle.
Context `{E : Collaborators}.

(** [init] in a watch cycle, where the configuration is initialised. *)
Lemma init_run_initialised (v : bool) (run : Run) (w : EleventyWatch) (s : Eleventy) :
  (forall name, rejects run name = None) ->
  caches new_TemplateWriter <> NoCaches ->
  _hasConfigInitialized s = true ->
  watchManager s = Some w ->
  exists s' w',
    init v run s = (Resolved tt, s') /\
    initialised w (source s) s' /\
    heap s' = heap s /\
    steady s s' /\
    calls s' = calls s ++ init_calls true v (isRunInitialBuild s) (isIncremental s) /\
    writer s' = Some w'.
Proof.
  intros Hrej Hdecl Hc Hw.
  destruct (init_trace v run s Hrej Hdecl) as (s' & Hrun & Hcalls).
  rewrite Hc in Hcalls.
  destruct (init_resolves v run s Hrej Hdecl) as (s2 & Hrun2 & [w' Hwr] & Hni & Hheap).
  rewrite Hrun in Hrun2. injection Hrun2 as <-.
  exists s', w'. split; [exact Hrun |].
  pose proof (quietly_init is_build_mark v run only_marks_is_build_mark s) as Hq.
  pose proof (steadily_init v run s) as Hst.
  rewrite Hrun in Hq, Hst. cbn [snd] in Hq, Hst.
  destruct (quiet_config _ _ _ Hq Hc) as [Hc' Hw'].
  repeat split; try assumption; try congruence; try apply Hst;
    try apply (quiet_source _ _ _ Hq); rewrite ?Hwr; eauto.
Qed.

(** The calls of one watch cycle in which nothing rejects. *)
Lemma _watch_build_cycle (c : Cycle) (run : Run) (st : Eleventy) (w : EleventyWatch) :
  (forall name, rejects run name = None) ->
  caches new_TemplateWriter <> NoCaches ->
  _hasConfigInitialized st = true ->
  watchManager st = Some w ->
  (source st <> "script" \/ exists res, fsResult run = Resolved res) ->
  exists st1 text,
    _watch_build c run st = (Resolved tt, st1) /\
    calls st1 =
      calls st ++
      [Emit "beforeWatch" (cycleQueue c); Emit "eleventy.beforeWatch" (cycleQueue c);
       Collaborator "watchTargets.clearImportCacheFor" (cycleQueue c)] ++
      (if cycleIsResetConfig c then [Collaborator "eleventyConfig.reset" []] else []) ++
      [BenchReset; Collaborator "eleventyFiles.restart" [];
       Collaborator "extensionMap.reset" []] ++
      init_calls true (cycleIsResetConfig c) (isRunInitialBuild st) (isIncremental st) ++
      ready_calls (getIncrementalFile w) ++
      ready_calls (programmaticApiIncrementalFile st) ++
      fs_build_calls (source st) run (isIncremental st) text ++
      [WriterCall "resetIncrementalFile" JUndefined;
       Collaborator "watchTargets.reset" []] ++
      watch_dependency_calls ++
      [Collaborator "watcher.add" getNewTargetsSinceLastReset;
       handed_over run w (heap st)].
Proof.
  intros Hrej Hdecl Hcfg Hwm Hsrc.
  cut (wp (_watch_build c run)
          (fun r s =>
             r = Resolved tt /\
             exists text,
               calls s =
                 calls st ++
                 [Emit "beforeWatch" (cycleQueue c); Emit "eleventy.beforeWatch" (cycleQueue c);
                  Collaborator "watchTargets.clearImportCacheFor" (cycleQueue c)] ++
                 (if cycleIsResetConfig c then [Collaborator "eleventyConfig.reset" []]
                  else []) ++
                 [BenchReset; Collaborator "eleventyFiles.restart" [];
                  Collaborator "extensionMap.reset" []] ++
                 init_calls true (cycleIsResetConfig c) (isRunInitialBuild st)
                   (isIncremental st) ++
                 ready_calls (getIncrementalFile w) ++
                 ready_calls (programmaticApiIncrementalFile st) ++
                 fs_build_calls (source st) run (isIncremental st) text ++
                 [WriterCall "resetIncrementalFile" JUndefined;
                  Collaborator "watchTargets.reset" []] ++
                 watch_dependency_calls ++
                 [Collaborator "watcher.add" getNewTargetsSinceLastReset;
                  handed_over run w (heap st)]) st).
  { intros Hwp. apply wp_resolved in Hwp as (st1 & Hrun & text & Hcalls). eauto. }
  unfold _watch_build, resetConfig, restart, write.
  wp_steps.
  destruct (cycleIsResetConfig c) eqn:Hreset; wp_steps.
  all: match goal with
       | |- wp (init ?v _) _ ?s =>
           destruct (init_run_initialised v run w s Hrej Hdecl)
             as (s1 & wr1 & Hrun1 & (Hni1 & _ & Hwm1 & Hc1 & Hs1) & Hh1 & Hst1 & Hl1 & Hwr1);
           [simpl_state; assumption | simpl_state; assumption |];
           eapply wp_eq; [exact Hrun1 |]
       end.
  all: pose proof (steady_isIncremental _ _ Hst1) as Hinc1.
  all: pose proof (steady_incrementalFile _ _ Hst1) as Hpaf1.
  all: simpl_state_in Hh1; simpl_state_in Hs1; simpl_state_in Hl1;
       simpl_state_in Hinc1; simpl_state_in Hpaf1.
  all: cbn beta iota; wp_steps; rewrite Hwm1.
  all: unfold ready_calls at 1.
  all: destruct (truthy (getIncrementalFile w)); wp_steps; rewrite ?Hwr1; wp_steps.
  all: match goal with
       | |- wp (executeBuild "fs" _) _ ?s =>
           destruct (executeBuild_fs_trace run s wr1 Hrej) as (text & Htext & Hrun2);
           [simpl_state; assumption | simpl_state; assumption |];
           eapply wp_eq; [exact Hrun2 |]
       end.
  all: simpl_state; rewrite Hs1, Hinc1, Hpaf1, Hh1, Hl1.
  all: unfold fs_build_result, handed_over.
  all: destruct (fsResult run) as [[copy templateResults] | e] eqn:Hres.
  all: try (destruct Hsrc as [Hsrc | [res Hres']]; [| discriminate];
            apply String.eqb_neq in Hsrc; rewrite Hsrc).
  all: repeat (progress (wp_steps; rewrite ?Hwm1;
                         try (apply wp__initWatchDependencies; [assumption |]; simpl_state))).
  all: try (eapply wp_eq; [apply array_map_prefix_url_run |]; simpl_state; wp_steps).
  all: (split; [reflexivity |]); exists text.
  all: unfold fs_build_calls; rewrite ?Hres, ?Hsrc; rewrite <- ?app_assoc; cbn [app];
       reflexivity.
Qed.

(** X5: a snapshot stored under the key of the writer is what every
    later [init] without [viaConfigReset] restores.  Whatever
    notifications, timers and cycles came in between, with or without
    configuration reset and whatever their outcome, the writer comes
    out of the cache step of such an [init] with the value of that
    snapshot for every field the snapshot has and the value of the
    newly constructed writer for every other field, and the snapshot
    is still the same. *)
Theorem first_snapshot_is_restored_later (ls : list label) (run : Run)
    (st0 : Eleventy) (snap : gmap string jsval) :
  default ∅ (_privateCaches st0) !! "TemplateWriter" = Some snap ->
  (forall name, rejects run name = None) ->
  caches new_TemplateWriter <> NoCaches ->
  exists st1 w0,
    init_objects false run (steps ls st0) = (Resolved tt, st1) /\
    writer st1 = Some w0 /\
    (forall k, fields w0 !! k =
               match snap !! k with
               | Some v => Some v
               | None => fields new_TemplateWriter !! k
               end) /\
    default ∅ (_privateCaches st1) !! "TemplateWriter" = Some snap /\
    default ∅ (_privateCaches (snd (init false run (steps ls st0)))) !! "TemplateWriter" =
      Some snap.
Proof.
  intros Hsnap Hrej Hdecl.
  pose proof (steady_snapshot _ _ (steady_steps ls st0) _ _ Hsnap) as Hsnap1.
  destruct (init_objects_cache run (steps ls st0) Hrej Hdecl)
    as (st1 & w0 & Hrun & Hw & _ & _ & _ & Hcache).
  rewrite Hsnap1 in Hcache. destruct Hcache as [Hpc ->].
  exists st1, (restore_fields snap new_TemplateWriter).
  split; [exact Hrun |]. split; [exact Hw |].
  split; [intros k; apply restore_fields_lookup |].
  split; [now rewrite Hpc |].
  exact (steady_snapshot _ _ (steadily_init false run (steps ls st0)) _ _ Hsnap1).
Qed.

(** X4: a snapshot, once stored under a key, is never replaced:
    neither by [_cache] with any key and instance, nor by [init], by a
    build, or by any run of the watch loop, whatever their outcome. *)
Theorem snapshot_is_never_refreshed (key : string) (c : gmap string jsval)
    (st : Eleventy) :
  default ∅ (_privateCaches st) !! key = Some c ->
  (forall key' inst,
      default ∅ (_privateCaches (snd (_cache key' inst st))) !! key = Some c) /\
  (forall viaConfigReset run,
      default ∅ (_privateCaches (snd (init viaConfigReset run st))) !! key = Some c) /\
  (forall to run,
      default ∅ (_privateCaches (snd (executeBuild to run st))) !! key = Some c) /\
  (forall ls, default ∅ (_privateCaches (steps ls st)) !! key = Some c).
Proof.
  intros Hsnap. repeat split; intros.
  - exact (steady_snapshot _ _ (steadily__cache _ _ st) _ _ Hsnap).
  - exact (steady_snapshot _ _ (steadily_init _ _ st) _ _ Hsnap).
  - exact (steady_snapshot _ _ (steadily_executeBuild _ _ st) _ _ Hsnap).
  - exact (steady_snapshot _ _ (steady_steps _ st) _ _ Hsnap).
Qed.

(** X6: [init], a build and the steps of the watch loop leave the
    settings alone, whatever their outcome: the invocation source,
    [isIncremental], [isRunInitialBuild] and the programmatic
    incremental file keep their values, an initialised configuration
    stays initialised and a finished [init] stays finished. *)
Theorem builds_and_watch_keep_settings (st : Eleventy) :
  (forall viaConfigReset run, same_settings st (snd (init viaConfigReset run st))) /\
  (forall to run, same_settings st (snd (executeBuild to run st))) /\
  (forall ls, same_settings st (steps ls st)).
Proof.
  assert (H : forall st', steady st st' -> same_settings st st').
  { intros st' []. repeat split; assumption. }
  split; [| split]; intros; apply H;
    first [ apply steadily_init | apply steadily_executeBuild | apply steady_steps ].
Qed.

(** X7: [setIncrementalFile] with a truthy path before the
    configuration is initialised, when there is no watch manager yet:
    the call throws a [TypeError], and by then it has turned
    [isRunInitialBuild] off and [isIncremental] on; the path itself is
    not recorded. *)
Theorem setIncrementalFile_before_config (incrementalFile : jsval) (st : Eleventy) :
  truthy incrementalFile = true ->
  watchManager st = None ->
  let st' := set_isIncremental true (set_isRunInitialBuild false st) in
  setIncrementalFile incrementalFile st =
    (Rejected (TypeError "Cannot read properties of undefined (watchManager)"), st') /\
  isRunInitialBuild st' = false /\
  isIncremental st' = true /\
  programmaticApiIncrementalFile st' = programmaticApiIncrementalFile st.
Proof.
  intros Hf Hw st'. repeat split.
  unfold setIncrementalFile. rewrite Hf.
  unfold setIgnoreInitial, setIncrementalBuild, bind, modify, the_watchManager.
  cbn. rewrite Hw. reflexivity.
Qed.

End Cycle.

(** ** The reload payload when the results come in one array *)

Section Payload.
Context `{E : Collaborators}.

Lemma reloads_app (l l' : list event) : reloads (l ++ l') = reloads l ++ reloads l'.
Proof. unfold reloads. apply List.filter_app. Qed.

Lemma reloads_init_calls (ready v rib inc : bool) : reloads (init_calls ready v rib inc) = [].
Proof. unfold init_calls. now destruct ready, v, checkPassthroughCopyBehavior. Qed.

Lemma reloads_watch_dependency_calls : reloads watch_dependency_calls = [].
Proof. unfold watch_dependency_calls. now destruct watchJavaScriptDependencies. Qed.

Lemma reloads_ready_calls (f : jsval) : reloads (ready_calls f) = [].
Proof. unfold ready_calls. now destruct (truthy f). Qed.

Lemma reloads_fs_build_calls (src : string) (run : Run) (incr : bool) (text : string) :
  reloads (fs_build_calls src run incr text) = [].
Proof.
  unfold fs_build_calls. destruct (fsResult run) as [[copy ts] | e]; [reflexivity |].
  now destruct (String.eqb src "script").
Qed.

(** X13: when the write pipeline resolves with the copy results
    followed by one array of results whose objects are distinct, the
    cycle hands exactly one payload to the reload layer: the active
    queue as the files, the subtype by the stylesheet rule, and each
    non-empty result once, in order, with the path prefix joined once
    to the [url] the build gave it. *)
Theorem reload_payload_of_one_array (c : Cycle) (run : Run) (st : Eleventy)
    (w : EleventyWatch) (copy : jsval) (results : list (option nat)) :
  (forall name, rejects run name = None) ->
  caches new_TemplateWriter <> NoCaches ->
  _hasConfigInitialized st = true ->
  watchManager st = Some w ->
  fsResult run = Resolved (copy, [results]) ->
  NoDup (filter_truthy results) ->
  exists st1,
    _watch_build c run st = (Resolved tt, st1) /\
    reloads (calls st1) =
      reloads (calls st) ++
      [ServeReload
         {| files := getActiveQueue w;
            subtype :=
              if hasAllQueueFiles
                   (fun p => endsWith p ".css" && negb (startsWithSubPath p getIncludesDir))
                   w
              then Some "css" else None;
            templates :=
              map (fun entry =>
                     (entry,
                      joinUrlParts (normalizePathPrefix configPathPrefix)
                        (url_of (objects run ∪ heap st) entry)))
                (filter_truthy results) |}].
Proof.
  intros Hrej Hdecl Hcfg Hwm Hres Hnd.
  destruct (_watch_build_cycle c run st w Hrej Hdecl Hcfg Hwm)
    as (st1 & text & Hrun & Hcalls); [right; eauto |].
  exists st1. split; [exact Hrun |].
  rewrite Hcalls, (handed_over_one_array run w (heap st) copy results Hres Hnd).
  rewrite !reloads_app, reloads_init_calls, !reloads_ready_calls, reloads_fs_build_calls,
    reloads_watch_dependency_calls.
  destruct (cycleIsResetConfig c); reflexivity.
Qed.

End Payload.

(** ** Bursts of notifications *)

Section Bursts.
Context `{E : Collaborators}.

Lemma steps_app (ls ls' : list label) (st : Eleventy) :
  steps (ls ++ ls') st = steps ls' (steps ls st).
Proof. unfold steps. apply fold_left_app. Qed.

(** Notifications only queue paths and move the timer. *)
Lemma notifications_run (ps : list path) (st : Eleventy) (w : EleventyWatch) :
  exited st = false ->
  watchManager st = Some w ->
  let st' := steps (map Notify ps) st in
  exited st' = false /\
  suspended st' = suspended st /\
  watchManager st' =
    Some {| incremental := incremental w; buildRunning := buildRunning w;
            active := active w;
            queue := fold_left Set_add (map normalizePath ps) (queue w) |} /\
  watchDelay st' =
    match ps with
    | [] => watchDelay st
    | _ => Some (_shouldResetConfig [normalizePath (List.last ps "")])
    end.
Proof.
  revert st w. induction ps as [| p ps IH]; intros st w Hex Hw.
  - cbn. repeat split; try assumption. rewrite Hw. now destruct w.
  - cbn [map steps fold_left].
    change (fold_left (fun st l => step l st) (map Notify ps) (step (Notify p) st))
      with (steps (map Notify ps) (step (Notify p) st)).
    assert (Hstep : step (Notify p) st =
                    set_watchDelay (Some (_shouldResetConfig [normalizePath p]))
                      (set_watchManager (Some (addToPendingQueue (normalizePath p) w))
                         (set_calls
                            (calls st ++
                             [ResourceModified (normalizePath p)
                                (getDependantsOf (addLeadingDotSlash (normalizePath p)))
                                (_shouldResetConfig [normalizePath p])
                                (getLayoutsUsedBy (normalizePath p))]) st))).
    { unfold step. rewrite Hex, watchRun_run, Hw. reflexivity. }
    rewrite Hstep.
    match goal with
    | |- context [steps (map Notify ps) ?s] =>
        destruct (IH s (addToPendingQueue (normalizePath p) w)) as (H1 & H2 & H3 & H4);
        [simpl_state; assumption | reflexivity |]
    end.
    cbn zeta in *. simpl_state_in H2. simpl_state_in H4.
    repeat split; try assumption.
    rewrite H4. destruct ps as [| p' ps']; reflexivity.
Qed.

(** X14: a burst of notifications followed by one firing of the timer,
    while no build is running, starts exactly one cycle.  Its queue is
    what was pending before followed by the normalized paths of the
    burst, first occurrences only; its reset flag is the gate's answer
    for the last path of the burst alone; the timer is consumed and the
    pending queue is empty afterwards. *)
Theorem burst_starts_one_cycle (ps : list path) (p : path) (st : Eleventy)
    (w : EleventyWatch) :
  exited st = false ->
  watchManager st = Some w ->
  buildRunning w = false ->
  let st' := steps (map Notify ps ++ [Notify p; TimerFires]) st in
  let q := fold_left Set_add (map normalizePath (ps ++ [p])) (queue w) in
  suspended st' =
    suspended st ++
    [{| cycleQueue := q; cycleIsResetConfig := _shouldResetConfig [normalizePath p] |}] /\
  watchDelay st' = None /\
  watchManager st' =
    Some {| incremental := incremental w; buildRunning := true; active := q; queue := [] |} /\
  (forall x, In x q <-> In x (queue w) \/ In x (map normalizePath (ps ++ [p]))).
Proof.
  intros Hex Hw Hb st' q.
  assert (Hsplit : map Notify ps ++ [Notify p; TimerFires] =
                   map Notify (ps ++ [p]) ++ [TimerFires]).
  { rewrite map_app, <- app_assoc. reflexivity. }
  subst st'. rewrite Hsplit, steps_app.
  destruct (notifications_run (ps ++ [p]) st w Hex Hw) as (Hex' & Hs' & Hw' & Hd').
  cbn zeta in *.
  rewrite last_last in Hd'.
  assert (Hd : watchDelay (steps (map Notify (ps ++ [p])) st) =
               Some (_shouldResetConfig [normalizePath p])).
  { rewrite Hd'. destruct ps; reflexivity. }
  clear Hd'.
  set (s := steps (map Notify (ps ++ [p])) st) in *.
  cbn [steps fold_left]. unfold step. rewrite Hex', Hd.
  unfold watchRun_timer. rewrite _watch_enter_run. simpl_state. rewrite Hw'.
  cbn [buildRunning]. rewrite Hb. simpl_state. rewrite Hs'.
  repeat split; try reflexivity.
  - subst q. rewrite fold_Set_add_In. tauto.
  - subst q. rewrite fold_Set_add_In. tauto.
Qed.

(** X15: the paths a failed cycle left pending are not lost.  After a
    cycle that threw an [EleventyBaseError] the watch loop goes on, and
    the next notification, once its timer fires, starts a cycle whose
    queue is the queue left pending followed by the new path. *)
Theorem failed_cycle_recovery (i : nat) (c : Cycle) (run : Run) (st st1 : Eleventy)
    (w : EleventyWatch) (e : jserror) (p : path) :
  exited st = false ->
  suspended st !! i = Some c ->
  _hasConfigInitialized st = true ->
  watchManager st = Some w ->
  _watch_build c run (set_suspended (delete i (suspended st)) st) = (Rejected e, st1) ->
  isEleventyBaseError e = true ->
  let st' := steps [Settles i run; Notify p; TimerFires] st in
  suspended st' =
    delete i (suspended st) ++
    [{| cycleQueue := Set_add (queue w) (normalizePath p);
        cycleIsResetConfig := _shouldResetConfig [normalizePath p] |}] /\
  exited st' = false.
Proof.
  intros Hex Hi Hcfg Hw Hbuild Hbase st'.
  pose proof (quietly__watch_build c run (set_suspended (delete i (suspended st)) st))
    as Hq.
  rewrite Hbuild in Hq. cbn [snd] in Hq.
  pose proof (quiet_suspended _ _ _ Hq) as Hs1. simpl_state_in Hs1.
  pose proof (quiet_exited _ _ _ Hq) as Hex1. simpl_state_in Hex1.
  subst st'. cbn [steps fold_left].
  rewrite (settle_rejected i c run st st1 w e Hex Hi Hcfg Hw Hbuild), Hbase.
  match goal with
  | |- context [step (Notify p) ?s] =>
      assert (Hnotify : step (Notify p) s =
                        watchRun p s) by (unfold step; simpl_state; now rewrite Hex1, Hex);
      rewrite Hnotify, watchRun_run; simpl_state
  end.
  match goal with
  | |- context [step TimerFires ?s] =>
      assert (Htimer : step TimerFires s =
                       watchRun_timer (_shouldResetConfig [normalizePath p])
                         (set_watchDelay None s))
        by (unfold step; simpl_state; now rewrite Hex1, Hex);
      rewrite Htimer
  end.
  unfold watchRun_timer. rewrite _watch_enter_run. simpl_state.
  cbn [buildRunning addToPendingQueue setBuildFinished queue]. simpl_state.
  rewrite Hs1, Hex1, Hex. split; reflexivity.
Qed.

End Bursts.

(** ** Starting watch mode *)

Section Watch_props.
Context `{E : Collaborators} `{W : WatchSetup}.

Lemma wp_the_bench (Q : outcome unit -> Eleventy -> Prop) (st : Eleventy) :
  _hasConfigInitialized st = true -> Q (Resolved tt) st -> wp the_bench Q st.
Proof. intros Hc HQ. unfold wp, the_bench. now rewrite Hc. Qed.

(** X16: when [watch()] does not start.  Before the configuration is
    initialised it throws at its first statement and does nothing.  On
    an initialised instance whose initial build fails it rejects with
    the build error, for every invocation source (the error is thrown
    by [write()] for the source script and taken from the returned
    [{error}] otherwise); the build was reported and finalized, and
    that is all: the watch manager is untouched and no watcher is
    created. *)
Theorem watch_refuses_to_start (run : Run) (st : Eleventy) :
  (_hasConfigInitialized st = false ->
   exists e, watch run st = (Rejected e, st)) /\
  (forall wr e,
      _hasConfigInitialized st = true ->
      needsInit st = false ->
      writer st = Some wr ->
      (forall name, rejects run name = None) ->
      fsResult run = Rejected e ->
      exists st' text,
        watch run st = (Rejected e, st') /\
        watchManager st' = watchManager st /\
        calls st' =
          calls st ++
          [Collaborator "watcherBench.setMinimumThresholdMs" ["500"];
           Collaborator "watcherBench.reset" [];
           Collaborator "import" ["chokidar"]] ++
          ready_calls (programmaticApiIncrementalFile st) ++
          [EmitBuild "beforeBuild" "fs" (isIncremental st) None;
           EmitBuild "eleventy.before" "fs" (isIncremental st) None;
           WriterCall "write" JUndefined;
           if String.eqb (source st) "script"
           then ErrorHandlerError e "Problem writing Eleventy templates"
           else ErrorHandlerFatal e "Problem writing Eleventy templates";
           BenchFinish; LoggerMessage text "info" "red" true]).
Proof.
  split.
  - intros Hc. eexists. unfold watch, watcherBench_call, the_bench, bind.
    rewrite Hc. reflexivity.
  - intros wr e Hc Hni Hw Hrej Hres.
    cut (wp (watch run)
            (fun r s =>
               r = Rejected e /\
               exists text,
                 watchManager s = watchManager st /\
                 calls s =
                   calls st ++
                   [Collaborator "watcherBench.setMinimumThresholdMs" ["500"];
                    Collaborator "watcherBench.reset" [];
                    Collaborator "import" ["chokidar"]] ++
                   ready_calls (programmaticApiIncrementalFile st) ++
                   [EmitBuild "beforeBuild" "fs" (isIncremental st) None;
                    EmitBuild "eleventy.before" "fs" (isIncremental st) None;
                    WriterCall "write" JUndefined;
                    if String.eqb (source st) "script"
                    then ErrorHandlerError e "Problem writing Eleventy templates"
                    else ErrorHandlerFatal e "Problem writing Eleventy templates";
                    BenchFinish; LoggerMessage text "info" "red" true]) st).
    { intros Hwp. apply wp_result in Hwp as (st' & Hrun & text & Hwm & Hcalls). eauto. }
    unfold watch, watcherBench_call, write.
    wp_steps. apply wp_the_bench; [assumption |]. wp_steps.
    apply wp_the_bench; [assumption |]. wp_steps.
    match goal with
    | |- wp (executeBuild "fs" _) _ ?s =>
        destruct (executeBuild_fs_trace run s wr Hrej) as (text & Htext & Hrun);
        [simpl_state; assumption | simpl_state; assumption |];
        eapply wp_eq; [exact Hrun |]
    end.
    simpl_state. unfold fs_build_result, fs_build_calls. rewrite Hres.
    destruct (String.eqb (source st) "script"); wp_steps;
      (split; [reflexivity |]); exists text; (split; [reflexivity |]);
      rewrite <- ?app_assoc; reflexivity.
Qed.

(** X17: when [watch()] starts.  After a successful initial build the
    watch manager is a new one, with nothing queued and no build
    running, that carries the [isIncremental] of the instance; the
    watcher is created once, on the watched files; no timer is pending;
    and the instance is at rest, which is where the single-flight
    invariant of the watch loop starts from. *)
Theorem watch_starts_idle (run : Run) (st : Eleventy) (wr : TemplateWriter)
    (options : gmap string Chokidar.value) :
  _hasConfigInitialized st = true ->
  needsInit st = false ->
  writer st = Some wr ->
  (forall name, rejects run name = None) ->
  (exists res, fsResult run = Resolved res) ->
  chokidarConfig = Some options ->
  suspended st = [] ->
  in_flight (calls st) = Some 0 ->
  exists st',
    watch run st = (Resolved tt, st') /\
    watchManager st' = Some (set_incremental (isIncremental st) new_EleventyWatch) /\
    watchDelay st' = None /\
    exited st' = exited st /\
    idle st' /\
    collaborator_calls "chokidar.watch" (calls st') =
      collaborator_calls "chokidar.watch" (calls st) ++
      [Collaborator "chokidar.watch" getTargets].
Proof.
  intros Hc Hni Hw Hrej [[copy templateResults] Hres] Hcfg Hsus Hfl.
  cut (wp (watch run)
          (fun r s =>
             r = Resolved tt /\
             watchManager s = Some (set_incremental (isIncremental st) new_EleventyWatch) /\
             watchDelay s = None /\
             exited s = exited st /\
             idle s /\
             collaborator_calls "chokidar.watch" (calls s) =
               collaborator_calls "chokidar.watch" (calls st) ++
               [Collaborator "chokidar.watch" getTargets]) st).
  { intros Hwp. apply wp_resolved in Hwp as (st' & Hrun & Hfacts). eauto. }
  unfold watch, write, initWatch, _initWatchDependencies,
    getWatchedFiles, the_chokidarConfig, watcherBench_call.
  rewrite Hcfg. cbn [Chokidar.getChokidarConfig fst].
  wp_steps. apply wp_the_bench; [assumption |]. wp_steps.
  apply wp_the_bench; [assumption |]. wp_steps.
  match goal with
  | |- wp (executeBuild "fs" _) _ ?s =>
      destruct (executeBuild_fs_trace run s wr Hrej) as (text & Htext & Hrun);
      [simpl_state; assumption | simpl_state; assumption |];
      eapply wp_eq; [exact Hrun |]
  end.
  simpl_state. unfold fs_build_result, fs_build_calls. rewrite Hres.
  wp_steps.
  destruct watchJavaScriptDependencies; cbn [negb].
  all: repeat first [ apply wp_the_bench; [simpl_state; assumption |] | wp_step ].
  all: split; [reflexivity |]; split; [reflexivity |]; split; [reflexivity |];
    split; [reflexivity |].
  all: unfold ready_calls.
  all: split;
    [ split; [exact Hsus |]; split; [| intros w [= <-]; reflexivity];
      unfold in_flight in *; simpl_state; rewrite !List.filter_app;
      cbn [List.filter is_build_mark app];
      destruct (truthy (programmaticApiIncrementalFile st));
      cbn [List.filter is_build_mark app]; rewrite ?app_nil_r; exact Hfl
    | unfold collaborator_calls; simpl_state; rewrite !List.filter_app;
      destruct (truthy (programmaticApiIncrementalFile st)); cbn; rewrite ?app_nil_r;
      reflexivity ].
Qed.

End Watch_props.

(** ** Verbose mode *)

Section Verbose_props.

(** [setIsVerbose] once the configuration is initialised. *)
Lemma setIsVerbose_initialised (v : jsval) (s : Verbose.t) :
  Verbose._hasConfigInitialized s = true ->
  let b := truthy v && negb (Verbose.debugging s) in
  let s' := Verbose.setIsVerbose v s in
  Verbose.all_set_to b s' /\
  Verbose._hasConfigInitialized s' = true /\
  Verbose.env_DEBUG s' = Verbose.env_DEBUG s /\
  Verbose.options_quietMode s' = Verbose.options_quietMode s /\
  Verbose.has_writer s' = Verbose.has_writer s /\
  Verbose._preInitVerbose s' = Verbose._preInitVerbose s /\
  Verbose.verboseModeSetViaCommandLineParam s' =
    Verbose.verboseModeSetViaCommandLineParam s /\
  (Verbose.has_writer s = false -> Verbose.writer_verbose s' = Verbose.writer_verbose s).
Proof.
  intros Hc b s'. subst b s'. destruct s. cbn in Hc. subst.
  unfold Verbose.setIsVerbose, Verbose.all_set_to, Verbose.debugging,
    Verbose.logger, Verbose.errorHandler, Verbose.verboseMode. cbn.
  destruct (truthy v); destruct env_DEBUG as [d |]; cbn;
    try destruct (String.eqb d ""); cbn;
    destruct _logger, _errorHandler, has_writer; cbn; intuition congruence.
Qed.

Lemma setIsVerbose_before (v : jsval) (s : Verbose.t) :
  Verbose._hasConfigInitialized s = false ->
  Verbose.setIsVerbose v s = Verbose.set__preInitVerbose (Some (truthy v)) s.
Proof. intros Hc. unfold Verbose.setIsVerbose. now rewrite Hc. Qed.

(** The first initialisation: its own call of [setIsVerbose] comes
    before [_hasConfigInitialized] is set, so it lands in
    [_preInitVerbose], from where the last statement applies it. *)
Lemma initializeConfig_first (config_quietMode : jsval) (s : Verbose.t) :
  Verbose._hasConfigInitialized s = false ->
  let b := match Verbose.options_quietMode s with
           | JBool quietMode => negb quietMode
           | _ => negb (truthy config_quietMode)
           end in
  let cli := match Verbose.options_quietMode s with
             | JBool _ => true
             | _ => false
             end in
  Verbose.initializeConfig config_quietMode s =
  Verbose.setIsVerbose (JBool b)
    (Verbose.set__hasConfigInitialized true
       (Verbose.set_verboseModeSetViaCommandLineParam (Some cli)
          (Verbose.set__preInitVerbose (Some b) (Verbose.logger s)))).
Proof.
  intros Hc b cli. subst b cli. destruct s. cbn in Hc. subst.
  unfold Verbose.initializeConfig, Verbose.logger, Verbose.verboseMode.
  destruct options_quietMode as [| | q | | |], _logger as [lg |];
    cbn -[Verbose.setIsVerbose];
    rewrite setIsVerbose_before by reflexivity;
    cbn -[Verbose.setIsVerbose]; reflexivity.
Qed.

(** X19: a verbosity set before the configuration is initialised is
    lost.  [initializeConfig] calls [setIsVerbose] itself before it
    sets [_hasConfigInitialized], which overwrites [_preInitVerbose]:
    the instance after initialisation is the same with and without the
    earlier call, and its verbose mode is the negation of the option
    [quietMode] when that is a boolean, and of the [quietMode] of the
    configuration otherwise, or false when [DEBUG] is set. *)
Theorem verbose_setting_before_init_is_lost (v config_quietMode : jsval) (s : Verbose.t) :
  Verbose._hasConfigInitialized s = false ->
  Verbose.initializeConfig config_quietMode (Verbose.setIsVerbose v s) =
    Verbose.initializeConfig config_quietMode s /\
  Verbose.verboseMode (Verbose.initializeConfig config_quietMode s) =
    Some (match Verbose.options_quietMode s with
          | JBool quietMode => negb quietMode
          | _ => negb (truthy config_quietMode)
          end && negb (Verbose.debugging s)).
Proof.
  intros Hc. split.
  - rewrite (setIsVerbose_before v s Hc).
    rewrite !initializeConfig_first by (destruct s; assumption).
    destruct s. cbn in Hc. subst. unfold Verbose.logger, Verbose.verboseMode.
    destruct _logger; reflexivity.
  - rewrite (initializeConfig_first config_quietMode s Hc).
    match goal with
    | |- Verbose.verboseMode (Verbose.setIsVerbose ?x ?s0) = _ =>
        destruct (setIsVerbose_initialised x s0 eq_refl) as ((Hmode & _) & _ & Hd & _)
    end.
    cbn zeta in *. unfold Verbose.verboseMode. rewrite Hmode. cbn [truthy].
    do 2 f_equal. f_equal. unfold Verbose.debugging.
    destruct s. unfold Verbose.logger. cbn. now destruct _logger.
Qed.

(** X20: once the configuration is initialised, after any calls of
    [setIsVerbose], of the setter [verboseMode] and of [resetConfig], a
    call of [setIsVerbose] leaves every part in agreement: the mode of
    the instance, the logger, the error handler, the benchmarks, the
    configuration, and the writer when there is one, all hold the
    value asked for, or false when [DEBUG] is set. *)
Theorem verbose_mode_in_sync (ops : list Verbose.op) (v : jsval) (s : Verbose.t) :
  Verbose._hasConfigInitialized s = true ->
  let s' := Verbose.setIsVerbose v (fold_left (fun s o => Verbose.apply o s) ops s) in
  Verbose.all_set_to (truthy v && negb (Verbose.debugging s)) s' /\
  (Verbose.debugging s = true -> Verbose.verboseMode s' = Some false).
Proof.
  intros Hc s'.
  assert (Hinv : forall ops s,
             Verbose._hasConfigInitialized s = true ->
             let s1 := fold_left (fun s o => Verbose.apply o s) ops s in
             Verbose._hasConfigInitialized s1 = true /\
             Verbose.env_DEBUG s1 = Verbose.env_DEBUG s).
  { clear. induction ops as [| o ops IH]; intros s Hc; [now split |].
    cbn [fold_left].
    assert (Hstep : Verbose._hasConfigInitialized (Verbose.apply o s) = true /\
                    Verbose.env_DEBUG (Verbose.apply o s) = Verbose.env_DEBUG s).
    { destruct o as [v | v | q]; cbn [Verbose.apply]; unfold Verbose.set_verboseMode.
      - destruct (setIsVerbose_initialised v s Hc) as (_ & H1 & H2 & _). now split.
      - destruct (setIsVerbose_initialised v s Hc) as (_ & H1 & H2 & _). now split.
      - unfold Verbose.resetConfig.
        destruct (Verbose.verboseModeSetViaCommandLineParam s) as [[|] |];
          try (now split);
          destruct (setIsVerbose_initialised (JBool (negb (truthy q))) s Hc)
            as (_ & H1 & H2 & _); now split. }
    destruct Hstep as [H1 H2]. destruct (IH _ H1) as [H3 H4].
    split; [exact H3 | congruence]. }
  destruct (Hinv ops s Hc) as [Hc1 Hd1]. cbn zeta in *.
  destruct (setIsVerbose_initialised v _ Hc1) as (Hall & _).
  assert (Hdbg : Verbose.debugging (fold_left (fun s o => Verbose.apply o s) ops s) =
                 Verbose.debugging s).
  { unfold Verbose.debugging. now rewrite Hd1. }
  cbn zeta in Hall. rewrite Hdbg in Hall. subst s'.
  split; [exact Hall |].
  intros Hdebug. rewrite Hdebug, andb_false_r in Hall. apply Hall.
Qed.

(** X21: a configuration reset and the verbosity.  When the mode was
    set on the command line, [resetConfig] changes nothing.  Otherwise
    it sets every part to the negation of the reloaded [quietMode]
    (false when [DEBUG] is set), also over a value the program had set
    with [setIsVerbose] after initialisation. *)
Theorem reset_keeps_command_line_verbosity (config_quietMode : jsval) (s : Verbose.t) :
  Verbose._hasConfigInitialized s = true ->
  (Verbose.verboseModeSetViaCommandLineParam s = Some true ->
   Verbose.resetConfig config_quietMode s = s) /\
  (Verbose.verboseModeSetViaCommandLineParam s <> Some true ->
   forall v,
     Verbose.all_set_to (negb (truthy config_quietMode) && negb (Verbose.debugging s))
       (Verbose.resetConfig config_quietMode (Verbose.setIsVerbose v s))).
Proof.
  intros Hc. split.
  - intros Hcli. unfold Verbose.resetConfig. now rewrite Hcli.
  - intros Hcli v.
    destruct (setIsVerbose_initialised v s Hc) as (_ & Hc1 & Hd1 & _ & _ & _ & Hp1 & _).
    cbn zeta in *.
    unfold Verbose.resetConfig. rewrite Hp1.
    assert (Hdbg : Verbose.debugging (Verbose.setIsVerbose v s) = Verbose.debugging s).
    { unfold Verbose.debugging. now rewrite Hd1. }
    pose proof (setIsVerbose_initialised (JBool (negb (truthy config_quietMode)))
                  (Verbose.setIsVerbose v s) Hc1) as (Hall & _).
    cbn zeta in Hall. rewrite Hdbg in Hall. cbn [truthy] in Hall.
    destruct (Verbose.verboseModeSetViaCommandLineParam s) as [[|] |];
      [congruence | exact Hall | exact Hall].
Qed.

(** ** Watcher options *)

Lemma Object_assign_lookup (target source : gmap string Chokidar.value) (name : string) :
  Chokidar.Object_assign target source !! name =
  match source !! name with
  | Some v => Some v
  | None => target !! name
  end.
Proof.
  unfold Chokidar.Object_assign.
  apply (map_fold_weak_ind
           (fun r (m : gmap string Chokidar.value) =>
              r !! name = match m !! name with Some v => Some v | None => target !! name end)).
  - now rewrite lookup_empty.
  - intros i x m r Hi IH. destruct (decide (i = name)) as [-> | Hne].
    + now rewrite !lookup_insert_eq.
    + rewrite !lookup_insert_ne by assumption. exact IH.
Qed.

(** X18: the options of the watcher.  [ignored] is always the list of
    Eleventy's own globs, whatever the configuration says; every other
    option of the configuration is passed on and overrides the
    defaults [ignoreInitial] and [awaitWriteFinish]; the [ignored]
    entry is deleted from the configuration's own object, so a second
    call answers the same; and without a [chokidarConfig] object the
    call throws. *)
Theorem chokidar_options (ignores : list string)
    (configOptions : gmap string Chokidar.value) :
  exists options,
    Chokidar.getChokidarConfig ignores (Some configOptions) =
      (Resolved options, Some (delete "ignored" configOptions)) /\
    options !! "ignored" = Some (Chokidar.Globs ignores) /\
    (forall name, name <> "ignored" ->
       options !! name =
       match configOptions !! name with
       | Some v => Some v
       | None =>
           if String.eqb name "ignoreInitial" then Some (Chokidar.Plain (JBool true))
           else if String.eqb name "awaitWriteFinish"
                then Some (Chokidar.AwaitWriteFinish 150 25)
                else None
       end) /\
    Chokidar.getChokidarConfig ignores (Some (delete "ignored" configOptions)) =
      (Resolved options, Some (delete "ignored" configOptions)) /\
    exists e, Chokidar.getChokidarConfig ignores None = (Rejected e, None).
Proof.
  eexists. split; [reflexivity |]. split; [| split; [| split]].
  - rewrite Object_assign_lookup, lookup_delete_eq. reflexivity.
  - intros name Hne. rewrite Object_assign_lookup, lookup_delete_ne by congruence.
    destruct (configOptions !! name); [reflexivity |].
    unfold Chokidar.defaults.
    destruct (String.eqb name "ignoreInitial") eqn:H1.
    { apply String.eqb_eq in H1 as ->.
      rewrite lookup_insert_ne by discriminate. now rewrite lookup_insert_eq. }
    destruct (String.eqb name "awaitWriteFinish") eqn:H2.
    { apply String.eqb_eq in H2 as ->. now rewrite lookup_insert_eq. }
    apply String.eqb_neq in H1, H2.
    rewrite !lookup_insert_ne by congruence. apply lookup_empty.
  - unfold Chokidar.getChokidarConfig. now rewrite delete_delete_eq.
  - eexists. reflexivity.
Qed.

End Verbose_props.

(** * The sample project at work *)

(** [config_reset_gate] on the sample project: a helper imported by a
    template only does not trigger a reset, and a dependency of the
    configuration file does, with either separator. *)
Lemma config_reset_gate_witness :
  In "./lib/feed-helpers.js" (getDependenciesOf (Collaborators := sample) "./feed.11ty.js") /\
  shouldTriggerConfigReset (E := sample) ["./lib/feed-helpers.js"] = false /\
  _shouldResetConfig (E := sample) ["_config\filters.js"] =
  _shouldResetConfig (E := sample) ["_config/filters.js"] /\
  _shouldResetConfig (E := sample) ["_config\filters.js"] = true.
Proof.
  destruct (config_reset_gate (E := sample)) as (H1 & H2 & H3 & H4).
  assert (Hdep : In "./lib/feed-helpers.js"
                    (getDependenciesOf (Collaborators := sample) "./feed.11ty.js")).
  { vm_compute. auto. }
  split; [exact Hdep |]. split; [| split].
  - apply (H2 _ "./feed.11ty.js" Hdep).
    + vm_compute. intros [Heq | []]. discriminate.
    + intros c Hc. vm_compute in Hc. destruct Hc as [<- | []].
      vm_compute. intros [Heq | []]. discriminate.
  - apply H4. vm_compute. reflexivity.
  - apply H3. exists "_config\filters.js". split; [now left |].
    right. exists "./eleventy.config.js". vm_compute. auto.
Defined.

(** [setIncrementalFile_side_effects] on the sample project. *)
Lemma setIncrementalFile_side_effects_witness :
  truthy (JStr "./index.md") = true /\
  watchManager (sample_watching "script") = Some new_EleventyWatch /\
  (exists st',
      setIncrementalFile (JStr "./index.md") (sample_watching "script") =
        (Resolved tt, st') /\
      programmaticApiIncrementalFile st' = JStr "./index.md" /\
      isRunInitialBuild st' = false /\
      isIncremental st' = true /\
      incremental <$> watchManager st' = Some true) /\
  setIncrementalFile (JStr "") (sample_watching "script") =
    (Resolved tt, sample_watching "script").
Proof.
  destruct setIncrementalFile_side_effects as [Htruthy Hfalsy].
  split; [reflexivity |]. split; [reflexivity |]. split.
  - eexists.
    exact (Htruthy (JStr "./index.md") (sample_watching "script") new_EleventyWatch
             eq_refl eq_refl).
  - apply Hfalsy. reflexivity.
Defined.

(** [init_cache_invocation] on the sample project.  The first [init]
    of a constructed instance captures the path cache of its writer,
    and [undefined] for the property the writer lacks; an [init] that
    finds a snapshot copies it onto the new writer; an [init] with
    [viaConfigReset] leaves the new writer and the snapshot alone. *)
Lemma init_cache_invocation_witness :
  let run := sample_run [] ∅ in
  (forall name, rejects run name = None) /\
  caches (new_TemplateWriter (Collaborators := sample_warm)) <> NoCaches /\
  caches (new_TemplateWriter (Collaborators := sample)) <> NoCaches /\
  (exists st1 st' snap,
      init_objects (E := sample_warm) false run sample_constructed = (Resolved tt, st1) /\
      writer st1 = Some sample_warm_writer /\
      init (E := sample_warm) false run sample_constructed = (Resolved tt, st') /\
      cache_calls (calls st') = 1 /\
      default ∅ (_privateCaches st') !! "TemplateWriter" = Some snap /\
      snap !! "_templatePathCache" = Some (JRef 7) /\
      snap !! "_layoutCache" = Some JUndefined /\
      snap !! "logger" = None) /\
  (exists st1 st' w0,
      init_objects (E := sample) false run (sample_watching "cli") = (Resolved tt, st1) /\
      writer st1 = Some w0 /\
      fields w0 !! "_templatePathCache" = Some (JRef 7) /\
      init (E := sample) false run (sample_watching "cli") = (Resolved tt, st') /\
      cache_calls (calls st') = 1 /\
      _privateCaches st' = _privateCaches (sample_watching "cli")) /\
  (exists st1 st',
      init_objects (E := sample) true run (sample_watching "cli") = (Resolved tt, st1) /\
      writer st1 = Some sample_writer /\
      init (E := sample) true run (sample_watching "cli") = (Resolved tt, st') /\
      cache_calls (calls st') = 0 /\
      _privateCaches st' = _privateCaches (sample_watching "cli")).
Proof.
  intros run.
  assert (Hrej : forall name, rejects run name = None) by reflexivity.
  assert (Hwarm : caches (new_TemplateWriter (Collaborators := sample_warm)) <> NoCaches)
    by discriminate.
  assert (Hdecl : caches (new_TemplateWriter (Collaborators := sample)) <> NoCaches)
    by discriminate.
  split; [exact Hrej |]. split; [exact Hwarm |]. split; [exact Hdecl |].
  split; [| split].
  - destruct (init_cache_invocation (E := sample_warm) run sample_constructed Hrej Hwarm)
      as ((st1 & st' & w0 & Hrun1 & Hw & _ & Hrun & Hcalls & Hpc & Hsnap) & _).
    change (default ∅ (_privateCaches sample_constructed) !! "TemplateWriter")
      with (@None (gmap string jsval)) in Hsnap.
    destruct Hsnap as (Hw0 & snap & Hstore & Hfields).
    exists st1, st', snap. split; [exact Hrun1 |]. split; [now rewrite Hw, Hw0 |].
    split; [exact Hrun |]. split; [exact Hcalls |].
    split; [rewrite Hpc, Hstore; apply lookup_insert_eq |].
    rewrite !Hfields. repeat split; reflexivity.
  - destruct (init_cache_invocation (E := sample) run (sample_watching "cli") Hrej Hdecl)
      as ((st1 & st' & w0 & Hrun1 & Hw & _ & Hrun & Hcalls & Hpc & Hsnap) & _).
    change (default ∅ (_privateCaches (sample_watching "cli")) !! "TemplateWriter")
      with (Some ({[ "_templatePathCache" := JRef 7 ]} : gmap string jsval)) in Hsnap.
    destruct Hsnap as [Hsame Hfields].
    exists st1, st', w0. split; [exact Hrun1 |]. split; [exact Hw |].
    split; [rewrite Hfields; reflexivity |].
    split; [exact Hrun |]. split; [exact Hcalls |]. now rewrite Hpc.
  - destruct (init_cache_invocation (E := sample) run (sample_watching "cli") Hrej Hdecl)
      as (_ & (st1 & st' & Hrun1 & Hw & _ & Hrun & Hcalls & Hpc)).
    exists st1, st'. split; [exact Hrun1 |]. split; [exact Hw |].
    split; [exact Hrun |]. split; [exact Hcalls | exact Hpc].
Defined.

(** [build_finalization] on the sample project: a failed file-system
    build still finalizes the telemetry and prints its summary, in
    red. *)
Lemma build_finalization_witness :
  executeBuild_ready (E := sample) (sample_failing_run sample_error)
    (sample_watching "cli") = (Resolved tt, sample_watching "cli") /\
  writer (sample_watching "cli") = Some sample_writer /\
  exists r st2 text,
    executeBuild (E := sample) "fs" (sample_failing_run sample_error)
      (sample_watching "cli") = (r, st2) /\
    logFinished (E := sample) st2 = (Resolved text, st2) /\
    List.filter is_finalization (calls st2) =
      [BenchFinish; LoggerMessage text "info" "red" true].
Proof.
  assert (Hready : executeBuild_ready (E := sample) (sample_failing_run sample_error)
                     (sample_watching "cli") = (Resolved tt, sample_watching "cli"))
    by reflexivity.
  split; [exact Hready |]. split; [reflexivity |].
  destruct (build_finalization (E := sample) "fs" (sample_failing_run sample_error)
              (sample_watching "cli") (sample_watching "cli") sample_writer
              Hready eq_refl)
    as (r & st2 & text & hasError & Hrun & Hlog & Hcalls & Herr).
  exists r, st2, text. split; [exact Hrun |]. split; [exact Hlog |].
  assert (Hred : hasError = true).
  { apply Herr. eexists. eexists. vm_compute. reflexivity. }
  rewrite Hred in Hcalls. exact Hcalls.
Defined.

(** [build_error_policy] on the sample project, called from a script:
    the error is reported, the telemetry is finalized, and the error is
    thrown again. *)
Lemma build_error_policy_witness :
  executeBuild_ready (E := sample) (sample_failing_run sample_error)
    (sample_watching "script") = (Resolved tt, sample_watching "script") /\
  writer (sample_watching "script") = Some sample_writer /\
  pipeline_throws "fs" (sample_failing_run sample_error) sample_error /\
  exists st2 before after,
    executeBuild (E := sample) "fs" (sample_failing_run sample_error)
      (sample_watching "script") = (Rejected sample_error, st2) /\
    calls st2 =
      before ++
      [ErrorHandlerError sample_error "Problem writing Eleventy templates";
       BenchFinish] ++ after.
Proof.
  assert (Hready : executeBuild_ready (E := sample) (sample_failing_run sample_error)
                     (sample_watching "script") =
                   (Resolved tt, sample_watching "script"))
    by reflexivity.
  assert (Hthrows : pipeline_throws "fs" (sample_failing_run sample_error) sample_error).
  { left. split; reflexivity. }
  split; [exact Hready |]. split; [reflexivity |]. split; [exact Hthrows |].
  destruct (build_error_policy (E := sample) "fs" (sample_failing_run sample_error)
              (sample_watching "script") (sample_watching "script") sample_writer
              sample_error Hready eq_refl eq_refl eq_refl Hthrows)
    as (st2 & before & after & Hrun & Hcalls).
  exists st2, before, after. split; [exact Hrun | exact Hcalls].
Defined.

(** [watch_single_flight] on the sample project. *)
Lemma watch_single_flight_witness :
  idle (sample_watching "cli") /\
  length
    (suspended
       (steps (E := sample)
          [Notify "./a.css"; TimerFires; Notify "./b.md"; TimerFires]
          (sample_watching "cli"))) <= 1.
Proof.
  assert (Hidle : idle (sample_watching "cli")).
  { vm_compute. repeat split. intros w [= <-]. reflexivity. }
  split; [exact Hidle |].
  apply (proj2 (watch_single_flight (E := sample)) _ _ Hidle).
Defined.

(** [cycle_completion] on the sample project, started from the command
    line: the build of [./a.css] fails while [./b.md] is pending;
    [write()] returns the error, and the cycle for [./b.md] starts at
    once. *)
Lemma cycle_completion_witness :
  let st :=
    steps (E := sample) [Notify "./a.css"; TimerFires; Notify "./b.md"]
      (sample_watching "cli") in
  let c := {| cycleQueue := ["./a.css"]; cycleIsResetConfig := false |} in
  let w := {| incremental := false; buildRunning := true;
              active := ["./a.css"]; queue := ["./b.md"] |} in
  let run := sample_failing_run sample_error in
  exited st = false /\
  suspended st !! 0 = Some c /\
  _hasConfigInitialized st = true /\
  watchManager st = Some w /\
  (forall name, rejects run name = None) /\
  caches (new_TemplateWriter (Collaborators := sample)) <> NoCaches /\
  source st <> "script" /\
  suspended (step (E := sample) (Settles 0 run) st) =
    [{| cycleQueue := ["./b.md"]; cycleIsResetConfig := false |}].
Proof.
  intros st c w run.
  assert (H1 : exited st = false) by reflexivity.
  assert (H2 : suspended st !! 0 = Some c) by reflexivity.
  assert (H3 : _hasConfigInitialized st = true) by reflexivity.
  assert (H4 : watchManager st = Some w) by reflexivity.
  assert (H5 : forall name, rejects run name = None) by reflexivity.
  assert (H6 : caches (new_TemplateWriter (Collaborators := sample)) <> NoCaches)
    by discriminate.
  assert (H7 : source st <> "script") by discriminate.
  repeat (split; [assumption |]).
  destruct (cycle_completion (E := sample) 0 c run st w H1 H2 H3 H4) as [Hdone _].
  destruct (Hdone H5 H6 (or_introl H7)) as (_ & before & Hnext).
  change (0 <? length (queue w))%nat with true in Hnext.
  exact (proj1 Hnext).
Defined.

(** [notification_while_building] on the sample project: [./b.md]
    arrives during the build of [./a.css]; the timer is set and its
    firing starts nothing; when the build is done, the cycle that
    follows takes [./b.md]. *)
Lemma notification_while_building_witness :
  let st := steps (E := sample) [Notify "./a.css"; TimerFires] (sample_watching "cli") in
  let w := {| incremental := false; buildRunning := true;
              active := ["./a.css"]; queue := [] |} in
  let c := {| cycleQueue := ["./a.css"]; cycleIsResetConfig := false |} in
  let run := sample_run [[Some 1]] {[ 1 := "/a/" ]} in
  let st' := step (E := sample) (Notify "./b.md") st in
  exited st = false /\
  watchManager st = Some w /\
  buildRunning w = true /\
  suspended st !! 0 = Some c /\
  _hasConfigInitialized st = true /\
  (forall name, rejects run name = None) /\
  caches (new_TemplateWriter (Collaborators := sample)) <> NoCaches /\
  source st <> "script" /\
  watchDelay st' = Some false /\
  step (E := sample) TimerFires st' = set_watchDelay None st' /\
  suspended (step (E := sample) (Settles 0 run) st') =
    [{| cycleQueue := ["./b.md"]; cycleIsResetConfig := false |}] /\
  suspended (step (E := sample) (Settles 0 run) (step (E := sample) TimerFires st')) =
    [{| cycleQueue := ["./b.md"]; cycleIsResetConfig := false |}].
Proof.
  intros st w c run st'.
  assert (H1 : exited st = false) by reflexivity.
  assert (H2 : watchManager st = Some w) by reflexivity.
  assert (H3 : buildRunning w = true) by reflexivity.
  assert (H4 : suspended st !! 0 = Some c) by reflexivity.
  assert (H5 : _hasConfigInitialized st = true) by reflexivity.
  assert (H6 : forall name, rejects run name = None) by reflexivity.
  assert (H7 : caches (new_TemplateWriter (Collaborators := sample)) <> NoCaches)
    by discriminate.
  assert (H8 : source st <> "script") by discriminate.
  repeat (split; [assumption |]).
  destruct (notification_while_building (E := sample) "./b.md" st w H1 H2 H3)
    as (_ & _ & _ & Htimer & Hfires & Hnext).
  split; [exact Htimer |]. split; [exact Hfires |].
  split.
  - exact (Hnext 0 c run _ (or_introl eq_refl) H4 H5 H6 H7 (or_introl H8)).
  - exact (Hnext 0 c run _ (or_intror eq_refl) H4 H5 H6 H7 (or_introl H8)).
Defined.

(** C4 on the code: a cycle that fails by throwing is not followed by
    the drain step.  Called from a script, [executeBuild] throws the
    build error again, [_watch] rejects before it reaches its last
    statements, and the [catch] block of [watchRun] only releases the
    flag: [./b.md], queued during the build, stays pending, no further
    cycle starts and the idle state is not logged.  The same failed
    build from the command line, where [write()] returns the error,
    does go through the drain step and starts the cycle for
    [./b.md]. *)
Lemma failed_cycle_is_not_drained :
  let burst := [Notify "./a.css"; TimerFires; Notify "./b.md"] in
  let st := steps (E := sample) burst (sample_watching "script") in
  let st' := step (E := sample) (Settles 0 (sample_failing_run sample_error)) st in
  let st_cli := steps (E := sample) burst (sample_watching "cli") in
  let st_cli' := step (E := sample) (Settles 0 (sample_failing_run sample_error)) st_cli in
  length (suspended st) = 1 /\
  queue <$> watchManager st' = Some ["./b.md"] /\
  buildRunning <$> watchManager st' = Some false /\
  suspended st' = [] /\
  watchDelay st' = watchDelay st /\
  List.filter (fun e => match e with LoggerLog _ => true | _ => false end) (calls st') = [] /\
  suspended st_cli' = [{| cycleQueue := ["./b.md"]; cycleIsResetConfig := false |}].
Proof. vm_compute. repeat split. Qed.


(** C10, as stated, fails on an instance whose configuration is not
    initialised: there is no watch manager yet, the call throws, and
    the path is not recorded. *)
Lemma setIncrementalFile_on_constructed_instance :
  truthy (JStr "./index.md") = true /\
  watchManager sample_constructed = None /\
  exists e st',
    setIncrementalFile (JStr "./index.md") sample_constructed = (Rejected e, st') /\
    programmaticApiIncrementalFile st' = JUndefined /\
    watchManager st' = None.
Proof. split; [reflexivity |]. split; [reflexivity |]. eexists _, _. repeat split. Qed.

(** C6, as stated, fails for the targets other than fs: a JSON build
    finalizes the telemetry and prints no summary line. *)
Lemma json_build_prints_no_summary :
  exists st2,
    executeBuild (E := sample) "json" (sample_run [[Some 1]] {[ 1 := "/a/" ]})
      (sample_watching "cli") = (Resolved (RetJson [Some 1]), st2) /\
    List.filter is_finalization (calls st2) = [BenchFinish].
Proof. eexists. split; [reflexivity | vm_compute; reflexivity]. Qed.

(** C8, as stated, fails: while the build of [./a.css] is running and no
    timer is pending, the notification for [./b.md] sets the debounce
    timer. *)
Lemma notification_during_build_sets_timer :
  let st := steps (E := sample) [Notify "./a.css"; TimerFires] (sample_watching "cli") in
  buildRunning <$> watchManager st = Some true /\
  watchDelay st = None /\
  watchDelay (step (E := sample) (Notify "./b.md") st) = Some false.
Proof. vm_compute. repeat split. Qed.

(** The timer set during a build stays pending when it does not fire
    before the cycles are over: [./b.md] arrives during the build of
    [./a.css], the build ends, the cycle for [./b.md] runs and ends,
    and then the timer fires.  [_watch] does not look at the size of
    the queue: a third cycle starts, with an empty queue, and hands an
    empty list of files to the reload layer. *)
Lemma late_timer_starts_empty_cycle :
  let run := sample_run [[Some 1]] {[ 1 := "/a/" ]} in
  let st :=
    steps (E := sample)
      [Notify "./a.css"; TimerFires; Notify "./b.md"; Settles 0 run; Settles 0 run]
      (sample_watching "cli") in
  suspended st = [] /\
  queue <$> watchManager st = Some [] /\
  watchDelay st = Some false /\
  suspended (step (E := sample) TimerFires st) =
    [{| cycleQueue := []; cycleIsResetConfig := false |}] /\
  map (fun e => match e with ServeReload p => files p | _ => [] end)
    (reloads (calls (steps (E := sample) [TimerFires; Settles 0 run] st))) =
    [["./a.css"]; ["./b.md"]; []].
Proof. vm_compute. repeat split. Qed.

(** C2 on the code: within one burst the configuration file changes
    first and a post last.  The cycle's queue holds both and
    [_shouldResetConfig] of that queue is true, but [_watch] receives
    the [isResetConfig] of the last notification: the cycle runs
    without [resetConfig] and [init] takes the cache path of a
    non-reset build.  With the two notifications in the other order the
    cycle does reset. *)
Lemma burst_reset_follows_last_notification :
  let burst := [Notify "./eleventy.config.js"; Notify "./content/post.md"; TimerFires] in
  let st := steps (E := sample) burst (sample_watching "cli") in
  let st' := step (E := sample) (Settles 0 (sample_run [] ∅)) st in
  let burst_rev := [Notify "./content/post.md"; Notify "./eleventy.config.js"; TimerFires] in
  let st_rev := steps (E := sample) burst_rev (sample_watching "cli") in
  suspended st =
    [{| cycleQueue := ["./eleventy.config.js"; "./content/post.md"];
        cycleIsResetConfig := false |}] /\
  _shouldResetConfig (E := sample) ["./eleventy.config.js"; "./content/post.md"] = true /\
  collaborator_calls "eleventyConfig.reset" (calls st') = [] /\
  cache_calls (calls st') = 1 /\
  suspended st_rev =
    [{| cycleQueue := ["./content/post.md"; "./eleventy.config.js"];
        cycleIsResetConfig := true |}].
Proof. vm_compute. repeat split. Qed.

(** C7 on the code: the write pipeline returns the results of two
    templates.  [executeBuild] puts the flattened results at index 1 of
    the returned array and leaves the second template's array at index
    2, so [_watch] flattens the entry of the second template twice into
    the payload and prefixes its [url] twice. *)
Lemma reload_payload_repeats_later_templates :
  let st := steps (E := sample) [Notify "./a.css"; TimerFires] (sample_watching "cli") in
  let run := sample_run [[Some 1]; [Some 2]] {[ 1 := "/a/"; 2 := "/b/" ]} in
  reloads (calls (step (E := sample) (Settles 0 run) st)) =
  [ServeReload
     {| files := ["./a.css"];
        subtype := Some "css";
        templates := [(1, "/blog/a/"); (2, "/blog/blog/b/"); (2, "/blog/blog/b/")] |}].
Proof. vm_compute. reflexivity. Qed.

(** ** The further properties on the sample project *)

(** [cache_round_trip] on the sample project: the path cache of the
    first writer reaches the second. *)
Lemma cache_round_trip_witness :
  let inst1 := set_fields {[ "_templatePathCache" := JRef 7 ]} sample_writer in
  caches inst1 <> NoCaches /\
  caches sample_writer <> NoCaches /\
  default ∅ (_privateCaches sample_constructed) !! "TemplateWriter" = None /\
  exists st1 st2 inst2',
    _cache "TemplateWriter" inst1 sample_constructed = (Resolved inst1, st1) /\
    _cache "TemplateWriter" sample_writer st1 = (Resolved inst2', st2) /\
    fields inst2' !! "_templatePathCache" = Some (JRef 7).
Proof.
  intros inst1.
  assert (H1 : caches inst1 <> NoCaches) by discriminate.
  assert (H2 : caches sample_writer <> NoCaches) by discriminate.
  assert (H3 : default ∅ (_privateCaches sample_constructed) !! "TemplateWriter" = None)
    by reflexivity.
  repeat (split; [assumption |]).
  destruct (cache_round_trip "TemplateWriter" inst1 sample_writer sample_constructed
              H1 H2 H3) as (st1 & st2 & inst2' & Hc1 & Hc2 & _ & Hf).
  exists st1, st2, inst2'. split; [exact Hc1 |]. split; [exact Hc2 |].
  rewrite Hf. reflexivity.
Defined.

(** [cache_edge_cases] on two writers, one without [caches] and one
    whose [caches] is falsy. *)
Lemma cache_edge_cases_witness :
  let bare := {| fields := ∅; caches := NoCaches;
                 writeCount := 0; skippedCount := 0; copyCount := 0 |} in
  let falsy := {| fields := ∅; caches := CachesFalsy;
                  writeCount := 0; skippedCount := 0; copyCount := 0 |} in
  (exists st',
      _cache "TemplateWriter" bare sample_constructed =
        (Rejected (Error "To use _cache you need a `caches` getter object"), st') /\
      is_Some (_privateCaches st')) /\
  (exists st',
      _cache "TemplateWriter" falsy sample_constructed = (Resolved falsy, st') /\
      default ∅ (_privateCaches st') !! "TemplateWriter" = Some ∅).
Proof.
  intros bare falsy. split.
  - destruct (proj1 (cache_edge_cases "TemplateWriter" bare sample_constructed) eq_refl)
      as (st' & Hrun & Hsome & _).
    eauto.
  - destruct (proj2 (cache_edge_cases "TemplateWriter" falsy sample_constructed)
                eq_refl eq_refl) as (st' & Hrun & Hsnap & _).
    eauto.
Defined.

(** [snapshot_is_never_refreshed] on the sample project: a cycle with a
    configuration reset leaves the snapshot as it was. *)
Lemma snapshot_is_never_refreshed_witness :
  let snap : gmap string jsval := {[ "_templatePathCache" := JRef 7 ]} in
  default ∅ (_privateCaches (sample_watching "cli")) !! "TemplateWriter" = Some snap /\
  default ∅
    (_privateCaches
       (steps (E := sample)
          [Notify "./eleventy.config.js"; TimerFires; Settles 0 (sample_run [] ∅)]
          (sample_watching "cli"))) !! "TemplateWriter" = Some snap.
Proof.
  intros snap.
  assert (H : default ∅ (_privateCaches (sample_watching "cli")) !! "TemplateWriter" =
              Some snap) by reflexivity.
  split; [exact H |].
  apply (snapshot_is_never_refreshed (E := sample) "TemplateWriter" snap
           (sample_watching "cli") H).
Defined.

(** [first_snapshot_is_restored_later] on the sample project: after
    a cycle with a configuration reset and a notification, an [init]
    without reset gives the new writer the path cache of the snapshot
    again. *)
Lemma first_snapshot_is_restored_later_witness :
  let snap : gmap string jsval := {[ "_templatePathCache" := JRef 7 ]} in
  let ls := [Notify "./eleventy.config.js"; TimerFires; Settles 0 (sample_run [] ∅);
             Notify "./a.md"] in
  let run := sample_run [[Some 1]] {[ 1 := "/a/" ]} in
  default ∅ (_privateCaches (sample_watching "cli")) !! "TemplateWriter" = Some snap /\
  (forall name, rejects run name = None) /\
  caches (new_TemplateWriter (Collaborators := sample)) <> NoCaches /\
  exists st1 w0,
    init_objects (E := sample) false run (steps (E := sample) ls (sample_watching "cli")) =
      (Resolved tt, st1) /\
    writer st1 = Some w0 /\
    fields w0 !! "_templatePathCache" = Some (JRef 7).
Proof.
  intros snap ls run.
  assert (H1 : default ∅ (_privateCaches (sample_watching "cli")) !! "TemplateWriter" =
               Some snap) by reflexivity.
  assert (H2 : forall name, rejects run name = None) by reflexivity.
  assert (H3 : caches (new_TemplateWriter (Collaborators := sample)) <> NoCaches)
    by discriminate.
  repeat (split; [assumption |]).
  destruct (first_snapshot_is_restored_later (E := sample) ls run (sample_watching "cli")
              snap H1 H2 H3) as (st1 & w0 & Hrun & Hw & Hf & _).
  exists st1, w0. split; [exact Hrun |]. split; [exact Hw |].
  rewrite Hf. reflexivity.
Defined.

(** [setIncrementalFile_before_config] on a freshly constructed
    instance. *)
Lemma setIncrementalFile_before_config_witness :
  truthy (JStr "./index.md") = true /\
  watchManager sample_constructed = None /\
  exists e st',
    setIncrementalFile (JStr "./index.md") sample_constructed = (Rejected e, st') /\
    isIncremental st' = true /\
    programmaticApiIncrementalFile st' = JUndefined.
Proof.
  split; [reflexivity |]. split; [reflexivity |].
  destruct (setIncrementalFile_before_config (JStr "./index.md") sample_constructed
              eq_refl eq_refl) as (Hrun & _ & Hinc & Hfile).
  eexists _, _. split; [exact Hrun |]. split; [exact Hinc | exact Hfile].
Defined.

(** [failed_init_is_sticky] on the sample project: a listener of
    [eleventy.config] rejects; the build rejects, and so does a later
    build in which nothing would reject. *)
Lemma failed_init_is_sticky_witness :
  let run := sample_rejecting_run "eleventy.config" sample_error [] ∅ in
  let st1 := snd (init (E := sample) false run sample_constructed) in
  needsInit sample_constructed = true /\
  _initing sample_constructed = None /\
  init (E := sample) false run sample_constructed = (Rejected sample_error, st1) /\
  executeBuild (E := sample) "fs" run sample_constructed =
    (Rejected sample_error, set__initing (Some (Rejected sample_error)) st1) /\
  executeBuild (E := sample) "json" (sample_run [] ∅)
    (set__initing (Some (Rejected sample_error)) st1) =
    (Rejected sample_error, set__initing (Some (Rejected sample_error)) st1).
Proof.
  intros run st1.
  assert (H1 : needsInit sample_constructed = true) by reflexivity.
  assert (H2 : _initing sample_constructed = None) by reflexivity.
  assert (H3 : init (E := sample) false run sample_constructed =
               (Rejected sample_error, st1)) by reflexivity.
  repeat (split; [assumption |]).
  destruct (failed_init_is_sticky (E := sample) run sample_constructed st1 sample_error
              H1 H2 H3) as [Hfirst Hlater].
  split; [apply Hfirst | apply Hlater].
Defined.

(** [successful_build_protocol] on the sample project: the same two
    results through the targets fs and json.  The listeners of the
    file-system build get both; those of the JSON build get the second
    only. *)
Lemma successful_build_protocol_witness :
  let run := sample_run [[Some 1]; [None; Some 2]] {[ 1 := "/a/"; 2 := "/b/" ]} in
  (forall name, rejects run name = None) /\
  needsInit (sample_watching "script") = false /\
  writer (sample_watching "script") = Some sample_writer /\
  fsResult run = Resolved (JNull, [[Some 1]; [None; Some 2]]) /\
  jsonResult run "json" = Resolved [Some 1; None; Some 2] /\
  (exists st2,
    executeBuild (E := sample) "fs" run (sample_watching "script") =
      (Resolved (RetFs JNull [[Some 1; Some 2]; [None; Some 2]]), st2) /\
    exists text,
      calls st2 =
        [EmitBuild "beforeBuild" "fs" false None; EmitBuild "eleventy.before" "fs" false None;
         WriterCall "write" JUndefined;
         EmitBuild "afterBuild" "fs" false (Some [1; 2]);
         EmitBuild "eleventy.after" "fs" false (Some [1; 2]);
         BenchFinish; LoggerMessage text "info" "green" true]) /\
  (exists st2,
    executeBuild (E := sample) "json" run (sample_watching "script") =
      (Resolved (RetJson [Some 1; None; Some 2]), st2) /\
    calls st2 =
      [EmitBuild "beforeBuild" "json" false None;
       EmitBuild "eleventy.before" "json" false None;
       WriterCall "getJSON" (JStr "json");
       EmitBuild "afterBuild" "json" false (Some [2]);
       EmitBuild "eleventy.after" "json" false (Some [2]);
       BenchFinish]).
Proof.
  intros run.
  assert (H1 : forall name, rejects run name = None) by reflexivity.
  assert (H2 : needsInit (sample_watching "script") = false) by reflexivity.
  assert (H3 : writer (sample_watching "script") = Some sample_writer) by reflexivity.
  assert (H4 : fsResult run = Resolved (JNull, [[Some 1]; [None; Some 2]])) by reflexivity.
  assert (H5 : jsonResult run "json" = Resolved [Some 1; None; Some 2]) by reflexivity.
  repeat (split; [assumption |]).
  destruct (successful_build_protocol (E := sample) run (sample_watching "script")
              sample_writer H1 H2 H3) as (Hfs & Hjson & _).
  split.
  - destruct (Hfs JNull [[Some 1]; [None; Some 2]] H4) as (st2 & text & Hrun & _ & Hcalls).
    exists st2. split; [exact Hrun |]. exists text. exact Hcalls.
  - destruct (Hjson [Some 1; None; Some 2] H5) as (st2 & Hrun & Hcalls).
    exists st2. split; [exact Hrun | exact Hcalls].
Defined.

(** [invalid_target_build] on the sample project, for the target
    [xml]. *)
Lemma invalid_target_build_witness :
  let run := sample_run [] ∅ in
  "xml" <> "fs" /\ "xml" <> "json" /\ "xml" <> "ndjson" /\
  rejects run "beforeBuild" = None /\
  rejects run "eleventy.before" = None /\
  needsInit (sample_watching "cli") = false /\
  writer (sample_watching "cli") = Some sample_writer /\
  exists e st2,
    executeBuild (E := sample) "xml" run (sample_watching "cli") =
      (Resolved (RetError e), st2) /\
    calls st2 =
      [EmitBuild "beforeBuild" "xml" false None; EmitBuild "eleventy.before" "xml" false None;
       ErrorHandlerFatal e "Problem writing Eleventy templates"; BenchFinish].
Proof.
  intros run.
  assert (H1 : "xml" <> "fs") by discriminate.
  assert (H2 : "xml" <> "json") by discriminate.
  assert (H3 : "xml" <> "ndjson") by discriminate.
  assert (H4 : rejects run "beforeBuild" = None) by reflexivity.
  assert (H5 : rejects run "eleventy.before" = None) by reflexivity.
  assert (H6 : needsInit (sample_watching "cli") = false) by reflexivity.
  assert (H7 : writer (sample_watching "cli") = Some sample_writer) by reflexivity.
  repeat (split; [assumption |]).
  destruct (invalid_target_build (E := sample) "xml" run (sample_watching "cli")
              sample_writer H1 H2 H3 H4 H5 H6 H7) as (st2 & Hrun & _ & _ & Hcalls).
  eexists _, st2. split; [exact Hrun | exact Hcalls].
Defined.

(** [rejecting_after_listener] on the sample project. *)
Lemma rejecting_after_listener_witness :
  let run := sample_rejecting_run "afterBuild" sample_error [[Some 1]] {[ 1 := "/a/" ]} in
  rejects run "beforeBuild" = None /\
  rejects run "eleventy.before" = None /\
  rejects run "afterBuild" = Some sample_error /\
  fsResult run = Resolved (JNull, [[Some 1]]) /\
  needsInit (sample_watching "cli") = false /\
  writer (sample_watching "cli") = Some sample_writer /\
  exists st2,
    executeBuild (E := sample) "fs" run (sample_watching "cli") =
      (Resolved (RetError sample_error), st2) /\
    writeCount <$> writer st2 = Some 1.
Proof.
  intros run.
  assert (H1 : rejects run "beforeBuild" = None) by reflexivity.
  assert (H2 : rejects run "eleventy.before" = None) by reflexivity.
  assert (H3 : rejects run "afterBuild" = Some sample_error) by reflexivity.
  assert (H4 : fsResult run = Resolved (JNull, [[Some 1]])) by reflexivity.
  assert (H5 : needsInit (sample_watching "cli") = false) by reflexivity.
  assert (H6 : writer (sample_watching "cli") = Some sample_writer) by reflexivity.
  repeat (split; [assumption |]).
  destruct (rejecting_after_listener (E := sample) run (sample_watching "cli")
              sample_writer JNull [[Some 1]] sample_error H1 H2 H3 H4 H5 H6)
    as (st2 & text & Hrun & Hw & _).
  exists st2. split; [exact Hrun |]. rewrite Hw. reflexivity.
Defined.

(** [reload_payload_of_one_array] on the sample project. *)
Lemma reload_payload_of_one_array_witness :
  let st := steps (E := sample) [Notify "./a.css"; TimerFires] (sample_watching "cli") in
  let c := {| cycleQueue := ["./a.css"]; cycleIsResetConfig := false |} in
  let w := {| incremental := false; buildRunning := true;
              active := ["./a.css"]; queue := [] |} in
  let run := sample_run [[Some 1; None; Some 2]] {[ 1 := "/a/"; 2 := "/b/" ]} in
  (forall name, rejects run name = None) /\
  caches (new_TemplateWriter (Collaborators := sample)) <> NoCaches /\
  _hasConfigInitialized st = true /\
  watchManager st = Some w /\
  fsResult run = Resolved (JNull, [[Some 1; None; Some 2]]) /\
  NoDup (filter_truthy [Some 1; None; Some 2]) /\
  exists st1,
    _watch_build (E := sample) c run st = (Resolved tt, st1) /\
    reloads (calls st1) =
      [ServeReload
         {| files := ["./a.css"]; subtype := Some "css";
            templates := [(1, "/blog/a/"); (2, "/blog/b/")] |}].
Proof.
  intros st c w run.
  assert (H1 : forall name, rejects run name = None) by reflexivity.
  assert (H2 : caches (new_TemplateWriter (Collaborators := sample)) <> NoCaches)
    by discriminate.
  assert (H3 : _hasConfigInitialized st = true) by reflexivity.
  assert (H4 : watchManager st = Some w) by reflexivity.
  assert (H5 : fsResult run = Resolved (JNull, [[Some 1; None; Some 2]])) by reflexivity.
  assert (H6 : NoDup (filter_truthy [Some 1; None; Some 2])).
  { cbn. apply NoDup_cons_2; [| apply NoDup_singleton].
    intros Hin. apply list_elem_of_singleton in Hin. discriminate. }
  repeat (split; [assumption |]).
  destruct (reload_payload_of_one_array (E := sample) c run st w JNull
              [Some 1; None; Some 2] H1 H2 H3 H4 H5 H6) as (st1 & Hrun & Hreloads).
  exists st1. split; [exact Hrun |]. rewrite Hreloads. reflexivity.
Defined.

(** [burst_starts_one_cycle] on the sample project: the configuration
    file and a post change within one burst. *)
Lemma burst_starts_one_cycle_witness :
  exited (sample_watching "cli") = false /\
  watchManager (sample_watching "cli") = Some new_EleventyWatch /\
  buildRunning new_EleventyWatch = false /\
  suspended
    (steps (E := sample)
       (map Notify ["./eleventy.config.js"; "./content/post.md"; "./eleventy.config.js"] ++
        [Notify "./content/post.md"; TimerFires])
       (sample_watching "cli")) =
    [{| cycleQueue := ["./eleventy.config.js"; "./content/post.md"];
        cycleIsResetConfig := false |}].
Proof.
  assert (H1 : exited (sample_watching "cli") = false) by reflexivity.
  assert (H2 : watchManager (sample_watching "cli") = Some new_EleventyWatch)
    by reflexivity.
  assert (H3 : buildRunning new_EleventyWatch = false) by reflexivity.
  repeat (split; [assumption |]).
  destruct (burst_starts_one_cycle (E := sample)
              ["./eleventy.config.js"; "./content/post.md"; "./eleventy.config.js"]
              "./content/post.md" (sample_watching "cli") new_EleventyWatch H1 H2 H3)
    as (Hsus & _).
  rewrite Hsus. reflexivity.
Defined.

(** [failed_cycle_recovery] on the sample project, called from a
    script: the build of [./a.css] throws while [./b.md] is pending;
    the notification for [./c.md] starts a cycle for both. *)
Lemma failed_cycle_recovery_witness :
  let st :=
    steps (E := sample) [Notify "./a.css"; TimerFires; Notify "./b.md"]
      (sample_watching "script") in
  let c := {| cycleQueue := ["./a.css"]; cycleIsResetConfig := false |} in
  let w := {| incremental := false; buildRunning := true;
              active := ["./a.css"]; queue := ["./b.md"] |} in
  let run := sample_failing_run sample_error in
  let st1 := snd (_watch_build (E := sample) c run (set_suspended (delete 0 (suspended st)) st)) in
  exited st = false /\
  suspended st !! 0 = Some c /\
  _hasConfigInitialized st = true /\
  watchManager st = Some w /\
  _watch_build (E := sample) c run (set_suspended (delete 0 (suspended st)) st) =
    (Rejected sample_error, st1) /\
  isEleventyBaseError sample_error = true /\
  suspended (steps (E := sample) [Settles 0 run; Notify "./c.md"; TimerFires] st) =
    [{| cycleQueue := ["./b.md"; "./c.md"]; cycleIsResetConfig := false |}].
Proof.
  intros st c w run st1.
  assert (H1 : exited st = false) by reflexivity.
  assert (H2 : suspended st !! 0 = Some c) by reflexivity.
  assert (H3 : _hasConfigInitialized st = true) by reflexivity.
  assert (H4 : watchManager st = Some w) by reflexivity.
  assert (H5 : _watch_build (E := sample) c run
                 (set_suspended (delete 0 (suspended st)) st) =
               (Rejected sample_error, st1)) by (vm_compute; reflexivity).
  assert (H6 : isEleventyBaseError sample_error = true) by reflexivity.
  repeat (split; [assumption |]).
  destruct (failed_cycle_recovery (E := sample) 0 c run st st1 w sample_error "./c.md"
              H1 H2 H3 H4 H5 H6) as [Hsus _].
  rewrite Hsus. reflexivity.
Defined.

(** [watch_refuses_to_start] on the sample project: before any
    initialisation, and with an initial build that fails. *)
Lemma watch_refuses_to_start_witness :
  let run := sample_failing_run sample_error in
  (exists e,
      watch (E := sample) (W := sample_watch_setup) run sample_constructed =
        (Rejected e, sample_constructed)) /\
  (exists st',
      watch (E := sample) (W := sample_watch_setup) run (sample_watching "cli") =
        (Rejected sample_error, st') /\
      watchManager st' = Some new_EleventyWatch /\
      collaborator_calls "chokidar.watch" (calls st') = []).
Proof.
  intros run. split.
  - exact (proj1 (watch_refuses_to_start (E := sample) (W := sample_watch_setup)
                    run sample_constructed) eq_refl).
  - destruct (proj2 (watch_refuses_to_start (E := sample) (W := sample_watch_setup)
                       run (sample_watching "cli"))
                sample_writer sample_error eq_refl eq_refl eq_refl (fun _ => eq_refl)
                eq_refl) as (st' & text & Hrun & Hwm & Hcalls).
    exists st'. split; [exact Hrun |]. split; [exact Hwm |].
    rewrite Hcalls. reflexivity.
Defined.

(** [watch_starts_idle] on the sample project. *)
Lemma watch_starts_idle_witness :
  let run := sample_run [[Some 1]] {[ 1 := "/a/" ]} in
  _hasConfigInitialized (sample_watching "cli") = true /\
  needsInit (sample_watching "cli") = false /\
  writer (sample_watching "cli") = Some sample_writer /\
  (forall name, rejects run name = None) /\
  (exists res, fsResult run = Resolved res) /\
  chokidarConfig (WatchSetup := sample_watch_setup) = Some ∅ /\
  suspended (sample_watching "cli") = [] /\
  in_flight (calls (sample_watching "cli")) = Some 0 /\
  exists st',
    watch (E := sample) (W := sample_watch_setup) run (sample_watching "cli") =
      (Resolved tt, st') /\
    idle st'.
Proof.
  intros run.
  assert (H1 : _hasConfigInitialized (sample_watching "cli") = true) by reflexivity.
  assert (H2 : needsInit (sample_watching "cli") = false) by reflexivity.
  assert (H3 : writer (sample_watching "cli") = Some sample_writer) by reflexivity.
  assert (H4 : forall name, rejects run name = None) by reflexivity.
  assert (H5 : exists res, fsResult run = Resolved res) by (eexists; reflexivity).
  assert (H6 : chokidarConfig (WatchSetup := sample_watch_setup) = Some ∅) by reflexivity.
  assert (H7 : suspended (sample_watching "cli") = []) by reflexivity.
  assert (H8 : in_flight (calls (sample_watching "cli")) = Some 0) by reflexivity.
  repeat (split; [assumption |]).
  destruct (watch_starts_idle (E := sample) (W := sample_watch_setup) run
              (sample_watching "cli") sample_writer ∅ H1 H2 H3 H4 H5 H6 H7 H8)
    as (st' & Hrun & _ & _ & _ & Hidle & _).
  exists st'. split; [exact Hrun | exact Hidle].
Defined.

(** [verbose_setting_before_init_is_lost]: a program asks for quiet
    before the initialisation, the configuration does not; the instance
    comes out verbose. *)
Lemma verbose_setting_before_init_is_lost_witness :
  let s := Verbose.constructed JUndefined None in
  Verbose._hasConfigInitialized s = false /\
  Verbose.verboseMode
    (Verbose.initializeConfig (JBool false) (Verbose.setIsVerbose (JBool false) s)) =
    Some true.
Proof.
  intros s. split; [reflexivity |].
  destruct (verbose_setting_before_init_is_lost (JBool false) (JBool false) s eq_refl)
    as [Hsame Hmode].
  rewrite Hsame, Hmode. vm_compute. reflexivity.
Defined.

(** [verbose_mode_in_sync]: with [DEBUG] set every part stays quiet,
    whatever the program asks for. *)
Lemma verbose_mode_in_sync_witness :
  let ops := [Verbose.SetVerboseMode (JBool true); Verbose.ResetConfig (JBool false)] in
  Verbose.sample_debugging =
    Verbose.initializeConfig (JBool false)
      (Verbose.constructed JUndefined (Some "Eleventy*")) /\
  Verbose._hasConfigInitialized Verbose.sample_debugging = true /\
  Verbose.all_set_to false
    (Verbose.setIsVerbose (JBool true)
       (fold_left (fun s o => Verbose.apply o s) ops Verbose.sample_debugging)).
Proof.
  intros ops. split; [reflexivity |]. split; [reflexivity |].
  exact (proj1 (verbose_mode_in_sync ops (JBool true) Verbose.sample_debugging eq_refl)).
Defined.

(** [reset_keeps_command_line_verbosity]: started with [--quiet], the
    instance stays quiet through a reset whose configuration is not
    quiet. *)
Lemma reset_keeps_command_line_verbosity_witness :
  Verbose.sample_quiet =
    Verbose.initializeConfig (JBool false) (Verbose.constructed (JBool true) None) /\
  Verbose._hasConfigInitialized Verbose.sample_quiet = true /\
  Verbose.verboseModeSetViaCommandLineParam Verbose.sample_quiet = Some true /\
  Verbose.resetConfig (JBool false) Verbose.sample_quiet = Verbose.sample_quiet /\
  Verbose.verboseMode Verbose.sample_quiet = Some false.
Proof.
  split; [reflexivity |]. split; [reflexivity |]. split; [reflexivity |].
  split; [| reflexivity].
  exact (proj1 (reset_keeps_command_line_verbosity (JBool false) Verbose.sample_quiet
                  eq_refl) eq_refl).
Defined.
